(** * Provisioning orchestration and post-deployment validation

    A shallow embedding of the backend services of the Proxmox VM deployer
    (app/services/proxmox_service.py, vm_service.py, template_service.py,
    validation_service.py, app/utils/port_checker.py and the batch endpoint
    of app/api/v1/vms.py), with the properties of the batch executor, the
    task waiter, the orchestrator and the validation engine.

    Python code is embedded as state-and-exception passing functions: a
    computation takes the current state and returns either a raised
    exception or a value, together with the new state.  The remote
    hypervisor and the network are an arbitrary deterministic machine
    [ProxmoxAPI W]; the clock is a fake clock advanced only by sleeping. *)

From Stdlib Require Import ZArith List String Ascii Bool Lia DecimalString.
From stdpp Require Import base gmap strings pretty list.

Local Open Scope string_scope.
Local Open Scope Z_scope.

(** ** Python values and string helpers *)

(** The JSON-like values that the hypervisor API returns inside dicts. *)
Inductive pyval :=
| PNone
| PBool (b : bool)
| PInt (z : Z)
| PStr (s : string).

Global Instance pyval_eq_dec : EqDecision pyval.
Proof. solve_decision. Defined.

(** Python truthiness, as used by [if x] and [x or y]. *)
Definition truthy (v : pyval) : bool :=
  match v with
  | PNone => false
  | PBool b => b
  | PInt z => negb (z =? 0)
  | PStr s => negb (String.eqb s "")
  end.

(** [str(v)], as used by f-strings. *)
Definition py_str (v : pyval) : string :=
  match v with
  | PNone => "None"
  | PBool true => "True"
  | PBool false => "False"
  | PInt z => pretty z
  | PStr s => s
  end.

(** [v == z] for an int [z]. *)
Definition py_eq_int (v : pyval) (z : Z) : bool :=
  match v with
  | PInt z' => z' =? z
  | PBool b => (if b then 1 else 0) =? z
  | _ => false
  end.

(** [v == s] for a str [s]. *)
Definition py_eq_str (v : pyval) (s : string) : bool :=
  match v with
  | PStr s' => String.eqb s' s
  | _ => false
  end.

(** A Python dict with string keys. *)
Abbreviation dict := (gmap string pyval).

(** [d.get(k)] and [d.get(k, default)]. *)
Definition dict_get (d : dict) (k : string) : pyval := default PNone (d !! k).
Definition dict_get_or (d : dict) (k : string) (dflt : pyval) : pyval :=
  default dflt (d !! k).

(** [s or dflt] for an optional string. *)
Definition str_or (s : option string) (dflt : string) : string :=
  match s with
  | Some x => if String.eqb x "" then dflt else x
  | None => dflt
  end.

(** Truthiness of optional fields of a request. *)
Definition opt_str_truthy (s : option string) : bool :=
  match s with Some x => negb (String.eqb x "") | None => false end.
Definition opt_int_truthy (z : option Z) : bool :=
  match z with Some x => negb (x =? 0) | None => false end.
Definition opt_list_truthy {A} (l : option (list A)) : bool :=
  match l with Some (_ :: _) => true | _ => false end.

Definition lower_ascii (c : ascii) : ascii :=
  let n := nat_of_ascii c in
  if (andb (Nat.leb 65 n) (Nat.leb n 90)) then ascii_of_nat (n + 32) else c.

(** [s.lower()] (ASCII letters). *)
Fixpoint lower (s : string) : string :=
  match s with
  | EmptyString => EmptyString
  | String c s' => String (lower_ascii c) (lower s')
  end.

(** [s.startswith(p)]. *)
Definition startswith (s p : string) : bool := String.prefix p s.

(** [sub in s] for strings. *)
Fixpoint contains (sub s : string) : bool :=
  String.prefix sub s ||
  match s with
  | EmptyString => false
  | String _ s' => contains sub s'
  end.

(** [sep.join(l)]. *)
Fixpoint join (sep : string) (l : list string) : string :=
  match l with
  | [] => ""
  | [x] => x
  | x :: rest => x +:+ sep +:+ join sep rest
  end.

(** ** Exceptions (app/core/exceptions.py and the library ones caught by name) *)

Inductive exn_class :=
| ProxmoxConnectionError
| VMCreationError
| VMCloneError
| VMNotFoundError
| ValidationError
| ResourceNotFoundError
| ConfigurationError
| TemplateNotFoundError
| InvalidVMIDError
| ResourceException        (* proxmoxer.core *)
| AuthenticationError      (* proxmoxer.core *)
| KeyError
| PydanticError            (* model construction rejected a field *)
| TimeoutError             (* asyncio.TimeoutError *)
| ConnectionRefusedError
| GaiError                 (* socket.gaierror *)
| OtherError.              (* any other subclass of Exception *)

Global Instance exn_class_eq_dec : EqDecision exn_class.
Proof. solve_decision. Defined.

(** An exception object: its class and [str(e)]. *)
Record exn := Exn { exn_cls : exn_class; exn_msg : string }.

(** The AttributeError of [v.attr] on a value without that method, and the
    TypeError of iterating over None. *)
Definition py_type_name (v : pyval) : string :=
  match v with
  | PNone => "NoneType"
  | PBool _ => "bool"
  | PInt _ => "int"
  | PStr _ => "str"
  end.
Definition attribute_error (v : pyval) (attr : string) : exn :=
  Exn OtherError ("'" +:+ py_type_name v +:+ "' object has no attribute '"
                  +:+ attr +:+ "'").
Definition not_iterable_error : exn :=
  Exn OtherError "'NoneType' object is not iterable".

(** ** Computations: state passing with exceptions *)

Definition M (S A : Type) : Type := S -> (exn + A) * S.

Definition ret {S A} (a : A) : M S A := fun s => (inr a, s).
Definition raise {S A} (e : exn) : M S A := fun s => (inl e, s).
Definition bind {S A B} (m : M S A) (k : A -> M S B) : M S B :=
  fun s => match m s with
           | (inr a, s') => k a s'
           | (inl e, s') => (inl e, s')
           end.

(** [try: body except Exception as e: handler e]; the side effects of the
    body up to the raise are kept. *)
Definition try_ {S A} (body : M S A) (handler : exn -> M S A) : M S A :=
  fun s => match body s with
           | (inl e, s') => handler e s'
           | (inr a, s') => (inr a, s')
           end.

Global Instance M_ret {S} : MRet (M S) := fun A => @ret S A.
Global Instance M_bind {S} : MBind (M S) := fun A B k m => bind m k.

(** [d[k]]: raises KeyError when the key is missing. *)
Definition getitem {S} (d : dict) (k : string) : M S pyval :=
  match d !! k with
  | Some v => ret v
  | None => raise (Exn KeyError ("'" +:+ k +:+ "'"))
  end.


(** ** Configuration (app/config.py), the fields the services read *)

Record Settings := {
  proxmox_user : string;
  default_node : string;
  default_storage : string;
  default_network_bridge : string;
  vmid_min : Z;
  vmid_max : Z;
  validation_timeout : Z;
  validation_ssh_port : Z;
  validation_rdp_port : Z;
  validation_retry_interval : Z;
  enable_auto_start : bool;
}.

(** ** Request and response schemas (app/schemas) *)

Record VMCreateRequest := {
  cr_vmid : option Z;
  cr_name : string;
  cr_node : option string;
  cr_cores : Z;
  cr_sockets : Z;
  cr_cpu_type : string;
  cr_memory : Z;
  cr_disk_size : Z;
  cr_storage : option string;
  cr_network_bridge : option string;
  cr_network_model : string;
  cr_os_type : string;
  cr_bios : string;
  cr_machine : string;
  cr_iso : option string;
  cr_virtio_iso : option string;
  cr_start_on_creation : bool;
  cr_enable_guest_agent : bool;
  cr_description : option string;
  cr_tags : option (list string);
}.

(** [VMCreateResponse] and [CloneResponse] have the same fields. *)
Record VMCreateResponse := {
  resp_vmid : Z;
  resp_name : string;
  resp_node : string;
  resp_status : string;
  resp_message : string;
  resp_task_id : option string;
}.
Abbreviation CloneResponse := VMCreateResponse (only parsing).

Record BatchVMCreateResponse := {
  batch_results : list VMCreateResponse;
  batch_total : Z;
  batch_successful : Z;
  batch_failed : Z;
}.

(** [CloudInitConfig]: the network fields are read by the services; the
    users, packages and commands only reach the YAML generator and are kept
    as one opaque payload. *)
Record CloudInitConfig := {
  ci_ipconfig : option string;
  ci_nameserver : option string;
  ci_searchdomain : option string;
  ci_payload : string;
}.

Record CloneRequest := {
  cl_source_vmid : Z;
  cl_new_vmid : option Z;
  cl_name : string;
  cl_node : option string;
  cl_storage : option string;
  cl_full_clone : bool;
  cl_cores : option Z;
  cl_memory : option Z;
  cl_start_after_clone : bool;
  cl_description : option string;
  cl_tags : option (list string);
  cl_cloudinit : option CloudInitConfig;
}.

Record VMInfo := {
  vi_vmid : Z;
  vi_name : string;
  vi_node : string;
  vi_status : string;
  vi_cores : option Z;
  vi_memory : option Z;
  vi_uptime : option Z;
}.

Record ValidationCheck := {
  vc_passed : bool;
  vc_message : option string;
  vc_details : option dict;
  vc_required : bool;
}.

(** The [checks] dict of a validation run; a Python dict keeps insertion
    order, so it is an association list with assignment by key. *)
Abbreviation checks_dict := (list (string * ValidationCheck)).

Fixpoint checks_set (d : checks_dict) (k : string) (v : ValidationCheck)
  : checks_dict :=
  match d with
  | [] => [(k, v)]
  | (k', v') :: rest =>
      if String.eqb k' k then (k', v) :: rest else (k', v') :: checks_set rest k v
  end.

Fixpoint checks_lookup (d : checks_dict) (k : string) : option ValidationCheck :=
  match d with
  | [] => None
  | (k', v') :: rest => if String.eqb k' k then Some v' else checks_lookup rest k
  end.

Record ValidationResult := {
  vr_vmid : Z;
  vr_status : string;
  vr_ip_address : option string;
  vr_checks : checks_dict;
  vr_message : option string;
  vr_timestamp : Z;        (* default_factory: the clock at construction *)
}.

(** Guest network interfaces as reported by the QEMU agent: JSON objects.
    A key is absent ([None]) or present with a value, which may be null
    ([Some PNone] for a field, [Some None] for the list of addresses). *)
Record ip_info := {
  ip_address : option pyval;        (* 'ip-address' *)
  ip_address_type : option pyval;   (* 'ip-address-type' *)
}.
Record iface := {
  ip_addresses : option (option (list ip_info));  (* 'ip-addresses' *)
}.

(** ** The audit sink (app/services/audit_service.py)

    The sink is an external collaborator; what is recorded is each call to
    it with its arguments. *)
Inductive audit_entry :=
| AuditVMCreation (request : VMCreateRequest) (username : string)
    (result : option VMCreateResponse) (error : option string)
| AuditTemplateClone (request : CloneRequest) (username : string)
    (template_name : option pyval) (result : option CloneResponse)
    (error : option string)
| AuditBatch (operation_type : string) (username : string)
    (total successful failed : Z)
    (requests : list VMCreateRequest) (results : list VMCreateResponse).

(** ** Observable events, in the order they happen *)
Inductive event :=
| EvConnect                                  (* ProxmoxAPI(host, user=..., ...) *)
| EvVersionGet                               (* version.get() *)
| EvNodesGet                                 (* nodes.get() *)
| EvQemuGet (node : pyval)                   (* nodes(node).qemu.get() *)
| EvConfigGet (node : pyval) (vmid : Z)      (* nodes(node).qemu(vmid).config.get() *)
| EvStatusGet (node : pyval) (vmid : Z)      (* ...status.current.get() *)
| EvNextId                                   (* cluster.nextid.get() *)
| EvClonePost (node : pyval) (source_vmid : Z) (params : dict)
| EvQemuPost (node : pyval) (params : dict)  (* nodes(node).qemu.post(...) *)
| EvStartPost (node : pyval) (vmid : Z)
| EvStopPost (node : pyval) (vmid : Z)
| EvDelete (node : pyval) (vmid : Z) (purge : Z)
| EvTaskStatusGet (node : pyval) (upid : string)
| EvConfigPut (node : pyval) (vmid : Z) (params : dict)
| EvAgentNetworkGet (node : pyval) (vmid : Z)
| EvSnippetUpload (node : pyval) (vmid : Z) (user_data : string)
| EvOpenConnection (host : string) (port : Z) (timeout : Z)
| EvSleep (seconds : Z)
| EvAudit (entry : audit_entry).

(** ** The remote side

    An external call sees the current time and the state [W] of the remote
    side, and either raises or returns, with the remote side's new state. *)
Definition ext (W A : Type) : Type := Z -> W -> (exn + A) * W.

Record ProxmoxAPI (W : Type) := {
  api_connect : ext W unit;
  api_version_get : ext W dict;
  api_nodes_get : ext W (list dict);
  api_qemu_get : pyval -> ext W (list dict);
  api_config_get : pyval -> Z -> ext W dict;
  api_status_current_get : pyval -> Z -> ext W dict;
  (* int(cluster.nextid.get()), a failed conversion counted as a raise *)
  api_nextid_get : ext W Z;
  api_clone_post : pyval -> Z -> dict -> ext W string;
  api_qemu_post : pyval -> dict -> ext W string;
  api_start_post : pyval -> Z -> ext W string;
  api_stop_post : pyval -> Z -> ext W string;
  api_delete : pyval -> Z -> Z -> ext W string;
  api_task_status_get : pyval -> string -> ext W dict;
  api_config_put : pyval -> Z -> dict -> ext W unit;
  (* agent('network-get-interfaces').get(): the 'result' entry, if any *)
  api_agent_network_get : pyval -> Z -> ext W (option (list iface));
  (* paramiko upload of the user-data snippet *)
  ssh_upload_snippet : pyval -> Z -> string -> ext W unit;
  (* asyncio.wait_for(asyncio.open_connection(host, port), timeout) and
     the closing of the connection *)
  net_open_connection : string -> Z -> Z -> ext W unit;
}.
Arguments api_connect {W}. Arguments api_version_get {W}.
Arguments api_nodes_get {W}. Arguments api_qemu_get {W}.
Arguments api_config_get {W}. Arguments api_status_current_get {W}.
Arguments api_nextid_get {W}. Arguments api_clone_post {W}.
Arguments api_qemu_post {W}. Arguments api_start_post {W}.
Arguments api_stop_post {W}. Arguments api_delete {W}.
Arguments api_task_status_get {W}. Arguments api_config_put {W}.
Arguments api_agent_network_get {W}. Arguments ssh_upload_snippet {W}.
Arguments net_open_connection {W}.

(** The state of one run: the remote side, the fake clock, whether the
    service holds a connection ([ProxmoxService._proxmox is not None]), and
    the events so far (oldest first). *)
Record State (W : Type) := mkState {
  world : W;
  now : Z;
  connected : bool;
  trace : list event;
}.
Arguments mkState {W}. Arguments world {W}. Arguments now {W}.
Arguments connected {W}. Arguments trace {W}.

Definition init_state {W} (w : W) : State W :=
  {| world := w; now := 0; connected := false; trace := [] |}.

(** ** Primitive effects *)
Section Primitives.
Context {W : Type}.

(** An external call: logged, answered by the remote side. *)
Definition call {A} (ev : event) (f : ext W A) : M (State W) A :=
  fun s =>
    let '(r, w') := f (now s) (world s) in
    (r, {| world := w'; now := now s; connected := connected s;
           trace := trace s ++ [ev] |}).

(** [time.time()]. *)
Definition time_time : M (State W) Z := fun s => (inr (now s), s).

(** [time.sleep(d)] and [await asyncio.sleep(d)]. *)
Definition sleep (d : Z) : M (State W) unit :=
  fun s => (inr tt, {| world := world s; now := now s + d;
                       connected := connected s;
                       trace := trace s ++ [EvSleep d] |}).

Definition get_connected : M (State W) bool := fun s => (inr (connected s), s).
Definition set_connected (b : bool) : M (State W) unit :=
  fun s => (inr tt, {| world := world s; now := now s; connected := b;
                       trace := trace s |}).

(** A call to the audit logger. *)
Definition audit (entry : audit_entry) : M (State W) unit :=
  fun s => (inr tt, {| world := world s; now := now s;
                       connected := connected s;
                       trace := trace s ++ [EvAudit entry] |}).
End Primitives.

(** ** Model construction (pydantic)

    A field accepts a value of its own type as it is.  A value of another
    type goes through the library's conversion, which accepts some values
    (the string '2048' for an int field) and rejects the others; which ones
    it accepts depends on the version of the library, so the conversions are
    parameters of the embedding. *)
Record Pydantic := {
  lax_int : pyval -> option Z;        (* conversion to int of a non-int *)
  lax_str : pyval -> option string;   (* conversion to str of a non-str *)
  to_float : pyval -> option pyval;   (* conversion to float *)
}.

(** A [str] field and an [Optional[int]] field. *)
Definition as_str {S} (pydantic : Pydantic) (field : string) (v : pyval)
  : M S string :=
  match v with
  | PStr s => ret s
  | _ =>
      match lax_str pydantic v with
      | Some s => ret s
      | None => raise (Exn PydanticError
                         (field +:+ ": Input should be a valid string"))
      end
  end.
Definition as_opt_int {S} (pydantic : Pydantic) (field : string) (v : pyval)
  : M S (option Z) :=
  match v with
  | PNone => ret None
  | PInt z => ret (Some z)
  | _ =>
      match lax_int pydantic v with
      | Some z => ret (Some z)
      | None => raise (Exn PydanticError
                         (field +:+ ": Input should be a valid integer"))
      end
  end.

(** An [Optional[float]] field; the accepted value is kept as the library
    returns it. *)
Definition as_opt_float {S} (pydantic : Pydantic) (field : string) (v : pyval)
  : M S pyval :=
  match v with
  | PNone => ret PNone
  | _ =>
      match to_float pydantic v with
      | Some f => ret f
      | None => raise (Exn PydanticError
                         (field +:+ ": Input should be a valid number"))
      end
  end.

(** ** ProxmoxService (app/services/proxmox_service.py) *)
Module ProxmoxService.
Section Service.
Context {W : Type} (api : ProxmoxAPI W).
Abbreviation Cmd := (M (State W)).

(** [connect]: build the client and test it. *)
Definition connect : Cmd unit :=
  try_ (call EvConnect (api_connect api);;
        call EvVersionGet (api_version_get api);;
        mret tt)
       (fun e =>
          match exn_cls e with
          | AuthenticationError =>
              raise (Exn ProxmoxConnectionError
                       ("Authentication failed: " +:+ exn_msg e))
          | _ =>
              raise (Exn ProxmoxConnectionError
                       ("Failed to connect to Proxmox: " +:+ exn_msg e))
          end).

(** The [proxmox] property: connect on first use, re-connect when the
    connection test fails. *)
Definition proxmox : Cmd unit :=
  c ← get_connected;
  if negb c then (connect;; set_connected true)
  else try_ (call EvVersionGet (api_version_get api);; mret tt)
            (fun _ => connect;; set_connected true).

Definition get_version : Cmd dict :=
  try_ (proxmox;; call EvVersionGet (api_version_get api))
       (fun e => raise (Exn ProxmoxConnectionError
                          ("Failed to get version: " +:+ exn_msg e))).

Definition list_nodes : Cmd (list dict) :=
  try_ (proxmox;; call EvNodesGet (api_nodes_get api))
       (fun e => raise (Exn ProxmoxConnectionError
                          ("Failed to list nodes: " +:+ exn_msg e))).

(** The loop of [list_vms] over the nodes, [all_vms] accumulated. *)
Fixpoint list_vms_nodes (nodes : list dict) (all_vms : list dict)
  : Cmd (list dict) :=
  match nodes with
  | [] => mret all_vms
  | node_info :: rest =>
      node_name ← getitem node_info "node";
      proxmox;;
      vms ← call (EvQemuGet node_name) (api_qemu_get api node_name);
      list_vms_nodes rest (all_vms ++ map (fun vm => <["node" := node_name]> vm) vms)
  end.

Definition list_vms (node : pyval) : Cmd (list dict) :=
  try_ (if truthy node
        then (proxmox;; call (EvQemuGet node) (api_qemu_get api node))
        else (nodes ← list_nodes; list_vms_nodes nodes []))
       (fun e => raise (Exn ProxmoxConnectionError
                          ("Failed to list VMs: " +:+ exn_msg e))).

Definition not_found_on (vmid : Z) (node : pyval) : string :=
  "VM " +:+ pretty vmid +:+ " not found on node " +:+ py_str node.

Definition get_vm_config (node : pyval) (vmid : Z) : Cmd dict :=
  try_ (proxmox;; call (EvConfigGet node vmid) (api_config_get api node vmid))
       (fun e =>
          match exn_cls e with
          | ResourceException => raise (Exn VMNotFoundError (not_found_on vmid node))
          | _ => raise (Exn ProxmoxConnectionError
                          ("Failed to get VM config: " +:+ exn_msg e))
          end).

Definition get_vm_status (node : pyval) (vmid : Z) : Cmd dict :=
  try_ (proxmox;;
        call (EvStatusGet node vmid) (api_status_current_get api node vmid))
       (fun e =>
          match exn_cls e with
          | ResourceException => raise (Exn VMNotFoundError (not_found_on vmid node))
          | _ => raise (Exn ProxmoxConnectionError
                          ("Failed to get VM status: " +:+ exn_msg e))
          end).

(** The loop of [find_vm_node] over the listing. *)
Fixpoint find_vm_node_loop (all_vms : list dict) (vmid : Z) : Cmd pyval :=
  match all_vms with
  | [] => mret PNone
  | vm :: rest =>
      v ← getitem vm "vmid";
      if py_eq_int v vmid then mret (dict_get vm "node")
      else find_vm_node_loop rest vmid
  end.

Definition find_vm_node (vmid : Z) : Cmd pyval :=
  try_ (all_vms ← list_vms PNone; find_vm_node_loop all_vms vmid)
       (fun _ => mret PNone).

Definition get_next_vmid : Cmd Z :=
  try_ (proxmox;; call EvNextId (api_nextid_get api))
       (fun e => raise (Exn ProxmoxConnectionError
                          ("Failed to get next VMID: " +:+ exn_msg e))).

(** [clone_params], with the keyword arguments merged last. *)
Definition clone_params (new_vmid : Z) (name storage : option string)
    (full : Z) (kwargs : dict) : dict :=
  let p0 : dict := <["full" := PInt full]> (<["newid" := PInt new_vmid]> ∅) in
  let p1 := if opt_str_truthy name
            then <["name" := PStr (default "" name)]> p0 else p0 in
  let p2 := if opt_str_truthy storage
            then <["storage" := PStr (default "" storage)]> p1 else p1 in
  kwargs ∪ p2.

Definition clone_vm (node : pyval) (source_vmid new_vmid : Z)
    (name storage : option string) (full : Z) (kwargs : dict) : Cmd string :=
  try_ (let params := clone_params new_vmid name storage full kwargs in
        proxmox;;
        call (EvClonePost node source_vmid params)
             (api_clone_post api node source_vmid params))
       (fun e =>
          match exn_cls e with
          | ResourceException =>
              if contains "already exists" (lower (exn_msg e))
              then raise (Exn InvalidVMIDError
                            ("VM ID " +:+ pretty new_vmid +:+ " already exists"))
              else raise (Exn VMCloneError ("Failed to clone VM: " +:+ exn_msg e))
          | _ => raise (Exn VMCloneError ("Failed to clone VM: " +:+ exn_msg e))
          end).

Definition create_vm (node : pyval) (vmid : Z) (kwargs : dict) : Cmd string :=
  try_ (let vm_params : dict := kwargs ∪ <["vmid" := PInt vmid]> ∅ in
        proxmox;;
        call (EvQemuPost node vm_params) (api_qemu_post api node vm_params))
       (fun e =>
          match exn_cls e with
          | ResourceException =>
              if contains "already exists" (lower (exn_msg e))
              then raise (Exn InvalidVMIDError
                            ("VM ID " +:+ pretty vmid +:+ " already exists"))
              else raise (Exn VMCreationError ("Failed to create VM: " +:+ exn_msg e))
          | _ => raise (Exn VMCreationError ("Failed to create VM: " +:+ exn_msg e))
          end).

Definition start_vm (node : pyval) (vmid : Z) : Cmd string :=
  try_ (proxmox;; call (EvStartPost node vmid) (api_start_post api node vmid))
       (fun e =>
          match exn_cls e with
          | ResourceException => raise (Exn VMNotFoundError (not_found_on vmid node))
          | _ => raise (Exn ProxmoxConnectionError
                          ("Failed to start VM: " +:+ exn_msg e))
          end).

Definition stop_vm (node : pyval) (vmid : Z) : Cmd string :=
  try_ (proxmox;; call (EvStopPost node vmid) (api_stop_post api node vmid))
       (fun e =>
          match exn_cls e with
          | ResourceException => raise (Exn VMNotFoundError (not_found_on vmid node))
          | _ => raise (Exn ProxmoxConnectionError
                          ("Failed to stop VM: " +:+ exn_msg e))
          end).

Definition delete_vm (node : pyval) (vmid : Z) (purge : bool) : Cmd string :=
  try_ (let p := if purge then 1 else 0 in
        proxmox;; call (EvDelete node vmid p) (api_delete api node vmid p))
       (fun e =>
          match exn_cls e with
          | ResourceException => raise (Exn VMNotFoundError (not_found_on vmid node))
          | _ => raise (Exn ProxmoxConnectionError
                          ("Failed to delete VM: " +:+ exn_msg e))
          end).

Definition get_task_status (node : pyval) (upid : string) : Cmd dict :=
  try_ (proxmox;;
        call (EvTaskStatusGet node upid) (api_task_status_get api node upid))
       (fun e => raise (Exn ProxmoxConnectionError
                          ("Failed to get task status: " +:+ exn_msg e))).

(** One round of the loop of [wait_for_task]: [Some b] when the round
    returns [b], [None] when it slept and the loop goes round again. *)
Definition wait_for_task_poll (node : pyval) (upid : string)
  : Cmd (option bool) :=
  try_ (status ← get_task_status node upid;
        st ← getitem status "status";
        if py_eq_str st "stopped"
        then mret (Some (py_eq_str (dict_get status "exitstatus") "OK"))
        else (sleep 2;; mret None))
       (fun _ => sleep 2;; mret None).

(** [while time.time() - start_time < timeout: ...; return False].
    Every round that does not return sleeps two seconds, so the loop runs
    at most [timeout] rounds; [fuel] is that bound (see
    [wait_for_task_loop_fuel], which shows it is never used up). *)
Fixpoint wait_for_task_loop (fuel : nat) (node : pyval) (upid : string)
    (start_time timeout : Z) : Cmd bool :=
  t ← time_time;
  if t - start_time <? timeout then
    match fuel with
    | O => mret false
    | S fuel' =>
        r ← wait_for_task_poll node upid;
        match r with
        | Some b => mret b
        | None => wait_for_task_loop fuel' node upid start_time timeout
        end
    end
  else mret false.

Definition wait_for_task (node : pyval) (upid : string) (timeout : Z)
  : Cmd bool :=
  start_time ← time_time;
  wait_for_task_loop (Z.to_nat timeout) node upid start_time timeout.

Definition update_vm_config (node : pyval) (vmid : Z) (kwargs : dict)
  : Cmd unit :=
  try_ (proxmox;;
        call (EvConfigPut node vmid kwargs) (api_config_put api node vmid kwargs))
       (fun e =>
          match exn_cls e with
          | ResourceException => raise (Exn VMNotFoundError (not_found_on vmid node))
          | _ => raise (Exn ProxmoxConnectionError
                          ("Failed to update VM config: " +:+ exn_msg e))
          end).

(** [get_vm_network_interfaces]: [None] on any failure, [[]] when the
    answer has no 'result' entry. *)
Definition get_vm_network_interfaces (node : pyval) (vmid : Z)
  : Cmd (option (list iface)) :=
  try_ (proxmox;;
        result ← call (EvAgentNetworkGet node vmid)
                      (api_agent_network_get api node vmid);
        mret (Some (default [] result)))
       (fun _ => mret None).
End Service.
End ProxmoxService.

(** ** VMService (app/services/vm_service.py) *)
Module VMService.
Section Service.
Context {W : Type} (api : ProxmoxAPI W) (settings : Settings).
Variable pydantic : Pydantic.
Abbreviation Cmd := (M (State W)).

Definition outside_range_msg (vmid : Z) : string :=
  "VM ID " +:+ pretty vmid +:+ " is outside allowed range (" +:+
  pretty (vmid_min settings) +:+ "-" +:+ pretty (vmid_max settings) +:+ ")".

(** [create_vm], lines 35-48: the target node and the identifier. *)
Definition create_vm_allocate (request : VMCreateRequest) : Cmd (string * Z) :=
  let node := str_or (cr_node request) (default_node settings) in
  vmid ← (if opt_int_truthy (cr_vmid request)
          then mret (default 0 (cr_vmid request))
          else ProxmoxService.get_next_vmid api);
  if (vmid <? vmid_min settings) || (vmid >? vmid_max settings)
  then raise (Exn InvalidVMIDError (outside_range_msg vmid))
  else mret (node, vmid).

(** [create_vm], lines 50-98: the configuration sent to the hypervisor. *)
Definition vm_config (request : VMCreateRequest) : dict :=
  let storage := str_or (cr_storage request) (default_storage settings) in
  let network_bridge :=
    str_or (cr_network_bridge request) (default_network_bridge settings) in
  let c0 : dict :=
    <["machine" := PStr (cr_machine request)]>
    (<["bios" := PStr (cr_bios request)]>
    (<["ostype" := PStr (if String.eqb (cr_os_type request) "linux"
                         then "l26" else "win11")]>
    (<["net0" := PStr (cr_network_model request +:+ ",bridge=" +:+ network_bridge)]>
    (<["memory" := PInt (cr_memory request)]>
    (<["cpu" := PStr (cr_cpu_type request)]>
    (<["sockets" := PInt (cr_sockets request)]>
    (<["cores" := PInt (cr_cores request)]>
    (<["name" := PStr (cr_name request)]> ∅)))))))) in
  let c1 := if String.eqb (cr_bios request) "ovmf"
            then <["efidisk0" := PStr (storage +:+ ":1,efitype=4m,pre-enrolled-keys=1")]> c0
            else c0 in
  let c2 := <["scsihw" := PStr "virtio-scsi-pci"]>
            (<["scsi0" := PStr (storage +:+ ":" +:+ pretty (cr_disk_size request))]> c1) in
  let c3 := if cr_enable_guest_agent request then <["agent" := PStr "1"]> c2 else c2 in
  let c4 := if opt_str_truthy (cr_iso request)
            then <["ide2" := PStr (default "" (cr_iso request) +:+ ",media=cdrom")]> c3
            else c3 in
  let c5 := if opt_str_truthy (cr_virtio_iso request)
            then <["ide0" := PStr (default "" (cr_virtio_iso request) +:+ ",media=cdrom")]> c4
            else c4 in
  let c6 := <["boot" := PStr "order=ide2;scsi0"]> c5 in
  let c7 := if opt_str_truthy (cr_description request)
            then <["description" := PStr (default "" (cr_description request))]> c6
            else c6 in
  if opt_list_truthy (cr_tags request)
  then <["tags" := PStr (join ";" (default [] (cr_tags request)))]> c7
  else c7.

(** [create_vm], lines 100-107: submit and await completion. *)
Definition create_vm_submit (request : VMCreateRequest) (node : string)
    (vmid : Z) : Cmd string :=
  task_id ← ProxmoxService.create_vm api (PStr node) vmid (vm_config request);
  creation_success ← ProxmoxService.wait_for_task api (PStr node) task_id 120;
  if negb creation_success
  then raise (Exn VMCreationError "VM creation timed out or failed")
  else mret task_id.

(** [create_vm], lines 109-120: the optional start; the status and the
    message of the response. *)
Definition create_vm_start (request : VMCreateRequest) (node : string)
    (vmid : Z) : Cmd (string * string) :=
  if cr_start_on_creation request && enable_auto_start settings
  then try_ (ProxmoxService.start_vm api (PStr node) vmid;;
             mret ("started",
                   "VM " +:+ pretty vmid +:+ " created and started successfully"))
            (fun e =>
               mret ("created",
                     "VM " +:+ pretty vmid +:+ " created but failed to start: "
                     +:+ exn_msg e))
  else mret ("created", "VM " +:+ pretty vmid +:+ " created successfully").

Definition create_vm (request : VMCreateRequest) : Cmd VMCreateResponse :=
  try_ ('(node, vmid) ← create_vm_allocate request;
        task_id ← create_vm_submit request node vmid;
        '(status, message) ← create_vm_start request node vmid;
        let response :=
          {| resp_vmid := vmid; resp_name := cr_name request;
             resp_node := node; resp_status := status;
             resp_message := message; resp_task_id := Some task_id |} in
        audit (AuditVMCreation request (proxmox_user settings)
                               (Some response) None);;
        mret response)
       (fun e =>
          match exn_cls e with
          | InvalidVMIDError | VMCreationError =>
              audit (AuditVMCreation request (proxmox_user settings)
                                     None (Some (exn_msg e)));;
              raise e
          | _ =>
              audit (AuditVMCreation request (proxmox_user settings) None
                       (Some ("Unexpected error: " +:+ exn_msg e)));;
              raise (Exn VMCreationError
                       ("Failed to create VM: " +:+ exn_msg e))
          end).

Definition get_vm_info (vmid : Z) : Cmd VMInfo :=
  try_ (node ← ProxmoxService.find_vm_node api vmid;
        if negb (truthy node)
        then raise (Exn VMNotFoundError ("VM " +:+ pretty vmid +:+ " not found"))
        else
          status ← ProxmoxService.get_vm_status api node vmid;
          config ← ProxmoxService.get_vm_config api node vmid;
          name ← as_str pydantic "name"
                   (dict_get_or config "name" (PStr ("vm-" +:+ pretty vmid)));
          node' ← as_str pydantic "node" node;
          st ← as_str pydantic "status" (dict_get_or status "status" (PStr "unknown"));
          cores ← as_opt_int pydantic "cores"
                    (dict_get_or config "cores" (dict_get config "cpus"));
          memory ← as_opt_int pydantic "memory" (dict_get config "memory");
          uptime ← as_opt_int pydantic "uptime" (dict_get status "uptime");
          mret {| vi_vmid := vmid; vi_name := name; vi_node := node';
                  vi_status := st; vi_cores := cores; vi_memory := memory;
                  vi_uptime := uptime |})
       (fun e =>
          match exn_cls e with
          | VMNotFoundError => raise e
          | _ => raise (Exn ProxmoxConnectionError
                          ("Failed to get VM info: " +:+ exn_msg e))
          end).

(** [validate_vm_config]: the pair of ["valid"] and ["issues"]. *)
Definition validate_vm_config (request : VMCreateRequest)
  : bool * list string :=
  let issues0 : list string := [] in
  let issues1 :=
    if (cr_cores request <? 1) || (cr_cores request >? 256)
    then (issues0 ++ ["cores must be between 1 and 256"])%list else issues0 in
  let issues2 :=
    if cr_memory request <? 512
    then (issues1 ++ ["memory must be at least 512 MB"])%list else issues1 in
  let issues3 :=
    if cr_disk_size request <? 8
    then (issues2 ++ ["disk_size must be at least 8 GB"])%list else issues2 in
  let issues4 :=
    if negb (String.eqb (cr_os_type request) "linux"
             || String.eqb (cr_os_type request) "windows")
    then (issues3 ++ ["os_type must be 'linux' or 'windows'"])%list else issues3 in
  (Nat.eqb (length issues4) 0, issues4).

(** [VMStatus] (app/schemas/vm.py); the CPU usage is a float and is kept
    as the value the model library made of the one the API returned. *)
Record VMStatus := {
  vs_vmid : Z;
  vs_node : string;
  vs_status : string;
  vs_uptime : option Z;
  vs_cpu : pyval;
  vs_memory : option Z;
  vs_maxmem : option Z;
}.

Definition get_vm_status (vmid : Z) : Cmd VMStatus :=
  try_ (node ← ProxmoxService.find_vm_node api vmid;
        if negb (truthy node)
        then raise (Exn VMNotFoundError ("VM " +:+ pretty vmid +:+ " not found"))
        else
          status ← ProxmoxService.get_vm_status api node vmid;
          node' ← as_str pydantic "node" node;
          st ← as_str pydantic "status" (dict_get_or status "status" (PStr "unknown"));
          uptime ← as_opt_int pydantic "uptime" (dict_get status "uptime");
          cpu ← as_opt_float pydantic "cpu" (dict_get status "cpu");
          memory ← as_opt_int pydantic "memory" (dict_get status "mem");
          maxmem ← as_opt_int pydantic "maxmem" (dict_get status "maxmem");
          mret {| vs_vmid := vmid; vs_node := node'; vs_status := st;
                  vs_uptime := uptime; vs_cpu := cpu;
                  vs_memory := memory; vs_maxmem := maxmem |})
       (fun e =>
          match exn_cls e with
          | VMNotFoundError => raise e
          | _ => raise (Exn ProxmoxConnectionError
                          ("Failed to get VM status: " +:+ exn_msg e))
          end).

End Service.
End VMService.

(** ** Cloud-init helpers (app/utils/cloudinit.py) *)
Module CloudInit.
Section Helpers.
Context {W : Type} (api : ProxmoxAPI W).
(** [generate_user_data]: the YAML text, produced by the YAML library. *)
Variable generate_user_data : CloudInitConfig -> string -> string.

(** [parse_ipconfig].  The loop over the comma-separated parts fills
    [config] exactly when some part, hence the string, contains '='. *)
Definition parse_ipconfig (ipconfig_str : string) : dict :=
  if String.eqb ipconfig_str "" then {["ip" := PStr "dhcp"]}
  else if contains "=" ipconfig_str && contains "," ipconfig_str
  then {["ipconfig0" := PStr ipconfig_str]}
  else if contains "=" ipconfig_str
  then {["ipconfig0" := PStr ipconfig_str]}
  else {["ip" := PStr "dhcp"]}.

(** [upload_custom_userdata]: the upload over SSH and the snippet path. *)
Definition upload_custom_userdata (node : pyval) (vmid : Z)
    (user_data : string) : M (State W) string :=
  call (EvSnippetUpload node vmid user_data)
       (ssh_upload_snippet api node vmid user_data);;
  mret ("local:snippets/user-data-vm" +:+ pretty vmid +:+ ".yml").

Definition apply_custom_cloudinit (node : pyval) (vmid : Z)
    (config : CloudInitConfig) (hostname : string) : M (State W) unit :=
  let user_data := generate_user_data config hostname in
  snippet_path ← upload_custom_userdata node vmid user_data;
  let p0 : dict := {["cicustom" := PStr ("user=" +:+ snippet_path)]} in
  let p1 := if opt_str_truthy (ci_ipconfig config)
            then parse_ipconfig (default "" (ci_ipconfig config)) ∪ p0 else p0 in
  let p2 := if opt_str_truthy (ci_nameserver config)
            then <["nameserver" := PStr (default "" (ci_nameserver config))]> p1
            else p1 in
  let p3 := if opt_str_truthy (ci_searchdomain config)
            then <["searchdomain" := PStr (default "" (ci_searchdomain config))]> p2
            else p2 in
  ProxmoxService.update_vm_config api node vmid p3.
End Helpers.
End CloudInit.

(** ** TemplateService (app/services/template_service.py) *)
Module TemplateService.
Section Service.
Context {W : Type} (api : ProxmoxAPI W) (settings : Settings).
Variable generate_user_data : CloudInitConfig -> string -> string.
Abbreviation Cmd := (M (State W)).

Definition wait_for_clone_completion (node : pyval) (task_id : string)
    (timeout : Z) : Cmd bool :=
  ProxmoxService.wait_for_task api node task_id timeout.

(** The parameters collected by [_apply_customizations]. *)
Definition customization_params (request : CloneRequest) : dict :=
  let p0 : dict := ∅ in
  let p1 := if opt_int_truthy (cl_cores request)
            then <["cores" := PInt (default 0 (cl_cores request))]> p0 else p0 in
  let p2 := if opt_int_truthy (cl_memory request)
            then <["memory" := PInt (default 0 (cl_memory request))]> p1 else p1 in
  if opt_list_truthy (cl_tags request)
  then <["tags" := PStr (join ";" (default [] (cl_tags request)))]> p2
  else p2.

Definition _apply_customizations (node : pyval) (vmid : Z)
    (request : CloneRequest) : Cmd unit :=
  try_ (let update_params := customization_params request in
        if bool_decide (update_params = ∅) then mret tt
        else ProxmoxService.update_vm_config api node vmid update_params)
       (fun e => raise (Exn VMCloneError
                          ("VM cloned but customization failed: " +:+ exn_msg e))).

Definition _apply_cloudinit (node : pyval) (vmid : Z)
    (request : CloneRequest) : Cmd unit :=
  try_ (match cl_cloudinit request with
        | Some config =>
            CloudInit.apply_custom_cloudinit api generate_user_data
              node vmid config (cl_name request)
        | None => mret tt
        end)
       (fun e => raise (Exn VMCloneError
                          ("VM cloned but cloud-init configuration failed: "
                           +:+ exn_msg e))).

(** [clone_from_template], lines 140-148: the source template. *)
Definition clone_resolve (request : CloneRequest) : Cmd (pyval * dict) :=
  source_node ← ProxmoxService.find_vm_node api (cl_source_vmid request);
  if negb (truthy source_node)
  then raise (Exn TemplateNotFoundError
                ("Template " +:+ pretty (cl_source_vmid request) +:+ " not found"))
  else
    config ← ProxmoxService.get_vm_config api source_node (cl_source_vmid request);
    if negb (truthy (dict_get_or config "template" (PInt 0)))
    then raise (Exn TemplateNotFoundError
                  ("VM " +:+ pretty (cl_source_vmid request) +:+ " is not a template"))
    else mret (source_node, config).

(** Lines 150-163: the target node and the identifier. *)
Definition clone_allocate (request : CloneRequest) : Cmd (string * Z) :=
  let target_node := str_or (cl_node request) (default_node settings) in
  new_vmid ← (if opt_int_truthy (cl_new_vmid request)
              then mret (default 0 (cl_new_vmid request))
              else ProxmoxService.get_next_vmid api);
  if (new_vmid <? vmid_min settings) || (new_vmid >? vmid_max settings)
  then raise (Exn InvalidVMIDError
                ("VM ID " +:+ pretty new_vmid +:+ " is outside allowed range (" +:+
                 pretty (vmid_min settings) +:+ "-" +:+
                 pretty (vmid_max settings) +:+ ")"))
  else mret (target_node, new_vmid).

(** Lines 165-187: submit the clone and await completion. *)
Definition clone_submit (request : CloneRequest) (source_node : pyval)
    (new_vmid : Z) : Cmd string :=
  let storage := str_or (cl_storage request) (default_storage settings) in
  task_id ← ProxmoxService.clone_vm api source_node (cl_source_vmid request)
              new_vmid (Some (cl_name request)) (Some storage)
              (if cl_full_clone request then 1 else 0)
              {["description" := match cl_description request with
                                 | Some d => PStr d
                                 | None => PNone
                                 end]};
  clone_success ← wait_for_clone_completion source_node task_id
                    (validation_timeout settings);
  if negb clone_success
  then raise (Exn VMCloneError "Clone operation timed out or failed")
  else mret task_id.

(** Lines 189-195: customizations and cloud-init, when requested. *)
Definition clone_customize (request : CloneRequest) (target_node : string)
    (new_vmid : Z) : Cmd unit :=
  (if opt_int_truthy (cl_cores request) || opt_int_truthy (cl_memory request)
      || opt_list_truthy (cl_tags request)
   then _apply_customizations (PStr target_node) new_vmid request
   else mret tt);;
  (if bool_decide (is_Some (cl_cloudinit request))
   then _apply_cloudinit (PStr target_node) new_vmid request
   else mret tt).

(** Lines 197-208: the optional start; the status and the message. *)
Definition clone_start (request : CloneRequest) (target_node : string)
    (new_vmid : Z) : Cmd (string * string) :=
  if cl_start_after_clone request && enable_auto_start settings
  then try_ (ProxmoxService.start_vm api (PStr target_node) new_vmid;;
             mret ("started",
                   "VM " +:+ pretty new_vmid +:+ " cloned and started successfully"))
            (fun e =>
               mret ("created",
                     "VM " +:+ pretty new_vmid +:+
                     " cloned successfully but failed to start: " +:+ exn_msg e))
  else mret ("created", "VM " +:+ pretty new_vmid +:+ " cloned successfully").

Definition clone_from_template (request : CloneRequest) : Cmd CloneResponse :=
  try_ ('(source_node, config) ← clone_resolve request;
        '(target_node, new_vmid) ← clone_allocate request;
        task_id ← clone_submit request source_node new_vmid;
        clone_customize request target_node new_vmid;;
        '(status, message) ← clone_start request target_node new_vmid;
        let response :=
          {| resp_vmid := new_vmid; resp_name := cl_name request;
             resp_node := target_node; resp_status := status;
             resp_message := message; resp_task_id := Some task_id |} in
        let template_name :=
          dict_get_or config "name"
            (PStr ("template-" +:+ pretty (cl_source_vmid request))) in
        audit (AuditTemplateClone request (proxmox_user settings)
                 (Some template_name) (Some response) None);;
        mret response)
       (fun e =>
          match exn_cls e with
          | TemplateNotFoundError | InvalidVMIDError | VMCloneError =>
              audit (AuditTemplateClone request (proxmox_user settings)
                       None None (Some (exn_msg e)));;
              raise e
          | _ =>
              audit (AuditTemplateClone request (proxmox_user settings)
                       None None (Some ("Unexpected error: " +:+ exn_msg e)));;
              raise (Exn VMCloneError
                       ("Failed to clone template: " +:+ exn_msg e))
          end).
End Service.
End TemplateService.

(** A [bool] field and an [Optional[str]] field, on the values that reach
    them: [_check_port] builds its check from the dict that
    [check_port_open] has just returned, whose 'passed' is a bool and whose
    'message' is a str. *)
Definition as_bool {S} (field : string) (v : pyval) : M S bool :=
  match v with
  | PBool b => ret b
  | _ => raise (Exn PydanticError (field +:+ ": Input should be a valid boolean"))
  end.
Definition as_opt_str {S} (field : string) (v : pyval) : M S (option string) :=
  match v with
  | PNone => ret None
  | PStr s => ret (Some s)
  | _ => raise (Exn PydanticError (field +:+ ": Input should be a valid string"))
  end.

(** ** Port prober (app/utils/port_checker.py) *)
Module PortChecker.
Section Prober.
Context {W : Type} (api : ProxmoxAPI W).

Definition port_failure (error message : string) : dict :=
  <["message" := PStr message]>
  (<["error" := PStr error]>
  (<["reachable" := PBool false]>
  (<["passed" := PBool false]> ∅))).

(** [check_port_open].  The latency is the difference of two clock
    readings, in milliseconds (a float in the source). *)
Definition check_port_open (host : string) (port : Z) (timeout : Z)
  : M (State W) dict :=
  try_ (start_time ← time_time;
        call (EvOpenConnection host port timeout)
             (net_open_connection api host port timeout);;
        t ← time_time;
        let latency := (t - start_time) * 1000 in
        mret (<["message" := PStr ("Port " +:+ pretty port +:+ " is open and responding")]>
              (<["latency_ms" := PInt latency]>
              (<["reachable" := PBool true]>
              (<["passed" := PBool true]> (∅ : dict))))))
       (fun e =>
          match exn_cls e with
          | TimeoutError =>
              mret (port_failure "Connection timeout"
                      ("Port " +:+ pretty port +:+ " is not reachable (timeout)"))
          | ConnectionRefusedError =>
              mret (port_failure "Connection refused"
                      ("Port " +:+ pretty port +:+ " is closed or refusing connections"))
          | GaiError =>
              mret (port_failure ("DNS resolution failed: " +:+ exn_msg e)
                      ("Cannot resolve hostname " +:+ host))
          | _ =>
              mret (port_failure (exn_msg e)
                      ("Failed to check port " +:+ pretty port +:+ ": " +:+ exn_msg e))
          end).
End Prober.
End PortChecker.

(** ** Local variables of a function body

    A body that assigns to a local variable and whose [except] clause reads
    it runs over the state extended with that variable. *)
Definition lift {S L A} (m : M S A) : M (S * L) A :=
  fun sl => let '(r, s') := m (fst sl) in (r, (s', snd sl)).
Definition get_local {S L} : M (S * L) L := fun sl => (inr (snd sl), sl).
Definition set_local {S L} (f : L -> L) : M (S * L) unit :=
  fun sl => (inr tt, (fst sl, f (snd sl))).

(** [local = init; try: body except Exception as e: handler e local]. *)
Definition try_with_local {S L A} (init : L) (body : M (S * L) A)
    (handler : exn -> L -> M S A) : M S A :=
  fun s => match body (s, init) with
           | (inr a, (s', _)) => (inr a, s')
           | (inl e, (s', l)) => handler e l s'
           end.

(** ** ValidationService (app/services/validation_service.py) *)
Module ValidationService.
Section Service.
Context {W : Type} (api : ProxmoxAPI W) (settings : Settings).
Abbreviation Cmd := (M (State W)).

Definition _check_proxmox_status (vmid : Z) : Cmd ValidationCheck :=
  try_ (node ← ProxmoxService.find_vm_node api vmid;
        if negb (truthy node)
        then mret {| vc_passed := false;
                     vc_message := Some ("VM " +:+ pretty vmid +:+ " not found");
                     vc_details := None; vc_required := true |}
        else
          status ← ProxmoxService.get_vm_status api node vmid;
          let vm_status := dict_get_or status "status" (PStr "unknown") in
          let uptime := dict_get_or status "uptime" (PInt 0) in
          if py_eq_str vm_status "running"
          then mret {| vc_passed := true;
                       vc_message := Some ("VM is running (uptime: " +:+
                                           py_str uptime +:+ "s)");
                       vc_details := Some (<["node" := node]>
                                           (<["uptime" := uptime]>
                                           (<["status" := vm_status]> ∅)));
                       vc_required := true |}
          else mret {| vc_passed := false;
                       vc_message := Some ("VM is not running (status: " +:+
                                           py_str vm_status +:+ ")");
                       vc_details := Some (<["node" := node]>
                                           (<["status" := vm_status]> ∅));
                       vc_required := true |})
       (fun e =>
          match exn_cls e with
          | VMNotFoundError =>
              mret {| vc_passed := false;
                      vc_message := Some ("VM " +:+ pretty vmid +:+ " not found");
                      vc_details := None; vc_required := true |}
          | _ =>
              mret {| vc_passed := false;
                      vc_message := Some ("Failed to check Proxmox status: "
                                          +:+ exn_msg e);
                      vc_details := Some {["error" := PStr (exn_msg e)]};
                      vc_required := true |}
          end).

(** The search of [_get_vm_ip_address] for a non-loopback IPv4 address
    (lines 209-219).  [ip_info.get('ip-address-type', '').lower()] is
    evaluated first and raises when the type is present and not a string;
    [ip.startswith] is reached for a truthy address of type 'ipv4' and
    raises when the address is not a string. *)
Fixpoint first_ipv4_of (infos : list ip_info) : exn + option string :=
  match infos with
  | [] => inr None
  | ip_info :: rest =>
      let ip := default PNone (ip_address ip_info) in
      match default (PStr "") (ip_address_type ip_info) with
      | PStr t =>
          let ip_type := lower t in
          if truthy ip && String.eqb ip_type "ipv4" then
            match ip with
            | PStr a =>
                if negb (startswith a "127.") then inr (Some a)
                else first_ipv4_of rest
            | _ => inl (attribute_error ip "startswith")
            end
          else first_ipv4_of rest
      | v => inl (attribute_error v "lower")
      end
  end.

Fixpoint first_ipv4 (interfaces : list iface) : exn + option string :=
  match interfaces with
  | [] => inr None
  | iface :: rest =>
      match ip_addresses iface with
      | Some (Some infos) =>
          match first_ipv4_of infos with
          | inr None => first_ipv4 rest
          | found_or_raised => found_or_raised
          end
      | Some None => inl not_iterable_error
      | None => first_ipv4 rest
      end
  end.

Definition _get_vm_ip_address (vmid : Z) : Cmd (option string) :=
  try_ (node ← ProxmoxService.find_vm_node api vmid;
        if negb (truthy node) then mret None
        else
          interfaces ← ProxmoxService.get_vm_network_interfaces api node vmid;
          if negb (opt_list_truthy interfaces) then mret None
          else match first_ipv4 (default [] interfaces) with
               | inr ip => mret ip
               | inl e => raise e
               end)
       (fun _ => mret None).

(** One round of the loop of [_wait_for_ip]. *)
Definition _wait_for_ip_round (vmid retry_interval : Z) : Cmd (option string) :=
  try_ (ip ← _get_vm_ip_address vmid;
        if opt_str_truthy ip then mret ip
        else (sleep retry_interval;; mret None))
       (fun _ => sleep retry_interval;; mret None).

(** [while time.time() - start_time < timeout: ...; return None].  A round
    that does not return sleeps [retry_interval] seconds; for an interval
    of at least one second the loop runs at most [timeout] rounds, which
    [fuel] bounds (see [_wait_for_ip_loop_fuel]). *)
Fixpoint _wait_for_ip_loop (fuel : nat) (vmid start_time timeout
    retry_interval : Z) : Cmd (option string) :=
  t ← time_time;
  if t - start_time <? timeout then
    match fuel with
    | O => mret None
    | S fuel' =>
        r ← _wait_for_ip_round vmid retry_interval;
        match r with
        | Some ip => mret (Some ip)
        | None => _wait_for_ip_loop fuel' vmid start_time timeout retry_interval
        end
    end
  else mret None.

Definition _wait_for_ip (vmid timeout retry_interval : Z)
  : Cmd (option string) :=
  start_time ← time_time;
  _wait_for_ip_loop (Z.to_nat timeout) vmid start_time timeout retry_interval.

Definition _check_port (ip_address : string) (port : Z) (port_name : string)
  : Cmd ValidationCheck :=
  try_ (result ← PortChecker.check_port_open api ip_address port
                   (validation_retry_interval settings);
        p ← getitem result "passed";
        passed ← as_bool "passed" p;
        message ← as_opt_str "message"
                    (dict_get_or result "message"
                       (PStr (port_name +:+ " port check")));
        mret {| vc_passed := passed; vc_message := message;
                vc_details := Some result; vc_required := true |})
       (fun e =>
          mret {| vc_passed := false;
                  vc_message := Some ("Failed to check " +:+ port_name +:+
                                      " port: " +:+ exn_msg e);
                  vc_details := Some {["error" := PStr (exn_msg e)]};
                  vc_required := true |}).

(** [validate_vm], over the three methods it calls on [self]. *)
Section ValidateVM.
Variable check_proxmox_status : Z -> Cmd ValidationCheck.
Variable wait_for_ip : Z -> Z -> Cmd (option string).
Variable check_port : string -> Z -> string -> Cmd ValidationCheck.

(** The body of the [try] (lines 41-75); [checks] is the local. *)
Definition validate_vm_body (vmid : Z) (os_type : string)
  : M (State W * checks_dict) ValidationResult :=
  c ← lift (check_proxmox_status vmid);
  set_local (fun checks => checks_set checks "proxmox_status" c);;
  ip_address ← lift (wait_for_ip vmid 120);
  if negb (opt_str_truthy ip_address)
  then
    checks ← get_local;
    t ← lift time_time;
    mret {| vr_vmid := vmid; vr_status := "degraded";
            vr_ip_address := None; vr_checks := checks;
            vr_message := Some "VM is running but no IP address assigned";
            vr_timestamp := t |}
  else
    let port := if String.eqb os_type "linux"
                then validation_ssh_port settings
                else validation_rdp_port settings in
    let port_name := if String.eqb os_type "linux" then "SSH" else "RDP" in
    c2 ← lift (check_port (default "" ip_address) port port_name);
    set_local (fun checks => checks_set checks (lower port_name +:+ "_port") c2);;
    checks ← get_local;
    let required_checks := List.filter vc_required (map snd checks) in
    let all_passed := forallb vc_passed required_checks in
    let status := if all_passed then "healthy" else "degraded" in
    let message := if all_passed then "All validation checks passed"
                   else "Some validation checks failed" in
    t ← lift time_time;
    mret {| vr_vmid := vmid; vr_status := status;
            vr_ip_address := ip_address; vr_checks := checks;
            vr_message := Some message; vr_timestamp := t |}.

(** The [except Exception] clause (lines 77-90). *)
Definition validate_vm_handler (vmid : Z) (e : exn) (checks : checks_dict)
  : Cmd ValidationResult :=
  let checks' :=
    checks_set checks "error"
      {| vc_passed := false;
         vc_message := Some ("Validation failed: " +:+ exn_msg e);
         vc_details := Some {["error" := PStr (exn_msg e)]};
         vc_required := true |} in
  t ← time_time;
  mret {| vr_vmid := vmid; vr_status := "unhealthy";
          vr_ip_address := None; vr_checks := checks';
          vr_message := Some ("Validation failed: " +:+ exn_msg e);
          vr_timestamp := t |}.

Definition validate_vm_with (vmid : Z) (os_type : string)
    (timeout : option Z) : Cmd ValidationResult :=
  let timeout := if opt_int_truthy timeout then default 0 timeout
                 else validation_timeout settings in
  try_with_local [] (validate_vm_body vmid os_type)
                 (validate_vm_handler vmid).
End ValidateVM.

(** [validate_vm] proper: the methods are the service's own, the address
    wait with its default retry interval of 10 seconds. *)
Definition validate_vm (vmid : Z) (os_type : string) (timeout : option Z)
  : Cmd ValidationResult :=
  validate_vm_with _check_proxmox_status
    (fun vmid timeout => _wait_for_ip vmid timeout 10)
    _check_port vmid os_type timeout.

(** [quick_health_check]. *)
Definition quick_health_check (vmid : Z) : Cmd bool :=
  try_ (check ← _check_proxmox_status vmid; mret (vc_passed check))
       (fun _ => mret false).

End Service.
End ValidationService.

(** ** HTTP errors of the endpoints *)

(** The [detail] of an HTTPException: a text, or the message with the list
    of configuration issues. *)
Inductive http_detail :=
| DetailText (text : string)
| DetailIssues (message : string) (issues : list string).

Record HTTPException := {
  status_code : Z;
  detail : http_detail;
}.

(** An endpoint returns its response or ends with an HTTPException. *)
Definition Endpoint (W A : Type) : Type :=
  State W -> (HTTPException + A) * State W.

(** ** The batch endpoint (app/api/v1/vms.py, [batch_create_vms]) *)
Module VMsApi.
Section Endpoint.
Context {W : Type} (api : ProxmoxAPI W) (settings : Settings).
Abbreviation Cmd := (M (State W)).

(** The synthesized response of a failed item. *)
Definition error_result (request : VMCreateRequest) (message : string)
  : VMCreateResponse :=
  {| resp_vmid := 0; resp_name := cr_name request; resp_node := "";
     resp_status := "failed"; resp_message := message;
     resp_task_id := None |}.

(** The accumulators of the loop: [results], [successful], [failed]. *)
Abbreviation batch_acc := (list VMCreateResponse * Z * Z)%type.

(** One iteration of [for request in requests]. *)
Definition batch_item (request : VMCreateRequest) (acc : batch_acc)
  : Cmd batch_acc :=
  let '(results, successful, failed) := acc in
  try_ (let validation := VMService.validate_vm_config request in
        if negb (fst validation)
        then mret ((results ++ [error_result request
                                  ("Invalid configuration: " +:+
                                   join ", " (snd validation))])%list,
                   successful, failed + 1)
        else
          result ← VMService.create_vm api settings request;
          mret ((results ++ [result])%list, successful + 1, failed))
       (fun e =>
          match exn_cls e with
          | InvalidVMIDError | VMCreationError | ProxmoxConnectionError =>
              mret ((results ++ [error_result request ("Failed: " +:+ exn_msg e)])%list,
                    successful, failed + 1)
          | _ =>
              mret ((results ++ [error_result request
                                   ("Unexpected error: " +:+ exn_msg e)])%list,
                    successful, failed + 1)
          end).

Fixpoint batch_loop (requests : list VMCreateRequest) (acc : batch_acc)
  : Cmd batch_acc :=
  match requests with
  | [] => mret acc
  | request :: rest => acc' ← batch_item request acc; batch_loop rest acc'
  end.

Definition batch_create_vms (requests : list VMCreateRequest)
  : Cmd BatchVMCreateResponse :=
  '(results, successful, failed) ← batch_loop requests ([], 0, 0);
  let response :=
    {| batch_results := results;
       batch_total := Z.of_nat (length requests);
       batch_successful := successful;
       batch_failed := failed |} in
  audit (AuditBatch "batch_create" (proxmox_user settings)
           (Z.of_nat (length requests)) successful failed requests results);;
  mret response.

(** [str(e)] of an HTTPException, as the web framework defines it. *)
Variable http_str : Z -> http_detail -> string.

(** The [try] block of the endpoint [create_vm] (lines 49-60).  The
    HTTPException raised for an invalid configuration is an exception like
    any other inside the block. *)
Definition create_vm_try (request : VMCreateRequest) : Cmd VMCreateResponse :=
  let validation := VMService.validate_vm_config request in
  if negb (fst validation)
  then raise (Exn OtherError
                (http_str 400 (DetailIssues "Invalid VM configuration"
                                            (snd validation))))
  else VMService.create_vm api settings request.

(** The [except] clauses of the endpoint [create_vm] (lines 62-81). *)
Definition create_vm_except (e : exn) : HTTPException :=
  match exn_cls e with
  | InvalidVMIDError => {| status_code := 400; detail := DetailText (exn_msg e) |}
  | VMCreationError => {| status_code := 400; detail := DetailText (exn_msg e) |}
  | ProxmoxConnectionError =>
      {| status_code := 503; detail := DetailText (exn_msg e) |}
  | _ => {| status_code := 500;
            detail := DetailText ("Failed to create VM: " +:+ exn_msg e) |}
  end.

(** POST /create. *)
Definition create_vm (request : VMCreateRequest) : Endpoint W VMCreateResponse :=
  fun s => match create_vm_try request s with
           | (inr result, s') => (inr result, s')
           | (inl e, s') => (inl (create_vm_except e), s')
           end.

(** The conversions of the model library, for [VMInfo]. *)
Variable pydantic : Pydantic.

(** GET /{vmid}. *)
Definition get_vm_info (vmid : Z) : Endpoint W VMInfo :=
  fun s => match VMService.get_vm_info api pydantic vmid s with
           | (inr vm_info, s') => (inr vm_info, s')
           | (inl e, s') =>
               (inl match exn_cls e with
                    | VMNotFoundError =>
                        {| status_code := 404; detail := DetailText (exn_msg e) |}
                    | ProxmoxConnectionError =>
                        {| status_code := 503; detail := DetailText (exn_msg e) |}
                    | _ =>
                        {| status_code := 500;
                           detail := DetailText ("Failed to get VM info: "
                                                 +:+ exn_msg e) |}
                    end, s')
           end.

End Endpoint.
End VMsApi.

(** ** The template endpoints (app/api/v1/templates.py) *)
Module TemplatesApi.
Section Endpoint.
Context {W : Type} (api : ProxmoxAPI W) (settings : Settings).
Variable generate_user_data : CloudInitConfig -> string -> string.
Abbreviation Cmd := (M (State W)).

(** POST /clone: [clone_template]. *)
Definition clone_template (request : CloneRequest) : Endpoint W CloneResponse :=
  fun s => match TemplateService.clone_from_template api settings
                   generate_user_data request s with
           | (inr result, s') => (inr result, s')
           | (inl e, s') =>
               (inl match exn_cls e with
                    | TemplateNotFoundError =>
                        {| status_code := 404; detail := DetailText (exn_msg e) |}
                    | InvalidVMIDError =>
                        {| status_code := 400; detail := DetailText (exn_msg e) |}
                    | VMCloneError =>
                        {| status_code := 400; detail := DetailText (exn_msg e) |}
                    | ProxmoxConnectionError =>
                        {| status_code := 503; detail := DetailText (exn_msg e) |}
                    | _ =>
                        {| status_code := 500;
                           detail := DetailText ("Failed to clone template: "
                                                 +:+ exn_msg e) |}
                    end, s')
           end.

(** The synthesized response of a failed clone in a batch. *)
Definition error_result (request : CloneRequest) (message : string)
  : CloneResponse :=
  {| resp_vmid := 0; resp_name := cl_name request; resp_node := "";
     resp_status := "failed"; resp_message := message;
     resp_task_id := None |}.

(** One iteration of [for request in requests] of [batch_clone_templates]
    (lines 174-202); the accumulators are [results], [successful] and
    [failed]. *)
Definition batch_item (request : CloneRequest)
    (acc : list CloneResponse * Z * Z) : Cmd (list CloneResponse * Z * Z) :=
  let '(results, successful, failed) := acc in
  try_ (result ← TemplateService.clone_from_template api settings
                   generate_user_data request;
        mret ((results ++ [result])%list, successful + 1, failed))
       (fun e =>
          match exn_cls e with
          | TemplateNotFoundError | InvalidVMIDError | VMCloneError
          | ProxmoxConnectionError =>
              mret ((results ++ [error_result request ("Failed: " +:+ exn_msg e)])%list,
                    successful, failed + 1)
          | _ =>
              mret ((results ++ [error_result request
                                   ("Unexpected error: " +:+ exn_msg e)])%list,
                    successful, failed + 1)
          end).

Fixpoint batch_loop (requests : list CloneRequest)
    (acc : list CloneResponse * Z * Z) : Cmd (list CloneResponse * Z * Z) :=
  match requests with
  | [] => mret acc
  | request :: rest => acc' ← batch_item request acc; batch_loop rest acc'
  end.

(** [batch_clone_templates] up to its response (lines 170-209): the loop
    and the report built from its accumulators. *)
Definition batch_clone_response (requests : list CloneRequest)
  : Cmd BatchVMCreateResponse :=
  '(results, successful, failed) ← batch_loop requests ([], 0, 0);
  mret {| batch_results := results;
          batch_total := Z.of_nat (length requests);
          batch_successful := successful;
          batch_failed := failed |}.
End Endpoint.
End TemplatesApi.

(** ** Scripted remote sides

    A remote side without internal state whose answers are fixed in
    advance; the task status may depend on the time of the poll. *)
Record script := {
  sc_connect : exn + unit;
  sc_version : exn + dict;
  sc_nodes : exn + list dict;
  sc_qemu : pyval -> exn + list dict;
  sc_config : Z -> exn + dict;
  sc_status : Z -> exn + dict;
  sc_nextid : exn + Z;
  sc_clone : exn + string;
  sc_create : exn + string;
  sc_start : exn + string;
  sc_task : Z -> exn + dict;
  sc_put : exn + unit;
  sc_agent : exn + option (list iface);
  sc_upload : exn + unit;
  sc_open : exn + unit;
}.

Definition scripted (sc : script) : ProxmoxAPI unit :=
  {| api_connect := fun _ w => (sc_connect sc, w);
     api_version_get := fun _ w => (sc_version sc, w);
     api_nodes_get := fun _ w => (sc_nodes sc, w);
     api_qemu_get := fun node _ w => (sc_qemu sc node, w);
     api_config_get := fun _ vmid _ w => (sc_config sc vmid, w);
     api_status_current_get := fun _ vmid _ w => (sc_status sc vmid, w);
     api_nextid_get := fun _ w => (sc_nextid sc, w);
     api_clone_post := fun _ _ _ _ w => (sc_clone sc, w);
     api_qemu_post := fun _ _ _ w => (sc_create sc, w);
     api_start_post := fun _ _ _ w => (sc_start sc, w);
     api_stop_post := fun _ _ _ w => (inr "UPID:stop", w);
     api_delete := fun _ _ _ _ w => (inr "UPID:delete", w);
     api_task_status_get := fun _ _ t w => (sc_task sc t, w);
     api_config_put := fun _ _ _ _ w => (sc_put sc, w);
     api_agent_network_get := fun _ _ _ w => (sc_agent sc, w);
     ssh_upload_snippet := fun _ _ _ _ w => (sc_upload sc, w);
     net_open_connection := fun _ _ _ _ w => (sc_open sc, w) |}.

Definition task_running : dict := {["status" := PStr "running"]}.
Definition task_stopped_ok : dict :=
  <["exitstatus" := PStr "OK"]> {["status" := PStr "stopped"]}.

(** A healthy one-node cluster "pve" holding the template 9000 and the
    running VM 200; every submitted task has completed. *)
Definition healthy_script : script :=
  {| sc_connect := inr tt;
     sc_version := inr {["version" := PStr "8.1"]};
     sc_nodes := inr [ {["node" := PStr "pve"]} ];
     sc_qemu := fun _ =>
       inr [ <["template" := PInt 1]> {["vmid" := PInt 9000]};
             <["status" := PStr "running"]> {["vmid" := PInt 200]} ];
     sc_config := fun vmid =>
       inr (if vmid =? 9000
            then <["template" := PInt 1]> {["name" := PStr "ubuntu-tpl"]}
            else {["name" := PStr "vm"]});
     sc_status := fun _ => inr (<["uptime" := PInt 42]> {["status" := PStr "running"]});
     sc_nextid := inr 201;
     sc_clone := inr "UPID:clone";
     sc_create := inr "UPID:create";
     sc_start := inr "UPID:start";
     sc_task := fun _ => inr task_stopped_ok;
     sc_put := inr tt;
     sc_agent := inr (Some [ {| ip_addresses :=
                                 Some (Some
                                   [ {| ip_address := Some (PStr "127.0.0.1");
                                        ip_address_type := Some (PStr "ipv4") |};
                                     {| ip_address := Some (PStr "10.0.0.5");
                                        ip_address_type := Some (PStr "ipv4") |} ]) |} ]);
     sc_upload := inr tt;
     sc_open := inr tt |}.

(** The same cluster with no node and no VM at all. *)
Definition empty_script : script :=
  {| sc_connect := inr tt;
     sc_version := inr ∅;
     sc_nodes := inr [];
     sc_qemu := fun _ => inr [];
     sc_config := fun _ => inl (Exn ResourceException "does not exist");
     sc_status := fun _ => inl (Exn ResourceException "does not exist");
     sc_nextid := inr 150;
     sc_clone := inl (Exn ResourceException "does not exist");
     sc_create := inr "UPID:create";
     sc_start := inl (Exn ResourceException "does not exist");
     sc_task := fun _ => inr task_stopped_ok;
     sc_put := inl (Exn ResourceException "does not exist");
     sc_agent := inl (Exn ResourceException "does not exist");
     sc_upload := inr tt;
     sc_open := inl (Exn ConnectionRefusedError "refused") |}.

(** An unreachable control plane: the connection itself fails. *)
Definition unreachable_script : script :=
  {| sc_connect := inl (Exn OtherError "Connection refused");
     sc_version := inl (Exn OtherError "Connection refused");
     sc_nodes := inl (Exn OtherError "Connection refused");
     sc_qemu := fun _ => inl (Exn OtherError "Connection refused");
     sc_config := fun _ => inl (Exn OtherError "Connection refused");
     sc_status := fun _ => inl (Exn OtherError "Connection refused");
     sc_nextid := inl (Exn OtherError "Connection refused");
     sc_clone := inl (Exn OtherError "Connection refused");
     sc_create := inl (Exn OtherError "Connection refused");
     sc_start := inl (Exn OtherError "Connection refused");
     sc_task := fun _ => inl (Exn OtherError "Connection refused");
     sc_put := inl (Exn OtherError "Connection refused");
     sc_agent := inl (Exn OtherError "Connection refused");
     sc_upload := inl (Exn OtherError "Connection refused");
     sc_open := inl (Exn OtherError "Connection refused") |}.

(** A model library that converts booleans and strings of decimal digits
    to integers, nothing to strings, and integers to floats. *)
Definition test_pydantic : Pydantic :=
  {| lax_int := fun v =>
       match v with
       | PBool b => Some (if b then 1 else 0)
       | PStr s =>
           if String.eqb s "" then None
           else option_map Z.of_uint (NilEmpty.uint_of_string s)
       | _ => None
       end;
     lax_str := fun _ => None;
     to_float := fun v => match v with PInt _ => Some v | _ => None end |}.

Definition test_settings : Settings :=
  {| proxmox_user := "root@pam"; default_node := "pve";
     default_storage := "local-lvm"; default_network_bridge := "vmbr0";
     vmid_min := 150; vmid_max := 999; validation_timeout := 300;
     validation_ssh_port := 22; validation_rdp_port := 3389;
     validation_retry_interval := 15; enable_auto_start := true |}.

Definition test_create_request : VMCreateRequest :=
  {| cr_vmid := None; cr_name := "server-01"; cr_node := None;
     cr_cores := 4; cr_sockets := 1; cr_cpu_type := "host";
     cr_memory := 8192; cr_disk_size := 50; cr_storage := None;
     cr_network_bridge := None; cr_network_model := "virtio";
     cr_os_type := "linux"; cr_bios := "seabios"; cr_machine := "q35";
     cr_iso := None; cr_virtio_iso := None; cr_start_on_creation := true;
     cr_enable_guest_agent := false; cr_description := None;
     cr_tags := None |}.

Definition test_clone_request : CloneRequest :=
  {| cl_source_vmid := 9000; cl_new_vmid := None; cl_name := "srv-01";
     cl_node := None; cl_storage := None; cl_full_clone := true;
     cl_cores := Some 4; cl_memory := None; cl_start_after_clone := true;
     cl_description := None; cl_tags := None; cl_cloudinit := None |}.


(** ** Observations on runs *)

(** What an event does to the outside world. *)
Inductive kind :=
| KConnect    (* opening the connection *)
| KRead       (* a query of the control plane *)
| KWrite      (* creating, cloning, starting or re-configuring a VM *)
| KDestroy    (* stopping or deleting a VM *)
| KProbe      (* a TCP connection attempt to the guest *)
| KSleep
| KAudit.

Definition kind_of (ev : event) : kind :=
  match ev with
  | EvConnect => KConnect
  | EvVersionGet | EvNodesGet | EvQemuGet _ | EvConfigGet _ _
  | EvStatusGet _ _ | EvNextId | EvTaskStatusGet _ _
  | EvAgentNetworkGet _ _ => KRead
  | EvClonePost _ _ _ | EvQemuPost _ _ | EvStartPost _ _
  | EvConfigPut _ _ _ | EvSnippetUpload _ _ _ => KWrite
  | EvStopPost _ _ | EvDelete _ _ _ => KDestroy
  | EvOpenConnection _ _ _ => KProbe
  | EvSleep _ => KSleep
  | EvAudit _ => KAudit
  end.

(** The seconds slept during a sequence of events. *)
Fixpoint slept (evs : list event) : Z :=
  match evs with
  | [] => 0
  | EvSleep d :: rest => d + slept rest
  | _ :: rest => slept rest
  end.

(** [s'] is reached from [s] by events of the allowed kinds only; the
    clock has advanced by the time slept. *)
Definition extends {W} (allowed : kind -> bool) (s s' : State W) : Prop :=
  exists evs, trace s' = (trace s ++ evs)%list /\
              Forall (fun ev => allowed (kind_of ev) = true) evs /\
              now s' = now s + slept evs.

(** Every run of [m] only performs events of the allowed kinds. *)
Definition runs {W A} (allowed : kind -> bool) (m : M (State W) A) : Prop :=
  forall s, extends allowed s (snd (m s)).

(** [m] returns a value from every state. *)
Definition never_raises {S A} (m : M S A) : Prop :=
  forall s, exists a s', m s = (inr a, s').

Definition no_sleep (k : kind) : bool :=
  match k with KSleep => false | _ => true end.
Definition no_destroy (k : kind) : bool :=
  match k with KDestroy => false | _ => true end.
Definition lookups_only (k : kind) : bool :=
  match k with KConnect | KRead => true | _ => false end.
Definition audit_only (k : kind) : bool :=
  match k with KAudit => true | _ => false end.
Definition any_kind (k : kind) : bool := true.

(** What an answer to a task-status poll means to the waiter: [Some b] is
    a terminal task ([b] tells whether it exited "OK"), [None] is a task not
    yet terminal, a raised poll and an answer without 'status' included. *)
Definition poll_outcome (r : exn + dict) : option bool :=
  match r with
  | inl _ => None
  | inr status =>
      match status !! "status" with
      | Some st =>
          if py_eq_str st "stopped"
          then Some (py_eq_str (dict_get status "exitstatus") "OK")
          else None
      | None => None
      end
  end.

(** A remote side on which the clone or create task is still running
    before [t_done] and has exited "OK" from then on. *)
Definition task_done_at (t_done : Z) : script :=
  {| sc_connect := inr tt;
     sc_version := inr ∅;
     sc_nodes := inr [ {["node" := PStr "pve"]} ];
     sc_qemu := fun _ => inr [];
     sc_config := fun _ => inr ∅;
     sc_status := fun _ => inr ∅;
     sc_nextid := inr 150;
     sc_clone := inr "UPID:clone";
     sc_create := inr "UPID:create";
     sc_start := inr "UPID:start";
     sc_task := fun t => if t <? t_done then inr task_running
                         else inr task_stopped_ok;
     sc_put := inr tt;
     sc_agent := inr None;
     sc_upload := inr tt;
     sc_open := inr tt |}.

(** A remote side on which the task never gets terminal. *)
Definition task_never_done : script :=
  {| sc_connect := inr tt;
     sc_version := inr ∅;
     sc_nodes := inr [ {["node" := PStr "pve"]} ];
     sc_qemu := fun _ => inr [];
     sc_config := fun _ => inr ∅;
     sc_status := fun _ => inr ∅;
     sc_nextid := inr 150;
     sc_clone := inr "UPID:clone";
     sc_create := inr "UPID:create";
     sc_start := inr "UPID:start";
     sc_task := fun _ => inr task_running;
     sc_put := inr tt;
     sc_agent := inr None;
     sc_upload := inr tt;
     sc_open := inr tt |}.

(** The healthy cluster on which starting a VM is refused. *)
Definition start_refused_script : script :=
  {| sc_connect := sc_connect healthy_script;
     sc_version := sc_version healthy_script;
     sc_nodes := sc_nodes healthy_script;
     sc_qemu := sc_qemu healthy_script;
     sc_config := sc_config healthy_script;
     sc_status := sc_status healthy_script;
     sc_nextid := sc_nextid healthy_script;
     sc_clone := sc_clone healthy_script;
     sc_create := sc_create healthy_script;
     sc_start := inl (Exn ResourceException "start refused");
     sc_task := sc_task healthy_script;
     sc_put := sc_put healthy_script;
     sc_agent := sc_agent healthy_script;
     sc_upload := sc_upload healthy_script;
     sc_open := sc_open healthy_script |}.

(** The healthy cluster on which re-configuring a VM is refused. *)
Definition put_refused_script : script :=
  {| sc_connect := sc_connect healthy_script;
     sc_version := sc_version healthy_script;
     sc_nodes := sc_nodes healthy_script;
     sc_qemu := sc_qemu healthy_script;
     sc_config := sc_config healthy_script;
     sc_status := sc_status healthy_script;
     sc_nextid := sc_nextid healthy_script;
     sc_clone := sc_clone healthy_script;
     sc_create := sc_create healthy_script;
     sc_start := sc_start healthy_script;
     sc_task := sc_task healthy_script;
     sc_put := inl (Exn OtherError "500 Internal Server Error");
     sc_agent := sc_agent healthy_script;
     sc_upload := sc_upload healthy_script;
     sc_open := sc_open healthy_script |}.

(** The healthy cluster whose guest agent reports the address 10.0.0.5
    with a null type. *)
Definition null_type_script : script :=
  {| sc_connect := sc_connect healthy_script;
     sc_version := sc_version healthy_script;
     sc_nodes := sc_nodes healthy_script;
     sc_qemu := sc_qemu healthy_script;
     sc_config := sc_config healthy_script;
     sc_status := sc_status healthy_script;
     sc_nextid := sc_nextid healthy_script;
     sc_clone := sc_clone healthy_script;
     sc_create := sc_create healthy_script;
     sc_start := sc_start healthy_script;
     sc_task := sc_task healthy_script;
     sc_put := sc_put healthy_script;
     sc_agent := inr (Some [ {| ip_addresses :=
                                 Some (Some
                                   [ {| ip_address := Some (PStr "10.0.0.5");
                                        ip_address_type := Some PNone |} ]) |} ]);
     sc_upload := sc_upload healthy_script;
     sc_open := sc_open healthy_script |}.

(** The healthy cluster whose configurations give the memory as the string
    '2048'. *)
Definition string_memory_script : script :=
  {| sc_connect := sc_connect healthy_script;
     sc_version := sc_version healthy_script;
     sc_nodes := sc_nodes healthy_script;
     sc_qemu := sc_qemu healthy_script;
     sc_config := fun _ => inr (<["memory" := PStr "2048"]> {["name" := PStr "vm"]});
     sc_status := sc_status healthy_script;
     sc_nextid := sc_nextid healthy_script;
     sc_clone := sc_clone healthy_script;
     sc_create := sc_create healthy_script;
     sc_start := sc_start healthy_script;
     sc_task := sc_task healthy_script;
     sc_put := sc_put healthy_script;
     sc_agent := sc_agent healthy_script;
     sc_upload := sc_upload healthy_script;
     sc_open := sc_open healthy_script |}.

(** Requests with the explicit identifier [vmid]. *)
Definition create_request_with_id (vmid : Z) : VMCreateRequest :=
  {| cr_vmid := Some vmid; cr_name := cr_name test_create_request;
     cr_node := None; cr_cores := 4; cr_sockets := 1; cr_cpu_type := "host";
     cr_memory := 8192; cr_disk_size := 50; cr_storage := None;
     cr_network_bridge := None; cr_network_model := "virtio";
     cr_os_type := "linux"; cr_bios := "seabios"; cr_machine := "q35";
     cr_iso := None; cr_virtio_iso := None; cr_start_on_creation := false;
     cr_enable_guest_agent := false; cr_description := None;
     cr_tags := None |}.

Definition clone_request_with_id (vmid : Z) : CloneRequest :=
  {| cl_source_vmid := 9000; cl_new_vmid := Some vmid; cl_name := "srv-01";
     cl_node := None; cl_storage := None; cl_full_clone := true;
     cl_cores := None; cl_memory := None; cl_start_after_clone := false;
     cl_description := None; cl_tags := None; cl_cloudinit := None |}.

(** [vm] is not the VM [vmid]: its 'vmid' entry, if any, differs. *)
Definition not_vm (vmid : Z) (vm : dict) : Prop :=
  match vm !! "vmid" with
  | Some v => py_eq_int v vmid = false
  | None => True
  end.

(** [settings] with another overall validation timeout. *)
Definition with_validation_timeout (settings : Settings) (t : Z) : Settings :=
  {| proxmox_user := proxmox_user settings;
     default_node := default_node settings;
     default_storage := default_storage settings;
     default_network_bridge := default_network_bridge settings;
     vmid_min := vmid_min settings; vmid_max := vmid_max settings;
     validation_timeout := t;
     validation_ssh_port := validation_ssh_port settings;
     validation_rdp_port := validation_rdp_port settings;
     validation_retry_interval := validation_retry_interval settings;
     enable_auto_start := enable_auto_start settings |}.

(** The error classes that the batch endpoint reports as "Failed". *)
Definition domain_error (e : exn) : bool :=
  match exn_cls e with
  | InvalidVMIDError | VMCreationError | ProxmoxConnectionError => true
  | _ => false
  end.

(** Every event from [s] to [s'] satisfies [P]. *)
Definition extends_ev {W} (P : event -> Prop) (s s' : State W) : Prop :=
  exists evs, trace s' = (trace s ++ evs)%list /\ Forall P evs.

(** Every run of [m] only performs events that satisfy [P]. *)
Definition runs_ev {W A} (P : event -> Prop) (m : M (State W) A) : Prop :=
  forall s, extends_ev P s (snd (m s)).

(** [m] raises exceptions of the listed classes only. *)
Definition raises_only {S A} (classes : list exn_class) (m : M S A) : Prop :=
  forall s e s', m s = (inl e, s') -> In (exn_cls e) classes.

Definition no_audit (k : kind) : bool :=
  match k with KAudit => false | _ => true end.
Definition polls_only (k : kind) : bool :=
  match k with KConnect | KRead | KSleep => true | _ => false end.
Definition observes_only (k : kind) : bool :=
  match k with KConnect | KRead | KSleep | KProbe => true | _ => false end.

(** The events that change the control plane: creations, clones, starts,
    configuration updates and uploads, stops and deletions. *)
Definition is_change (ev : event) : bool :=
  match kind_of ev with
  | KWrite | KDestroy => true
  | _ => false
  end.

Definition changes (evs : list event) : list event := List.filter is_change evs.

(** [s'] is reached from [s] by a run whose changes to the control plane
    are the events [l], in this order. *)
Definition changed {W} (s s' : State W) (l : list event) : Prop :=
  exists evs, trace s' = (trace s ++ evs)%list /\ changes evs = l.

(** An entry on which the scan of the addresses raises: its type is
    present and not a string, or its type is "ipv4" (in any letter case) and
    its address is a truthy value that is not a string. *)
Definition malformed (info : ip_info) : bool :=
  match ip_address_type info with
  | None => false
  | Some (PStr t) =>
      String.eqb (lower t) "ipv4"
      && match ip_address info with
         | Some (PStr _) | None => false
         | Some v => truthy v
         end
  | Some _ => true
  end.

(** An entry that the scan accepts: a non-empty string of type "ipv4" (in
    any letter case) that does not start with "127.". *)
Definition routable_ipv4 (info : ip_info) : bool :=
  match ip_address info, ip_address_type info with
  | Some (PStr a), Some (PStr t) =>
      negb (String.eqb a "") && String.eqb (lower t) "ipv4"
      && negb (startswith a "127.")
  | _, _ => false
  end.

(** The key under which the port check of a validation is recorded. *)
Definition port_check_name (os_type : string) : string :=
  if String.eqb os_type "linux" then "ssh_port" else "rdp_port".

(** Events that are not the aggregate audit record of a batch. *)
Definition not_batch_audit (ev : event) : Prop :=
  match ev with
  | EvAudit (AuditBatch _ _ _ _ _ _ _) => False
  | _ => True
  end.

(** The results of a batch that are failures. *)
Definition is_failed (response : VMCreateResponse) : bool :=
  String.eqb (resp_status response) "failed".

(** * Properties *)

(** ** Runs and the events they perform *)
Section Runs.
Context {W : Type}.
Implicit Types (s : State W) (allowed : kind -> bool).

Lemma slept_app evs1 evs2 : slept (evs1 ++ evs2) = slept evs1 + slept evs2.
Proof.
  induction evs1 as [|ev evs1 IH]; simpl; [lia|].
  destruct ev; rewrite ?IH; lia.
Qed.

Lemma slept_no_sleep evs :
  Forall (fun ev => no_sleep (kind_of ev) = true) evs -> slept evs = 0.
Proof.
  induction 1 as [|ev evs Hev _ IH]; simpl; [reflexivity|].
  destruct ev; simpl in Hev; try discriminate; exact IH.
Qed.

Lemma extends_refl allowed s : extends allowed s s.
Proof. exists []. rewrite app_nil_r. simpl. repeat split; [constructor | lia]. Qed.

Lemma extends_trans allowed s1 s2 s3 :
  extends allowed s1 s2 -> extends allowed s2 s3 -> extends allowed s1 s3.
Proof.
  intros (e1 & T1 & F1 & N1) (e2 & T2 & F2 & N2).
  exists (e1 ++ e2)%list. rewrite T2, T1, N2, N1, slept_app, app_assoc.
  repeat split; [apply Forall_app; auto | lia].
Qed.

Lemma extends_weaken (a1 a2 : kind -> bool) s s' :
  (forall k, a1 k = true -> a2 k = true) -> extends a1 s s' -> extends a2 s s'.
Proof.
  intros Hk (evs & T & F & N). exists evs. repeat split; auto.
  eapply Forall_impl; [exact F|]. intros ev Hev. simpl in *. auto.
Qed.

Lemma extends_no_sleep_now s s' : extends no_sleep s s' -> now s' = now s.
Proof. intros (evs & _ & F & N). rewrite N, (slept_no_sleep _ F). lia. Qed.

Lemma runs_ret {A} allowed (a : A) : runs allowed (mret a : M (State W) A).
Proof. intros s. apply extends_refl. Qed.

Lemma runs_raise {A} allowed e : runs allowed (raise e : M (State W) A).
Proof. intros s. apply extends_refl. Qed.

Lemma runs_bind {A B} allowed (m : M (State W) A) (k : A -> M (State W) B) :
  runs allowed m -> (forall a, runs allowed (k a)) -> runs allowed (m ≫= k).
Proof.
  intros Hm Hk s. specialize (Hm s).
  unfold mbind, M_bind, bind. destruct (m s) as [[e|a] s1]; simpl in *.
  - exact Hm.
  - eapply extends_trans; [exact Hm | apply Hk].
Qed.

Lemma runs_try {A} allowed (m : M (State W) A) (h : exn -> M (State W) A) :
  runs allowed m -> (forall e, runs allowed (h e)) -> runs allowed (try_ m h).
Proof.
  intros Hm Hh s. specialize (Hm s).
  unfold try_. destruct (m s) as [[e|a] s1]; simpl in *.
  - eapply extends_trans; [exact Hm | apply Hh].
  - exact Hm.
Qed.

Lemma runs_call {A} allowed ev (f : ext W A) :
  allowed (kind_of ev) = true -> no_sleep (kind_of ev) = true ->
  runs allowed (call ev f).
Proof.
  intros Ha Hs s. unfold call. destruct (f (now s) (world s)) as [r w'].
  exists [ev]. simpl. repeat split; [repeat constructor; exact Ha|].
  destruct ev; simpl in Hs; try discriminate; lia.
Qed.

Lemma runs_sleep allowed d : allowed KSleep = true -> runs allowed (sleep (W:=W) d).
Proof.
  intros Ha s. exists [EvSleep d]. simpl.
  repeat split; [repeat constructor; exact Ha | lia].
Qed.

Lemma runs_audit allowed entry :
  allowed KAudit = true -> runs allowed (audit (W:=W) entry).
Proof.
  intros Ha s. exists [EvAudit entry]. simpl.
  repeat split; [repeat constructor; exact Ha | lia].
Qed.

Lemma runs_time_time allowed : runs allowed (time_time (W:=W)).
Proof. intros s. apply extends_refl. Qed.

Lemma runs_get_connected allowed : runs allowed (get_connected (W:=W)).
Proof. intros s. apply extends_refl. Qed.

Lemma runs_set_connected allowed b : runs allowed (set_connected (W:=W) b).
Proof. intros s. exists []. simpl. rewrite app_nil_r. repeat split; [constructor|lia]. Qed.

Lemma runs_getitem allowed d k : runs allowed (getitem d k : M (State W) pyval).
Proof. unfold getitem. destruct (d !! k); [apply runs_ret | apply runs_raise]. Qed.

Lemma runs_weaken {A} (a1 a2 : kind -> bool) (m : M (State W) A) :
  (forall k, a1 k = true -> a2 k = true) -> runs a1 m -> runs a2 m.
Proof. intros Hk Hm s. eapply extends_weaken; [exact Hk | apply Hm]. Qed.
End Runs.

(** One structural step of a proof that a computation [runs] within the
    allowed kinds. *)
Ltac runs_step :=
  lazymatch goal with
  | |- runs _ (mret _) => apply runs_ret
  | |- runs _ (ret _) => apply (runs_ret _)
  | |- runs _ (raise _) => apply runs_raise
  | |- runs _ (mbind _ _) => apply runs_bind; [|intros ?]
  | |- runs _ (try_ _ _) => apply runs_try; [|intros ?]
  | |- runs _ (call _ _) =>
      apply runs_call; [simpl; first [reflexivity | assumption] | reflexivity]
  | |- runs _ (sleep _) => apply runs_sleep; first [reflexivity | assumption]
  | |- runs _ (audit _) => apply runs_audit; first [reflexivity | assumption]
  | |- runs _ time_time => apply runs_time_time
  | |- runs _ get_connected => apply runs_get_connected
  | |- runs _ (set_connected _) => apply runs_set_connected
  | |- runs _ (getitem _ _) => apply runs_getitem
  | |- runs _ (if ?b then _ else _) => destruct b
  | |- runs _ (match ?x with _ => _ end) => destruct x
  | |- runs _ (let _ := _ in _) => cbv zeta
  end.

Create HintDb runs discriminated.
#[export] Hint Extern 1 (_ = true) => reflexivity : runs.
Ltac runs_auto := repeat (first [ solve [eauto 3 with runs] | runs_step ]).

Section ProxmoxServiceRuns.
Context {W : Type} (api : ProxmoxAPI W) (allowed : kind -> bool).
Hypothesis Hconnect : allowed KConnect = true.
Hypothesis Hread : allowed KRead = true.

Lemma runs_connect : runs allowed (ProxmoxService.connect api).
Proof. unfold ProxmoxService.connect. runs_auto. Qed.
Hint Resolve runs_connect : runs.

Lemma runs_proxmox : runs allowed (ProxmoxService.proxmox api).
Proof. unfold ProxmoxService.proxmox. runs_auto. Qed.
Hint Resolve runs_proxmox : runs.

Lemma runs_list_nodes : runs allowed (ProxmoxService.list_nodes api).
Proof. unfold ProxmoxService.list_nodes. runs_auto. Qed.
Hint Resolve runs_list_nodes : runs.

Lemma runs_list_vms_nodes nodes all_vms :
  runs allowed (ProxmoxService.list_vms_nodes api nodes all_vms).
Proof.
  revert all_vms. induction nodes as [|node_info rest IH]; intros all_vms; simpl.
  - runs_auto.
  - runs_auto.
Qed.
Hint Resolve runs_list_vms_nodes : runs.

Lemma runs_list_vms node : runs allowed (ProxmoxService.list_vms api node).
Proof. unfold ProxmoxService.list_vms. runs_auto. Qed.
Hint Resolve runs_list_vms : runs.

Lemma runs_get_vm_config node vmid :
  runs allowed (ProxmoxService.get_vm_config api node vmid).
Proof. unfold ProxmoxService.get_vm_config. runs_auto. Qed.

Lemma runs_get_vm_status node vmid :
  runs allowed (ProxmoxService.get_vm_status api node vmid).
Proof. unfold ProxmoxService.get_vm_status. runs_auto. Qed.

Lemma runs_find_vm_node_loop all_vms vmid :
  runs allowed (ProxmoxService.find_vm_node_loop (W:=W) all_vms vmid).
Proof. induction all_vms as [|vm rest IH]; simpl; runs_auto. Qed.
Hint Resolve runs_find_vm_node_loop : runs.

Lemma runs_find_vm_node vmid : runs allowed (ProxmoxService.find_vm_node api vmid).
Proof. unfold ProxmoxService.find_vm_node. runs_auto. Qed.

Lemma runs_get_next_vmid : runs allowed (ProxmoxService.get_next_vmid api).
Proof. unfold ProxmoxService.get_next_vmid. runs_auto. Qed.

Lemma runs_get_task_status node upid :
  runs allowed (ProxmoxService.get_task_status api node upid).
Proof. unfold ProxmoxService.get_task_status. runs_auto. Qed.
Hint Resolve runs_get_task_status : runs.

Lemma runs_get_vm_network_interfaces node vmid :
  runs allowed (ProxmoxService.get_vm_network_interfaces api node vmid).
Proof. unfold ProxmoxService.get_vm_network_interfaces. runs_auto. Qed.

Lemma runs_wait_for_task_poll node upid :
  allowed KSleep = true ->
  runs allowed (ProxmoxService.wait_for_task_poll api node upid).
Proof. intros Hs. unfold ProxmoxService.wait_for_task_poll. runs_auto. Qed.
Hint Resolve runs_wait_for_task_poll : runs.

Lemma runs_wait_for_task_loop fuel node upid start_time timeout :
  allowed KSleep = true ->
  runs allowed (ProxmoxService.wait_for_task_loop api fuel node upid
                  start_time timeout).
Proof.
  intros Hs. induction fuel as [|fuel IH]; simpl; runs_auto.
Qed.
Hint Resolve runs_wait_for_task_loop : runs.

Lemma runs_wait_for_task node upid timeout :
  allowed KSleep = true ->
  runs allowed (ProxmoxService.wait_for_task api node upid timeout).
Proof. intros Hs. unfold ProxmoxService.wait_for_task. runs_auto. Qed.

Hypothesis Hwrite : allowed KWrite = true.

Lemma runs_clone_vm node source_vmid new_vmid name storage full kwargs :
  runs allowed (ProxmoxService.clone_vm api node source_vmid new_vmid
                  name storage full kwargs).
Proof. unfold ProxmoxService.clone_vm. runs_auto. Qed.

Lemma runs_create_vm node vmid kwargs :
  runs allowed (ProxmoxService.create_vm api node vmid kwargs).
Proof. unfold ProxmoxService.create_vm. runs_auto. Qed.

Lemma runs_start_vm node vmid : runs allowed (ProxmoxService.start_vm api node vmid).
Proof. unfold ProxmoxService.start_vm. runs_auto. Qed.

Lemma runs_update_vm_config node vmid kwargs :
  runs allowed (ProxmoxService.update_vm_config api node vmid kwargs).
Proof. unfold ProxmoxService.update_vm_config. runs_auto. Qed.
End ProxmoxServiceRuns.

#[export] Hint Resolve runs_connect runs_proxmox runs_list_nodes
  runs_list_vms_nodes runs_list_vms runs_get_vm_config runs_get_vm_status
  runs_find_vm_node_loop runs_find_vm_node runs_get_next_vmid
  runs_get_task_status runs_get_vm_network_interfaces
  runs_wait_for_task_poll runs_wait_for_task_loop runs_wait_for_task
  runs_clone_vm runs_create_vm runs_start_vm runs_update_vm_config : runs.

(** ** Configuration validation *)

(** C8. [validate_vm_config] accepts a create request exactly when cores is
    in [1,256], memory is at least 512, disk_size is at least 8 and os_type
    is "linux" or "windows"; for each field outside its bounds the result is
    invalid and its issues list the reason naming that field. *)
Theorem validate_vm_config_bounds (request : VMCreateRequest) :
  let valid := fst (VMService.validate_vm_config request) in
  let issues := snd (VMService.validate_vm_config request) in
  (valid = true <->
     (1 <= cr_cores request <= 256 /\ 512 <= cr_memory request /\
      8 <= cr_disk_size request /\
      (cr_os_type request = "linux" \/ cr_os_type request = "windows"))) /\
  (cr_cores request < 1 \/ 256 < cr_cores request ->
     valid = false /\ In "cores must be between 1 and 256" issues) /\
  (cr_memory request < 512 ->
     valid = false /\ In "memory must be at least 512 MB" issues) /\
  (cr_disk_size request < 8 ->
     valid = false /\ In "disk_size must be at least 8 GB" issues) /\
  (cr_os_type request <> "linux" /\ cr_os_type request <> "windows" ->
     valid = false /\ In "os_type must be 'linux' or 'windows'" issues).
Proof.
  unfold VMService.validate_vm_config.
  rewrite Z.gtb_ltb.
  destruct (Z.ltb_spec (cr_cores request) 1) as [C1|C1];
  destruct (Z.ltb_spec 256 (cr_cores request)) as [C2|C2];
  destruct (Z.ltb_spec (cr_memory request) 512) as [Me|Me];
  destruct (Z.ltb_spec (cr_disk_size request) 8) as [D|D];
  destruct (String.eqb_spec (cr_os_type request) "linux") as [L|L];
  destruct (String.eqb_spec (cr_os_type request) "windows") as [Wi|Wi];
  cbn [orb negb fst snd app length Nat.eqb];
  (split; [split; [intros H; try discriminate H; repeat split; auto; lia
                  | intros (Hc & Hm & Hd & Ho); try lia;
                    try (destruct Ho; contradiction); reflexivity]|]);
  repeat split; intros; try lia; try tauto; simpl; tauto.
Qed.

(** ** Locating a VM *)
Section FindVMNode.
Context {W : Type} (api : ProxmoxAPI W) (pydantic : Pydantic).

Lemma find_vm_node_loop_absent (all_vms : list dict) (vmid : Z) (s : State W) :
  Forall (not_vm vmid) all_vms ->
  ProxmoxService.find_vm_node_loop all_vms vmid s = (inr PNone, s) \/
  exists e, ProxmoxService.find_vm_node_loop all_vms vmid s = (inl e, s).
Proof.
  induction 1 as [|vm rest Hvm _ IH]; simpl.
  - left. reflexivity.
  - unfold not_vm in Hvm. unfold mbind, M_bind, bind, getitem.
    destruct (vm !! "vmid") as [v|]; simpl.
    + rewrite Hvm. exact IH.
    + right. eexists. reflexivity.
Qed.

Lemma find_vm_node_never_raises (vmid : Z) :
  never_raises (ProxmoxService.find_vm_node api vmid).
Proof.
  intros s. unfold ProxmoxService.find_vm_node, try_.
  match goal with
  | |- context [match ?m s with _ => _ end] => destruct (m s) as [[e|node] s1]
  end; eauto.
Qed.

(** C10. [find_vm_node] returns from every state without raising; it
    returns None when listing the VMs fails (connection and authentication
    failures included) and when the listing does not hold the VM.  In
    both cases [get_vm_info] raises "VM <vmid> not found" and the liveness
    check of the validation reports "VM <vmid> not found": the two causes
    give the same outcome. *)
Theorem find_vm_node_total (vmid : Z) (s : State W) :
  exists node s',
    ProxmoxService.find_vm_node api vmid s = (inr node, s') /\
    ((exists e, fst (ProxmoxService.list_vms api PNone s) = inl e) ->
       node = PNone) /\
    (forall all_vms,
       fst (ProxmoxService.list_vms api PNone s) = inr all_vms ->
       Forall (not_vm vmid) all_vms -> node = PNone) /\
    (node = PNone ->
       VMService.get_vm_info api pydantic vmid s =
         (inl (Exn VMNotFoundError ("VM " +:+ pretty vmid +:+ " not found")), s') /\
       ValidationService._check_proxmox_status api vmid s =
         (inr {| vc_passed := false;
                 vc_message := Some ("VM " +:+ pretty vmid +:+ " not found");
                 vc_details := None; vc_required := true |}, s')).
Proof.
  destruct (find_vm_node_never_raises vmid s) as (node & s' & Hfind).
  exists node, s'. split; [exact Hfind|].
  split; [|split].
  - intros [e He]. revert Hfind.
    unfold ProxmoxService.find_vm_node, try_, mbind, M_bind, bind.
    destruct (ProxmoxService.list_vms api PNone s) as [[e'|vms] s1];
      simpl in He; [|discriminate].
    simpl. intros [= <- _]. reflexivity.
  - intros all_vms Hl Habs. revert Hfind.
    unfold ProxmoxService.find_vm_node, try_, mbind, M_bind, bind.
    destruct (ProxmoxService.list_vms api PNone s) as [[e'|vms] s1];
      simpl in Hl; [discriminate|]. injection Hl as ->.
    destruct (find_vm_node_loop_absent all_vms vmid s1 Habs) as [-> | [e ->]];
      simpl; intros [= <- _]; reflexivity.
  - intros ->. split.
    + unfold VMService.get_vm_info, try_, mbind, M_bind, bind.
      rewrite Hfind. reflexivity.
    + unfold ValidationService._check_proxmox_status, try_, mbind, M_bind, bind.
      rewrite Hfind. reflexivity.
Qed.
End FindVMNode.

(** C10 on an unreachable control plane and on an empty cluster. *)
Lemma find_vm_node_total_witness :
  fst (ProxmoxService.find_vm_node (scripted unreachable_script) 100
         (init_state tt)) = inr PNone /\
  fst (ProxmoxService.find_vm_node (scripted empty_script) 100
         (init_state tt)) = inr PNone /\
  fst (VMService.get_vm_info (scripted unreachable_script) test_pydantic 100 (init_state tt))
  = fst (VMService.get_vm_info (scripted empty_script) test_pydantic 100 (init_state tt)).
Proof.
  destruct (find_vm_node_total (scripted unreachable_script) test_pydantic 100
              (init_state tt))
    as (n1 & s1 & F1 & U1 & _ & G1).
  destruct (find_vm_node_total (scripted empty_script) test_pydantic 100
              (init_state tt))
    as (n2 & s2 & F2 & _ & A2 & G2).
  assert (n1 = PNone) as ->.
  { apply U1. eexists. vm_compute. reflexivity. }
  assert (n2 = PNone) as ->.
  { apply (A2 []); [vm_compute; reflexivity | constructor]. }
  rewrite F1, F2.
  destruct (G1 eq_refl) as [-> _]. destruct (G2 eq_refl) as [-> _].
  repeat split.
Defined.

(** ** The validation engine *)

Lemma checks_lookup_set (d : checks_dict) (k : string) (v : ValidationCheck) :
  checks_lookup (checks_set d k v) k = Some v.
Proof.
  induction d as [|[k' v'] rest IH]; simpl.
  - rewrite String.eqb_refl. reflexivity.
  - destruct (String.eqb k' k) eqn:E; simpl; rewrite E; [reflexivity | exact IH].
Qed.

Section Validation.
Context {W : Type} (api : ProxmoxAPI W) (settings : Settings).

(** C6. [validate_vm] returns a result from every state, whatever the
    methods it calls do, raising included; when the body of its [try]
    raises [e], the result is "unhealthy", has no address, and its checks
    hold the synthetic failing check "error" recording [e]. *)
Theorem validate_vm_never_raises
    (check_proxmox_status : Z -> M (State W) ValidationCheck)
    (wait_for_ip : Z -> Z -> M (State W) (option string))
    (check_port : string -> Z -> string -> M (State W) ValidationCheck)
    (vmid : Z) (os_type : string) (timeout : option Z) (s : State W) :
  (exists r s',
     ValidationService.validate_vm_with settings check_proxmox_status
       wait_for_ip check_port vmid os_type timeout s = (inr r, s')) /\
  (forall e s1 checks,
     ValidationService.validate_vm_body settings check_proxmox_status
       wait_for_ip check_port vmid os_type (s, []) = (inl e, (s1, checks)) ->
     exists r,
       ValidationService.validate_vm_with settings check_proxmox_status
         wait_for_ip check_port vmid os_type timeout s = (inr r, s1) /\
       vr_status r = "unhealthy" /\ vr_ip_address r = None /\
       vr_message r = Some ("Validation failed: " +:+ exn_msg e) /\
       checks_lookup (vr_checks r) "error" =
         Some {| vc_passed := false;
                 vc_message := Some ("Validation failed: " +:+ exn_msg e);
                 vc_details := Some {["error" := PStr (exn_msg e)]};
                 vc_required := true |}) /\
  (exists r s',
     ValidationService.validate_vm api settings vmid os_type timeout s
     = (inr r, s')).
Proof.
  assert (Hgen : forall c w p,
    exists r s', ValidationService.validate_vm_with settings c w p
                   vmid os_type timeout s = (inr r, s')).
  { intros c w p. unfold ValidationService.validate_vm_with, try_with_local.
    destruct (ValidationService.validate_vm_body _ _ _ _ _ _ _)
      as [[e|r] [s1 l]]; simpl; eauto. }
  split; [apply Hgen|]. split; [|apply Hgen].
  intros e s1 checks Hbody.
  unfold ValidationService.validate_vm_with, try_with_local.
  rewrite Hbody. simpl. eexists. split; [reflexivity|]. simpl.
  repeat split. apply checks_lookup_set.
Qed.

(** C9. The result of [validate_vm] does not depend on its timeout
    argument, nor on the configured overall timeout: the value is computed
    and never used, and the address wait always runs with the fixed
    sub-timeout of 120 seconds (and retry interval of 10 seconds). *)
Theorem validate_vm_timeout_irrelevant (vmid : Z) (os_type : string)
    (timeout1 timeout2 : option Z) (configured : Z) (s : State W) :
  ValidationService.validate_vm api settings vmid os_type timeout1 s
  = ValidationService.validate_vm api settings vmid os_type timeout2 s /\
  ValidationService.validate_vm api
    (with_validation_timeout settings configured) vmid os_type timeout1 s
  = ValidationService.validate_vm api settings vmid os_type timeout2 s /\
  ValidationService.validate_vm api settings vmid os_type timeout1
  = ValidationService.validate_vm_with settings
      (ValidationService._check_proxmox_status api)
      (fun vmid _ => ValidationService._wait_for_ip api vmid 120 10)
      (ValidationService._check_port api settings) vmid os_type None.
Proof. repeat split. Qed.
End Validation.

(** C6 with a liveness method that raises. *)
Lemma validate_vm_never_raises_witness :
  exists r,
    ValidationService.validate_vm_with test_settings
      (fun _ => raise (Exn OtherError "boom"))
      (fun _ _ => mret None) (fun _ _ _ => raise (Exn OtherError "boom"))
      200 "linux" None (init_state tt) = (inr r, init_state tt) /\
    vr_status r = "unhealthy" /\ vr_ip_address r = None /\
    vr_message r = Some "Validation failed: boom" /\
    checks_lookup (vr_checks r) "error" =
      Some {| vc_passed := false;
              vc_message := Some "Validation failed: boom";
              vc_details := Some {["error" := PStr "boom"]};
              vc_required := true |}.
Proof.
  destruct (validate_vm_never_raises (scripted healthy_script) test_settings
              (fun _ => raise (Exn OtherError "boom"))
              (fun _ _ => mret None) (fun _ _ _ => raise (Exn OtherError "boom"))
              200 "linux" None (init_state tt)) as (_ & H & _).
  exact (H (Exn OtherError "boom") (init_state tt) [] eq_refl).
Defined.

(** ** The task waiter *)
Section TaskWaiter.
Context {W : Type} (api : ProxmoxAPI W) (node : pyval) (upid : string).

Lemma get_task_status_now (s : State W) :
  now (snd (ProxmoxService.get_task_status api node upid s)) = now s.
Proof.
  apply extends_no_sleep_now.
  apply (runs_get_task_status api no_sleep eq_refl eq_refl).
Qed.

(** One round: a terminal answer is returned, anything else sleeps two
    seconds and asks for another round. *)
Lemma wait_for_task_poll_spec (s : State W) :
  exists s',
    (ProxmoxService.wait_for_task_poll api node upid s =
      (inr (poll_outcome (fst (ProxmoxService.get_task_status api node upid s))),
       s')) /\
    (now s' =
      match poll_outcome (fst (ProxmoxService.get_task_status api node upid s)) with
      | Some _ => now s
      | None => now s + 2
      end).
Proof.
  pose proof (get_task_status_now s) as Hnow.
  unfold ProxmoxService.wait_for_task_poll, try_, mbind, M_bind, bind, getitem.
  destruct (ProxmoxService.get_task_status api node upid s) as [[e|status] s1];
    simpl in *.
  - eexists; split; [reflexivity|]. simpl. lia.
  - destruct (status !! "status") as [st|]; simpl.
    + destruct (py_eq_str st "stopped"); simpl.
      * eexists; split; [reflexivity|]. exact Hnow.
      * eexists; split; [reflexivity|]. simpl. lia.
    + eexists; split; [reflexivity|]. simpl. lia.
Qed.

Variable status_at : Z -> exn + dict.
Hypothesis status_at_spec :
  forall s : State W,
    fst (ProxmoxService.get_task_status api node upid s) = status_at (now s).

Lemma wait_for_task_loop_terminal (start_time timeout : Z) (b : bool) :
  forall (k fuel : nat) (s : State W),
    (forall j, (j < k)%nat ->
               poll_outcome (status_at (now s + 2 * Z.of_nat j)) = None) ->
    poll_outcome (status_at (now s + 2 * Z.of_nat k)) = Some b ->
    now s + 2 * Z.of_nat k - start_time < timeout ->
    (k < fuel)%nat ->
    exists s',
      ProxmoxService.wait_for_task_loop api fuel node upid start_time timeout s
      = (inr b, s') /\ now s' = now s + 2 * Z.of_nat k.
Proof.
  induction k as [|k IH]; intros fuel s Hbefore Hat Hlt Hfuel;
    (destruct fuel as [|fuel]; [lia|]);
    destruct (wait_for_task_poll_spec s) as (s1 & Hpoll & Hnow1);
    rewrite status_at_spec in Hpoll, Hnow1;
    simpl; unfold mbind, M_bind, bind, time_time; simpl.
  - replace (now s + 2 * Z.of_nat 0) with (now s) in * by lia.
    destruct (Z.ltb_spec (now s - start_time) timeout); [|lia].
    rewrite Hpoll, Hat. rewrite Hat in Hnow1.
    eexists; split; [reflexivity|]. lia.
  - destruct (Z.ltb_spec (now s - start_time) timeout); [|lia].
    assert (H0 : poll_outcome (status_at (now s)) = None).
    { specialize (Hbefore 0%nat ltac:(lia)).
      replace (now s + 2 * Z.of_nat 0) with (now s) in Hbefore by lia.
      exact Hbefore. }
    rewrite Hpoll, H0. rewrite H0 in Hnow1.
    destruct (IH fuel s1) as (s' & Hrun & Hnow'); try lia.
    + intros j Hj. specialize (Hbefore (S j) ltac:(lia)).
      rewrite Hnow1.
      replace (now s + 2 + 2 * Z.of_nat j) with (now s + 2 * Z.of_nat (S j)) by lia.
      exact Hbefore.
    + rewrite Hnow1.
      replace (now s + 2 + 2 * Z.of_nat k) with (now s + 2 * Z.of_nat (S k)) by lia.
      exact Hat.
    + exists s'. split; [exact Hrun | lia].
Qed.

Lemma wait_for_task_loop_timeout (start_time timeout : Z) :
  forall (fuel : nat) (s : State W),
    (forall k : nat, poll_outcome (status_at (now s + 2 * Z.of_nat k)) = None) ->
    timeout - (now s - start_time) <= Z.of_nat fuel ->
    exists s' (n : nat),
      ProxmoxService.wait_for_task_loop api fuel node upid start_time timeout s
      = (inr false, s') /\ now s' = now s + 2 * Z.of_nat n /\
      timeout <= now s' - start_time /\
      (0 < timeout - (now s - start_time) -> now s' - start_time < timeout + 2) /\
      (timeout - (now s - start_time) <= 0 -> n = 0%nat).
Proof.
  induction fuel as [|fuel IH]; intros s Hnever Hfuel;
    simpl; unfold mbind, M_bind, bind, time_time; simpl;
    destruct (Z.ltb_spec (now s - start_time) timeout) as [Hlt|Hge];
    try lia;
    try (exists s, 0%nat; repeat split; simpl; lia).
  destruct (wait_for_task_poll_spec s) as (s1 & Hpoll & Hnow1).
  rewrite status_at_spec in Hpoll, Hnow1.
  assert (H0 : poll_outcome (status_at (now s)) = None).
  { specialize (Hnever 0%nat).
    replace (now s + 2 * Z.of_nat 0) with (now s) in Hnever by lia.
    exact Hnever. }
  rewrite Hpoll, H0. rewrite H0 in Hnow1.
  destruct (IH s1) as (s' & n & Hrun & Hnow' & Hdl & Hover & Hzero); try lia.
  - intros k. specialize (Hnever (S k)). rewrite Hnow1.
    replace (now s + 2 + 2 * Z.of_nat k) with (now s + 2 * Z.of_nat (S k)) by lia.
    exact Hnever.
  - exists s', (S n). split; [exact Hrun|].
    repeat split; lia.
Qed.
End TaskWaiter.

Section TaskWaiterOutcome.
Context {W : Type} (api : ProxmoxAPI W) (node : pyval) (upid : string).

(** The bound on the rounds is never the reason for an answer: with
    enough fuel for the time left, the loop does not depend on it. *)
Lemma wait_for_task_loop_fuel (start_time timeout : Z) :
  forall (fuel1 fuel2 : nat) (s : State W),
    timeout - (now s - start_time) <= Z.of_nat fuel1 ->
    timeout - (now s - start_time) <= Z.of_nat fuel2 ->
    ProxmoxService.wait_for_task_loop api fuel1 node upid start_time timeout s
    = ProxmoxService.wait_for_task_loop api fuel2 node upid start_time timeout s.
Proof.
  induction fuel1 as [|fuel1 IH]; intros fuel2 s H1 H2;
    destruct fuel2 as [|fuel2];
    simpl; unfold mbind, M_bind, bind, time_time; simpl;
    destruct (Z.ltb_spec (now s - start_time) timeout) as [Hlt|Hge];
    try lia; try reflexivity.
  destruct (wait_for_task_poll_spec api node upid s) as (s1 & -> & Hnow1).
  destruct (poll_outcome _); [reflexivity|].
  apply IH; lia.
Qed.

(** C4, as the code has it.  The waiter polls at the instants 0, 2, 4, ...
    after its start, as long as the instant is before the timeout; the
    task status is a function [status_at] of the time of the poll.
    - If the poll at instant [2k < timeout] is the first terminal one, the
      waiter returns at that instant, with [true] exactly when the task
      exited "OK".
    - If no poll is terminal, the waiter returns [false] at the first
      polling instant at or after the timeout: less than two seconds
      after the deadline, and exactly at the deadline when the timeout is
      even and not negative.
    - A poll that raises is a poll that is not terminal: the round sleeps
      two seconds and the waiter goes on. *)
Theorem wait_for_task_outcome (status_at : Z -> exn + dict) (timeout : Z)
    (s : State W) :
  (forall s0 : State W,
     fst (ProxmoxService.get_task_status api node upid s0) = status_at (now s0)) ->
  (forall (k : nat) (b : bool),
     (forall j, (j < k)%nat ->
                poll_outcome (status_at (now s + 2 * Z.of_nat j)) = None) ->
     poll_outcome (status_at (now s + 2 * Z.of_nat k)) = Some b ->
     2 * Z.of_nat k < timeout ->
     exists s',
       ProxmoxService.wait_for_task api node upid timeout s = (inr b, s') /\
       now s' = now s + 2 * Z.of_nat k) /\
  ((forall k : nat, poll_outcome (status_at (now s + 2 * Z.of_nat k)) = None) ->
   exists s',
     ProxmoxService.wait_for_task api node upid timeout s = (inr false, s') /\
     timeout <= now s' - now s /\
     (0 < timeout -> now s' - now s < timeout + 2) /\
     (timeout <= 0 -> now s' = now s) /\
     (0 <= timeout -> Z.even timeout = true -> now s' = now s + timeout)) /\
  (forall (s0 : State W) (e : exn),
     fst (ProxmoxService.get_task_status api node upid s0) = inl e ->
     exists s1,
       ProxmoxService.wait_for_task_poll api node upid s0 = (inr None, s1) /\
       now s1 = now s0 + 2).
Proof.
  intros Hspec. split; [|split].
  - intros k b Hbefore Hat Hlt.
    unfold ProxmoxService.wait_for_task, mbind, M_bind, bind, time_time.
    apply (wait_for_task_loop_terminal api node upid status_at Hspec
             (now s) timeout b k (Z.to_nat timeout) s Hbefore Hat); lia.
  - intros Hnever.
    unfold ProxmoxService.wait_for_task, mbind, M_bind, bind, time_time.
    destruct (wait_for_task_loop_timeout api node upid status_at Hspec
                (now s) timeout (Z.to_nat timeout) s Hnever ltac:(lia))
      as (s' & n & Hrun & Hnow' & Hdl & Hover & Hzero).
    exists s'. split; [exact Hrun|].
    repeat split; try lia.
    intros Hpos Heven. apply Z.even_spec in Heven as [m ->]. lia.
  - intros s0 e He.
    destruct (wait_for_task_poll_spec api node upid s0) as (s1 & Hpoll & Hnow1).
    rewrite He in Hpoll, Hnow1. simpl in *. eauto.
Qed.
End TaskWaiterOutcome.

(** C4 on a task that completes five seconds after its submission: the
    polls at 0, 2 and 4 find it running, the poll at 6 returns success. *)
Lemma wait_for_task_outcome_witness :
  exists s',
    ProxmoxService.wait_for_task (scripted (task_done_at 5)) (PStr "pve")
      "UPID:create" 300 (init_state tt) = (inr true, s') /\
    now s' = 6.
Proof.
  assert (Hspec : forall s0 : State unit,
            fst (ProxmoxService.get_task_status (scripted (task_done_at 5))
                   (PStr "pve") "UPID:create" s0)
            = sc_task (task_done_at 5) (now s0)).
  { intros [w t c tr].
    destruct c; cbv -[Z.ltb task_running task_stopped_ok];
      destruct (t <? 5); reflexivity. }
  destruct (wait_for_task_outcome (scripted (task_done_at 5)) (PStr "pve")
              "UPID:create" (sc_task (task_done_at 5)) 300 (init_state tt) Hspec)
    as (Hterm & _ & _).
  apply (Hterm 3%nat true).
  - intros j Hj. destruct j as [|[|[|j]]]; [reflexivity .. | lia].
  - reflexivity.
  - lia.
Defined.

(** The claim as stated fails: with a timeout of 5 seconds and a task that
    never gets terminal, the waiter gives up at second 6, after the
    deadline; and a task that succeeds at second 299 of a 300-second wait,
    before the deadline, is reported as not successful. *)
Lemma wait_for_task_deadline_counterexample :
  let r := ProxmoxService.wait_for_task (scripted task_never_done)
             (PStr "pve") "UPID:create" 5 (init_state tt) in
  let r' := ProxmoxService.wait_for_task (scripted (task_done_at 299))
              (PStr "pve") "UPID:create" 300 (init_state tt) in
  fst r = inr false /\ now (snd r) = 6 /\
  now (snd r) <> now (init_state tt) + 5 /\
  poll_outcome (sc_task (task_done_at 299) 299) = Some true /\
  fst r' = inr false.
Proof. vm_compute. repeat split; congruence. Qed.

(** ** The address wait and the statuses of a validation *)
Section AddressWait.
Context {W : Type} (api : ProxmoxAPI W) (settings : Settings).

Lemma never_raises_try {S A} (m : M S A) (h : exn -> M S A) :
  (forall e, never_raises (h e)) -> never_raises (try_ m h).
Proof.
  intros Hh s. unfold try_. destruct (m s) as [[e|a] s1]; [apply Hh | eauto].
Qed.

Lemma never_raises_ret {S A} (a : A) : never_raises (mret a : M S A).
Proof. intros s. eexists _, _. reflexivity. Qed.

Lemma _check_proxmox_status_never_raises vmid :
  never_raises (ValidationService._check_proxmox_status api vmid).
Proof.
  apply never_raises_try. intros e.
  destruct (exn_cls e); apply never_raises_ret.
Qed.

Lemma _check_port_never_raises ip port port_name :
  never_raises (ValidationService._check_port api settings ip port port_name).
Proof. apply never_raises_try. intros e. apply never_raises_ret. Qed.

Lemma runs_get_vm_ip_address allowed vmid :
  allowed KConnect = true -> allowed KRead = true ->
  runs allowed (ValidationService._get_vm_ip_address api vmid).
Proof.
  intros Hc Hr. unfold ValidationService._get_vm_ip_address. runs_auto.
Qed.

(** One round of the address wait returns an address without sleeping,
    or sleeps the retry interval and asks for another round. *)
Lemma _wait_for_ip_round_spec vmid retry_interval (s : State W) :
  exists r s',
    ValidationService._wait_for_ip_round api vmid retry_interval s
    = (inr r, s') /\
    (r = None -> now s' = now s + retry_interval).
Proof.
  pose proof (runs_get_vm_ip_address no_sleep vmid eq_refl eq_refl s) as Hrun.
  apply extends_no_sleep_now in Hrun.
  unfold ValidationService._wait_for_ip_round, try_, mbind, M_bind, bind.
  destruct (ValidationService._get_vm_ip_address api vmid s) as [[e|ip] s1];
    simpl in *.
  - eexists _, _. split; [reflexivity|]. simpl. intros _. lia.
  - destruct (opt_str_truthy ip) eqn:Hip; simpl.
    + eexists _, _. split; [reflexivity|]. intros ->. discriminate.
    + eexists _, _. split; [reflexivity|]. simpl. intros _. lia.
Qed.

Lemma _wait_for_ip_loop_never_raises fuel vmid start_time timeout retry :
  never_raises (ValidationService._wait_for_ip_loop api fuel vmid start_time
                  timeout retry).
Proof.
  induction fuel as [|fuel IH]; intros s;
    simpl; unfold mbind, M_bind, bind, time_time; simpl;
    destruct (now s - start_time <? timeout); try (eexists _, _; reflexivity).
  destruct (_wait_for_ip_round_spec vmid retry s) as (r & s1 & -> & _).
  destruct r; [eexists _, _; reflexivity | apply IH].
Qed.

Lemma _wait_for_ip_never_raises vmid timeout retry :
  never_raises (ValidationService._wait_for_ip api vmid timeout retry).
Proof.
  intros s. unfold ValidationService._wait_for_ip, mbind, M_bind, bind, time_time.
  apply _wait_for_ip_loop_never_raises.
Qed.

(** With a retry interval of at least one second, the bound on the rounds
    is never the reason for an answer. *)
Lemma _wait_for_ip_loop_fuel vmid start_time timeout retry :
  1 <= retry ->
  forall (fuel1 fuel2 : nat) (s : State W),
    timeout - (now s - start_time) <= Z.of_nat fuel1 ->
    timeout - (now s - start_time) <= Z.of_nat fuel2 ->
    ValidationService._wait_for_ip_loop api fuel1 vmid start_time timeout retry s
    = ValidationService._wait_for_ip_loop api fuel2 vmid start_time timeout retry s.
Proof.
  intros Hretry.
  induction fuel1 as [|fuel1 IH]; intros fuel2 s H1 H2;
    destruct fuel2 as [|fuel2];
    simpl; unfold mbind, M_bind, bind, time_time; simpl;
    destruct (Z.ltb_spec (now s - start_time) timeout) as [Hlt|Hge];
    try lia; try reflexivity.
  destruct (_wait_for_ip_round_spec vmid retry s) as (r & s1 & -> & Hnow1).
  destruct r; [reflexivity|].
  specialize (Hnow1 eq_refl). apply IH; lia.
Qed.

(** When the methods it calls do not raise, a validation ends "healthy"
    or "degraded". *)
Lemma validate_vm_with_statuses
    (check_proxmox_status : Z -> M (State W) ValidationCheck)
    (wait_for_ip : Z -> Z -> M (State W) (option string))
    (check_port : string -> Z -> string -> M (State W) ValidationCheck)
    vmid os_type timeout (s : State W) :
  (forall v, never_raises (check_proxmox_status v)) ->
  (forall v t, never_raises (wait_for_ip v t)) ->
  (forall i p n, never_raises (check_port i p n)) ->
  exists r s',
    ValidationService.validate_vm_with settings check_proxmox_status
      wait_for_ip check_port vmid os_type timeout s = (inr r, s') /\
    (vr_status r = "healthy" \/ vr_status r = "degraded").
Proof.
  intros Hc Hw Hp.
  unfold ValidationService.validate_vm_with, try_with_local,
    ValidationService.validate_vm_body, lift, set_local, get_local,
    mbind, M_bind, bind, time_time. simpl.
  destruct (Hc vmid s) as (c & s1 & ->). simpl.
  destruct (Hw vmid 120 s1) as (ip & s2 & ->). simpl.
  destruct (opt_str_truthy ip); simpl.
  - destruct (Hp (default "" ip)
                (if String.eqb os_type "linux" then validation_ssh_port settings
                 else validation_rdp_port settings)
                (if String.eqb os_type "linux" then "SSH" else "RDP") s2)
      as (c2 & s3 & ->). simpl.
    eexists _, _. split; [reflexivity|]. simpl.
    destruct (forallb _ _); auto.
  - eexists _, _. split; [reflexivity|]. simpl. auto.
Qed.

(** The service's own validation never ends "unhealthy". *)
Lemma validate_vm_statuses vmid os_type timeout (s : State W) :
  exists r s',
    ValidationService.validate_vm api settings vmid os_type timeout s
    = (inr r, s') /\
    (vr_status r = "healthy" \/ vr_status r = "degraded").
Proof.
  apply validate_vm_with_statuses.
  - apply _check_proxmox_status_never_raises.
  - intros v t. apply _wait_for_ip_never_raises.
  - apply _check_port_never_raises.
Qed.
End AddressWait.

(** C2 at a VM that the cluster does not hold.  The claim asks for no
    address wait, no port check and the status "unhealthy"; the code waits
    the whole 120 seconds for an address (twelve sleeps of 10 seconds) and
    returns "degraded" with the message "VM is running but no IP address
    assigned", next to its own failed check "VM 100 not found". *)
Theorem validate_vm_unresolved_node :
  let s := init_state tt in
  let run := ValidationService.validate_vm (scripted empty_script)
               test_settings 100 "linux" None s in
  fst (ProxmoxService.find_vm_node (scripted empty_script) 100 s) = inr PNone /\
  (exists r,
     fst run = inr r /\
     vr_status r = "degraded" /\
     vr_status r <> "unhealthy" /\
     vr_message r = Some "VM is running but no IP address assigned" /\
     vr_checks r =
       [("proxmox_status",
         {| vc_passed := false; vc_message := Some "VM 100 not found";
            vc_details := None; vc_required := true |})]) /\
  slept (trace (snd run)) = 120 /\
  now (snd run) = now s + 120 /\
  length (List.filter (fun ev => match ev with EvSleep _ => true | _ => false end)
            (trace (snd run))) = 12%nat.
Proof.
  vm_compute. repeat split; try reflexivity.
  eexists. repeat split; congruence.
Qed.

(** ** Substrings *)

Lemma prefix_app (sub rest : string) : String.prefix sub (sub +:+ rest) = true.
Proof.
  induction sub as [|c sub IH]; simpl.
  - destruct rest; reflexivity.
  - destruct (Ascii.ascii_dec c c); [exact IH | contradiction].
Qed.

Lemma contains_prefix (sub s : string) :
  String.prefix sub s = true -> contains sub s = true.
Proof. destruct s; simpl; intros ->; reflexivity. Qed.

Lemma contains_app_r (sub pre s : string) :
  contains sub s = true -> contains sub (pre +:+ s) = true.
Proof.
  intros H. induction pre as [|c pre IH]; simpl; [exact H|].
  rewrite IH. apply orb_true_r.
Qed.

Lemma contains_infix (sub pre post : string) :
  contains sub (pre +:+ sub +:+ post) = true.
Proof.
  apply contains_app_r, contains_prefix, prefix_app.
Qed.

(** ** Start failures *)
Section StartFailure.
Context {W : Type} (api : ProxmoxAPI W) (settings : Settings).
Variable generate_user_data : CloudInitConfig -> string -> string.

(** C5. Once the VM is provisioned (identifier allocated, task submitted
    and completed, and for a clone the customizations applied), with the
    start requested and enabled, a start call that raises leaves the
    overall result a success: the response has status "created" and a
    message that contains "failed to start". *)
Theorem start_failure_degrades :
  (forall request (s s0 s1 s2 : State W) node vmid task_id e,
     VMService.create_vm_allocate api settings request s = (inr (node, vmid), s0) ->
     VMService.create_vm_submit api settings request node vmid s0
     = (inr task_id, s1) ->
     cr_start_on_creation request = true ->
     enable_auto_start settings = true ->
     ProxmoxService.start_vm api (PStr node) vmid s1 = (inl e, s2) ->
     exists response s3,
       VMService.create_vm api settings request s = (inr response, s3) /\
       resp_vmid response = vmid /\
       resp_status response = "created" /\
       contains "failed to start" (resp_message response) = true) /\
  (forall request (s s0 s1 s2 s3 s4 : State W) source_node config target_node
          new_vmid task_id e,
     TemplateService.clone_resolve api request s = (inr (source_node, config), s0) ->
     TemplateService.clone_allocate api settings request s0
     = (inr (target_node, new_vmid), s1) ->
     TemplateService.clone_submit api settings request source_node new_vmid s1
     = (inr task_id, s2) ->
     TemplateService.clone_customize api generate_user_data request
       target_node new_vmid s2 = (inr tt, s3) ->
     cl_start_after_clone request = true ->
     enable_auto_start settings = true ->
     ProxmoxService.start_vm api (PStr target_node) new_vmid s3 = (inl e, s4) ->
     exists response s5,
       TemplateService.clone_from_template api settings generate_user_data
         request s = (inr response, s5) /\
       resp_vmid response = new_vmid /\
       resp_status response = "created" /\
       contains "failed to start" (resp_message response) = true).
Proof.
  split.
  - intros request s s0 s1 s2 node vmid task_id e Ha Hs Hreq Hen Hstart.
    unfold VMService.create_vm, VMService.create_vm_start,
      try_, mbind, M_bind, bind.
    rewrite Ha, Hs, Hreq, Hen. simpl. rewrite Hstart. simpl.
    eexists _, _. split; [reflexivity|]. simpl. repeat split.
    apply contains_app_r, contains_app_r.
    apply (contains_infix "failed to start" " created but " (": " +:+ exn_msg e)).
  - intros request s s0 s1 s2 s3 s4 source_node config target_node new_vmid
           task_id e Hr Ha Hs Hc Hreq Hen Hstart.
    unfold TemplateService.clone_from_template, TemplateService.clone_start,
      try_, mbind, M_bind, bind.
    rewrite Hr, Ha, Hs, Hc, Hreq, Hen. simpl. rewrite Hstart. simpl.
    eexists _, _. split; [reflexivity|]. simpl. repeat split.
    apply contains_app_r, contains_app_r.
    apply (contains_infix "failed to start" " cloned successfully but "
             (": " +:+ exn_msg e)).
Qed.
End StartFailure.

(** C5 on a cluster that refuses to start the created VM 201. *)
Lemma start_failure_degrades_witness :
  exists response s3,
    VMService.create_vm (scripted start_refused_script) test_settings
      test_create_request (init_state tt) = (inr response, s3) /\
    resp_vmid response = 201 /\
    resp_status response = "created" /\
    contains "failed to start" (resp_message response) = true.
Proof.
  pose (api := scripted start_refused_script).
  pose (s0 := snd (VMService.create_vm_allocate api test_settings
                     test_create_request (init_state tt))).
  pose (s1 := snd (VMService.create_vm_submit api test_settings
                     test_create_request "pve" 201 s0)).
  pose (s2 := snd (ProxmoxService.start_vm api (PStr "pve") 201 s1)).
  destruct (start_failure_degrades api test_settings (fun _ _ => "")) as [Hcreate _].
  apply (Hcreate test_create_request (init_state tt) s0 s1 s2 "pve" 201
           "UPID:create" (Exn VMNotFoundError "VM 201 not found on node pve"));
    vm_compute; reflexivity.
Defined.

(** ** Customization failures after a successful clone *)
Section CustomizationFailure.
Context {W : Type} (api : ProxmoxAPI W) (settings : Settings).
Variable generate_user_data : CloudInitConfig -> string -> string.

Lemma runs_apply_customizations allowed node vmid request :
  allowed KConnect = true -> allowed KRead = true -> allowed KWrite = true ->
  runs allowed (TemplateService._apply_customizations api node vmid request).
Proof.
  intros Hc Hr Hw. unfold TemplateService._apply_customizations. runs_auto.
Qed.

Lemma runs_apply_cloudinit allowed node vmid request :
  allowed KConnect = true -> allowed KRead = true -> allowed KWrite = true ->
  runs allowed (TemplateService._apply_cloudinit api generate_user_data
                  node vmid request).
Proof.
  intros Hc Hr Hw.
  unfold TemplateService._apply_cloudinit, CloudInit.apply_custom_cloudinit,
    CloudInit.upload_custom_userdata.
  runs_auto.
Qed.

(** No run of [clone_from_template] stops or deletes a VM. *)
Lemma runs_clone_from_template request :
  runs no_destroy
    (TemplateService.clone_from_template api settings generate_user_data request).
Proof.
  pose proof (fun n v => runs_apply_customizations no_destroy n v request
                           eq_refl eq_refl eq_refl) as Hcust.
  pose proof (fun n v => runs_apply_cloudinit no_destroy n v request
                           eq_refl eq_refl eq_refl) as Hci.
  unfold TemplateService.clone_from_template, TemplateService.clone_resolve,
    TemplateService.clone_allocate, TemplateService.clone_submit,
    TemplateService.wait_for_clone_completion,
    TemplateService.clone_customize, TemplateService.clone_start.
  runs_auto.
Qed.

(** A raise of [_apply_customizations] is a raise of the configuration
    update, re-raised as a clone error with the qualifying message. *)
Lemma apply_customizations_raises node vmid request (s s' : State W) e :
  TemplateService._apply_customizations api node vmid request s = (inl e, s') ->
  exists e0,
    ProxmoxService.update_vm_config api node vmid
      (TemplateService.customization_params request) s = (inl e0, s') /\
    e = Exn VMCloneError ("VM cloned but customization failed: " +:+ exn_msg e0).
Proof.
  unfold TemplateService._apply_customizations, try_.
  destruct (bool_decide _).
  - simpl. discriminate.
  - destruct (ProxmoxService.update_vm_config _ _ _ _ _) as [[e0|[]] s1];
      simpl; [|discriminate].
    intros [= <- <-]. eauto.
Qed.

(** C7. After a clone task that completed successfully, a failure of the
    requested customizations reaches the caller as a raised clone error
    whose message starts "VM cloned but customization failed" and carries
    the message of the failed update; the failure is audited, and no event
    of the whole run stops or deletes a VM. *)
Theorem customization_failure_surfaces request (s s0 s1 s2 s3 : State W)
    source_node config target_node new_vmid task_id e :
  TemplateService.clone_resolve api request s = (inr (source_node, config), s0) ->
  TemplateService.clone_allocate api settings request s0
  = (inr (target_node, new_vmid), s1) ->
  TemplateService.clone_submit api settings request source_node new_vmid s1
  = (inr task_id, s2) ->
  opt_int_truthy (cl_cores request) || opt_int_truthy (cl_memory request)
    || opt_list_truthy (cl_tags request) = true ->
  TemplateService._apply_customizations api (PStr target_node) new_vmid
    request s2 = (inl e, s3) ->
  exists e0 s4,
    ProxmoxService.update_vm_config api (PStr target_node) new_vmid
      (TemplateService.customization_params request) s2 = (inl e0, s3) /\
    e = Exn VMCloneError ("VM cloned but customization failed: " +:+ exn_msg e0) /\
    TemplateService.clone_from_template api settings generate_user_data
      request s = (inl e, s4) /\
    trace s4 = (trace s3 ++
                [EvAudit (AuditTemplateClone request (proxmox_user settings)
                            None None (Some (exn_msg e)))])%list /\
    exists evs,
      trace s4 = (trace s ++ evs)%list /\
      Forall (fun ev => kind_of ev <> KDestroy) evs.
Proof.
  intros Hr Ha Hs Hreq Hcust.
  destruct (apply_customizations_raises _ _ _ _ _ _ Hcust) as (e0 & Hupd & ->).
  pose proof (runs_clone_from_template request s) as (evs & Htr & Hall & _).
  revert Htr.
  unfold TemplateService.clone_from_template, TemplateService.clone_customize,
    try_, mbind, M_bind, bind.
  rewrite Hr, Ha, Hs, Hreq. simpl. rewrite Hcust. simpl.
  intros Htr. eexists e0, _. split; [exact Hupd|].
  split; [reflexivity|]. split; [reflexivity|]. split; [reflexivity|].
  exists evs. split; [exact Htr|].
  eapply Forall_impl; [exact Hall|]. intros ev Hev Hk. simpl in Hev.
  rewrite Hk in Hev. discriminate.
Qed.
End CustomizationFailure.

(** C7 on a cluster that refuses the configuration update of the clone. *)
Lemma customization_failure_surfaces_witness :
  exists s4,
    TemplateService.clone_from_template (scripted put_refused_script)
      test_settings (fun _ _ => "") test_clone_request (init_state tt)
    = (inl (Exn VMCloneError
              "VM cloned but customization failed: Failed to update VM config: 500 Internal Server Error"),
       s4) /\
    Forall (fun ev => kind_of ev <> KDestroy) (trace s4).
Proof.
  pose (api := scripted put_refused_script).
  pose (s0 := snd (TemplateService.clone_resolve api test_clone_request
                     (init_state tt))).
  pose (s1 := snd (TemplateService.clone_allocate api test_settings
                     test_clone_request s0)).
  pose (s2 := snd (TemplateService.clone_submit api test_settings
                     test_clone_request (PStr "pve") 201 s1)).
  pose (s3 := snd (TemplateService._apply_customizations api (PStr "pve") 201
                     test_clone_request s2)).
  destruct (customization_failure_surfaces api test_settings (fun _ _ => "")
              test_clone_request (init_state tt) s0 s1 s2 s3 (PStr "pve")
              (<["template" := PInt 1]> {["name" := PStr "ubuntu-tpl"]})
              "pve" 201 "UPID:clone"
              (Exn VMCloneError
                 "VM cloned but customization failed: Failed to update VM config: 500 Internal Server Error"))
    as (e0 & s4 & _ & _ & Hrun & _ & evs & Htr & Hall);
    try (vm_compute; reflexivity).
  exists s4. split; [exact Hrun|].
  rewrite Htr. exact Hall.
Defined.

(** ** Identifiers outside the configured range *)
Section IdentifierRange.
Context {W : Type} (api : ProxmoxAPI W) (settings : Settings).
Variable generate_user_data : CloudInitConfig -> string -> string.

Lemma runs_clone_resolve request :
  runs lookups_only (TemplateService.clone_resolve api request).
Proof. unfold TemplateService.clone_resolve. runs_auto. Qed.

Lemma out_of_range (v : Z) :
  v = vmid_min settings - 1 \/ v = vmid_max settings + 1 ->
  (v <? vmid_min settings) || (v >? vmid_max settings) = true.
Proof.
  intros [-> | ->]; apply orb_true_iff; [left | right]; lia.
Qed.

(** C3, as the code has it.  A create request whose explicit (non-zero)
    identifier is min-1 or max+1 raises InvalidVMIDError without any call
    to the control plane: only the audit record is emitted.  A clone
    request with such an identifier first resolves its source template,
    by look-ups only; when the template resolves, InvalidVMIDError is
    raised with no further call, before the clone is submitted. *)
Theorem out_of_range_id_rejected :
  (forall request (s : State W) v,
     cr_vmid request = Some v -> v <> 0 ->
     v = vmid_min settings - 1 \/ v = vmid_max settings + 1 ->
     exists s',
       VMService.create_vm api settings request s
       = (inl (Exn InvalidVMIDError (VMService.outside_range_msg settings v)), s') /\
       world s' = world s /\
       trace s' =
         (trace s ++
          [EvAudit (AuditVMCreation request (proxmox_user settings) None
                      (Some (VMService.outside_range_msg settings v)))])%list) /\
  (forall request (s s0 : State W) v source_node config,
     cl_new_vmid request = Some v -> v <> 0 ->
     v = vmid_min settings - 1 \/ v = vmid_max settings + 1 ->
     TemplateService.clone_resolve api request s = (inr (source_node, config), s0) ->
     exists s',
       TemplateService.clone_from_template api settings generate_user_data
         request s
       = (inl (Exn InvalidVMIDError (VMService.outside_range_msg settings v)), s') /\
       extends lookups_only s s0 /\
       world s' = world s0 /\
       trace s' =
         (trace s0 ++
          [EvAudit (AuditTemplateClone request (proxmox_user settings) None None
                      (Some (VMService.outside_range_msg settings v)))])%list).
Proof.
  split.
  - intros request s v Hid Hnz Hv.
    unfold VMService.create_vm, VMService.create_vm_allocate,
      try_, mbind, M_bind, bind.
    rewrite Hid. simpl.
    destruct (Z.eqb_spec v 0) as [|_]; [contradiction|]. simpl.
    rewrite (out_of_range v Hv). simpl.
    eexists. repeat split.
  - intros request s s0 v source_node config Hid Hnz Hv Hres.
    pose proof (runs_clone_resolve request s) as Hlook.
    rewrite Hres in Hlook. simpl in Hlook.
    unfold TemplateService.clone_from_template, TemplateService.clone_allocate,
      try_, mbind, M_bind, bind.
    rewrite Hres, Hid. simpl.
    destruct (Z.eqb_spec v 0) as [|_]; [contradiction|]. simpl.
    rewrite (out_of_range v Hv). simpl.
    eexists. repeat split. exact Hlook.
Qed.
End IdentifierRange.

(** C3 on the identifier 149 = min-1, against an unreachable control
    plane: the create request is rejected all the same. *)
Lemma out_of_range_id_rejected_witness :
  exists s',
    VMService.create_vm (scripted unreachable_script) test_settings
      (create_request_with_id 149) (init_state tt)
    = (inl (Exn InvalidVMIDError "VM ID 149 is outside allowed range (150-999)"), s') /\
    world s' = tt /\
    trace s' =
      [EvAudit (AuditVMCreation (create_request_with_id 149) "root@pam" None
                  (Some "VM ID 149 is outside allowed range (150-999)"))].
Proof.
  destruct (out_of_range_id_rejected (scripted unreachable_script) test_settings
              (fun _ _ => "")) as [Hcreate _].
  apply (Hcreate (create_request_with_id 149) (init_state tt) 149).
  - reflexivity.
  - lia.
  - left. reflexivity.
Defined.

(** The claim as stated fails on the clone path: with the identifier
    1000 = max+1, a clone request whose template is missing raises
    TemplateNotFoundError, not InvalidVMIDError; and when the template
    exists, the control plane has been called (connection, listing, template
    configuration) before InvalidVMIDError is raised. *)
Lemma clone_out_of_range_counterexample :
  let missing := TemplateService.clone_from_template (scripted empty_script)
                   test_settings (fun _ _ => "") (clone_request_with_id 1000)
                   (init_state tt) in
  let present := TemplateService.clone_from_template (scripted healthy_script)
                   test_settings (fun _ _ => "") (clone_request_with_id 1000)
                   (init_state tt) in
  fst missing = inl (Exn TemplateNotFoundError "Template 9000 not found") /\
  fst present
  = inl (Exn InvalidVMIDError "VM ID 1000 is outside allowed range (150-999)") /\
  List.filter (fun ev => lookups_only (kind_of ev)) (trace (snd present))
  = [EvConnect; EvVersionGet; EvNodesGet; EvVersionGet; EvQemuGet (PStr "pve");
     EvVersionGet; EvConfigGet (PStr "pve") 9000].
Proof. vm_compute. repeat split. Qed.

(** ** The batch executor *)
Section Batch.
Context {W : Type} (api : ProxmoxAPI W) (settings : Settings).

Lemma create_vm_name request (s s' : State W) response :
  VMService.create_vm api settings request s = (inr response, s') ->
  resp_name response = cr_name request /\ resp_status response <> "failed".
Proof.
  unfold VMService.create_vm, try_, mbind, M_bind, bind.
  destruct (VMService.create_vm_allocate api settings request s)
    as [[e|[node vmid]] s0]; simpl.
  { destruct (exn_cls e); simpl; discriminate. }
  destruct (VMService.create_vm_submit api settings request node vmid s0)
    as [[e|task_id] s1]; simpl.
  { destruct (exn_cls e); simpl; discriminate. }
  unfold VMService.create_vm_start, try_, mbind, M_bind, bind.
  destruct (cr_start_on_creation request && enable_auto_start settings); simpl.
  - destruct (ProxmoxService.start_vm api (PStr node) vmid s1) as [[e|t] s2];
      simpl; intros [= <- _]; simpl; (split; [reflexivity | discriminate]).
  - intros [= <- _]; simpl; (split; [reflexivity | discriminate]).
Qed.

(** One iteration appends exactly one response, named after its request,
    and counts it once: the response of [create_vm] when it returns, the
    synthesized response when it raises (the raise is not propagated) or
    when the configuration is invalid ([create_vm] is then not called). *)
Lemma batch_item_spec request results successful failed (s : State W) :
  exists r successful' failed' s',
    VMsApi.batch_item api settings request (results, successful, failed) s
    = (inr ((results ++ [r])%list, successful', failed'), s') /\
    resp_name r = cr_name request /\
    successful' + failed' = successful + failed + 1 /\
    (forall e s1,
       fst (VMService.validate_vm_config request) = true ->
       VMService.create_vm api settings request s = (inl e, s1) ->
       s' = s1 /\ successful' = successful /\
       r = VMsApi.error_result request
             ((if domain_error e then "Failed: " else "Unexpected error: ")
              +:+ exn_msg e)) /\
    (forall response s1,
       fst (VMService.validate_vm_config request) = true ->
       VMService.create_vm api settings request s = (inr response, s1) ->
       s' = s1 /\ successful' = successful + 1 /\ r = response) /\
    (fst (VMService.validate_vm_config request) = false ->
       s' = s /\ successful' = successful /\
       r = VMsApi.error_result request
             ("Invalid configuration: " +:+
              join ", " (snd (VMService.validate_vm_config request)))).
Proof.
  unfold VMsApi.batch_item, try_, mbind, M_bind, bind.
  destruct (fst (VMService.validate_vm_config request)) eqn:Hvalid; simpl.
  - destruct (VMService.create_vm api settings request s) as [[e|resp] s1] eqn:Hc.
    + unfold domain_error.
      destruct (exn_cls e) eqn:Hcls; simpl;
        eexists _, _, _, _; (split; [reflexivity|]);
        (split; [reflexivity|]); (split; [lia|]);
        (split; [intros e' s1' _ [= <- <-]; rewrite Hcls; auto|]);
        (split; [intros r' s1' _ H; discriminate H | discriminate]).
    + simpl. eexists _, _, _, _. split; [reflexivity|].
      split; [apply (create_vm_name _ _ _ _ Hc)|]. split; [lia|].
      split; [intros e' s1' _ H; discriminate H|].
      split; [intros r' s1' _ [= <- <-]; auto | discriminate].
  - eexists _, _, _, _. split; [reflexivity|]. split; [reflexivity|].
    split; [lia|]. split; [intros e' s1' H; discriminate H|].
    split; [intros r' s1' H; discriminate H | auto].
Qed.

Lemma batch_loop_cons request rest acc (s : State W) :
  VMsApi.batch_loop api settings (request :: rest) acc s
  = match VMsApi.batch_item api settings request acc s with
    | (inr acc', s1) => VMsApi.batch_loop api settings rest acc' s1
    | (inl e, s1) => (inl e, s1)
    end.
Proof. reflexivity. Qed.

Lemma batch_loop_spec requests :
  forall results successful failed (s : State W),
  exists rs successful' failed' s',
    VMsApi.batch_loop api settings requests (results, successful, failed) s
    = (inr ((results ++ rs)%list, successful', failed'), s') /\
    length rs = length requests /\
    map resp_name rs = map cr_name requests /\
    successful' + failed' = successful + failed + Z.of_nat (length requests).
Proof.
  induction requests as [|request rest IH]; intros results successful failed s.
  - exists [], successful, failed, s. simpl. rewrite app_nil_r.
    repeat split. lia.
  - destruct (batch_item_spec request results successful failed s)
      as (r & a1 & b1 & s1 & Hitem & Hname & Hcount & _).
    destruct (IH (results ++ [r])%list a1 b1 s1)
      as (rs & a2 & b2 & s2 & Hloop & Hlen & Hnames & Hcount2).
    exists (r :: rs), a2, b2, s2.
    rewrite batch_loop_cons, Hitem, Hloop.
    rewrite <- app_assoc. simpl. rewrite Hlen, Hname, Hnames.
    repeat split. lia.
Qed.

Lemma batch_loop_app requests1 requests2 acc (s : State W) :
  VMsApi.batch_loop api settings (requests1 ++ requests2) acc s
  = (acc1 ← VMsApi.batch_loop api settings requests1 acc;
     VMsApi.batch_loop api settings requests2 acc1) s.
Proof.
  revert acc s. induction requests1 as [|request rest IH]; intros acc s.
  - reflexivity.
  - change ((request :: rest) ++ requests2)%list
      with (request :: (rest ++ requests2))%list.
    unfold mbind, M_bind, bind in *. rewrite !batch_loop_cons.
    destruct (VMsApi.batch_item api settings request acc s) as [[e|acc1] s1];
      [reflexivity | apply IH].
Qed.

(** The result at position [i] of the report is the response that the
    iteration on the [i]-th request appends, in the state that the batch
    has reached after the requests before it. *)
Lemma batch_loop_lookup requests (s : State W) (i : nat) request :
  requests !! i = Some request ->
  exists rs1 a1 b1 s_i r a2 b2 s2,
    VMsApi.batch_loop api settings (take i requests) ([], 0, 0) s
    = (inr (rs1, a1, b1), s_i) /\
    VMsApi.batch_item api settings request (rs1, a1, b1) s_i
    = (inr ((rs1 ++ [r])%list, a2, b2), s2) /\
    VMsApi.batch_loop api settings (take (S i) requests) ([], 0, 0) s
    = (inr ((rs1 ++ [r])%list, a2, b2), s2) /\
    (forall results a b s',
       VMsApi.batch_loop api settings requests ([], 0, 0) s
       = (inr (results, a, b), s') ->
       results !! i = Some r).
Proof.
  intros Hi.
  destruct (batch_loop_spec (take i requests) [] 0 0 s)
    as (rs1 & a1 & b1 & s_i & Hloop1 & Hlen1 & _ & _).
  simpl in Hloop1.
  destruct (batch_item_spec request rs1 a1 b1 s_i)
    as (r & a2 & b2 & s2 & Hitem & _).
  exists rs1, a1, b1, s_i, r, a2, b2, s2.
  split; [exact Hloop1|]. split; [exact Hitem|].
  assert (Hnext : VMsApi.batch_loop api settings (take (S i) requests)
                    ([], 0, 0) s = (inr ((rs1 ++ [r])%list, a2, b2), s2)).
  { rewrite (take_S_r requests i request Hi), batch_loop_app.
    unfold mbind, M_bind, bind. rewrite Hloop1.
    rewrite batch_loop_cons, Hitem. reflexivity. }
  split; [exact Hnext|].
  intros results a b s' Hloop.
  rewrite <- (take_drop (S i) requests), batch_loop_app in Hloop.
  unfold mbind, M_bind, bind in Hloop. rewrite Hnext in Hloop.
  destruct (batch_loop_spec (drop (S i) requests) (rs1 ++ [r])%list a2 b2 s2)
    as (rs3 & a3 & b3 & s3 & Hloop3 & _).
  rewrite Hloop3 in Hloop. injection Hloop as <- _ _ _.
  assert (Hi' : length rs1 = i).
  { rewrite Hlen1. apply length_take_le. apply lookup_lt_Some in Hi. lia. }
  rewrite <- app_assoc. rewrite lookup_app_r by lia.
  replace (i - length rs1)%nat with 0%nat by lia. reflexivity.
Qed.

(** C1. For every list of N requests, from every state, the batch
    executor returns a report: N results, the i-th named after the i-th
    request, with successful + failed = total = N.  The i-th result is the
    outcome of the i-th request, processed in the state the batch has
    reached after the requests before it: the response of [create_vm] when
    it returns; when it raises a domain error, the synthesized result
    (status "failed", vmid 0, message "Failed: " and the error message);
    when it raises anything else, the synthesized result with the message
    "Unexpected error: " and the error message; and for an invalid
    configuration the synthesized result listing the issues.  In every case
    the items after it are processed as well, from the state in which the
    item ended. *)
Theorem batch_create_vms_report (requests : list VMCreateRequest)
    (s : State W) :
  exists report s',
    VMsApi.batch_create_vms api settings requests s = (inr report, s') /\
    length (batch_results report) = length requests /\
    map resp_name (batch_results report) = map cr_name requests /\
    batch_total report = Z.of_nat (length requests) /\
    batch_successful report + batch_failed report = batch_total report /\
    (forall (i : nat) request e s_i s1,
       requests !! i = Some request ->
       s_i = snd (VMsApi.batch_loop api settings (take i requests) ([], 0, 0) s) ->
       fst (VMService.validate_vm_config request) = true ->
       VMService.create_vm api settings request s_i = (inl e, s1) ->
       domain_error e = true ->
       batch_results report !! i =
         Some {| resp_vmid := 0; resp_name := cr_name request;
                 resp_node := ""; resp_status := "failed";
                 resp_message := "Failed: " +:+ exn_msg e;
                 resp_task_id := None |}) /\
    (forall (i : nat) request response s_i s1,
       requests !! i = Some request ->
       s_i = snd (VMsApi.batch_loop api settings (take i requests) ([], 0, 0) s) ->
       fst (VMService.validate_vm_config request) = true ->
       VMService.create_vm api settings request s_i = (inr response, s1) ->
       batch_results report !! i = Some response) /\
    (forall (i : nat) request e s_i s1,
       requests !! i = Some request ->
       s_i = snd (VMsApi.batch_loop api settings (take i requests) ([], 0, 0) s) ->
       fst (VMService.validate_vm_config request) = true ->
       VMService.create_vm api settings request s_i = (inl e, s1) ->
       domain_error e = false ->
       batch_results report !! i =
         Some {| resp_vmid := 0; resp_name := cr_name request;
                 resp_node := ""; resp_status := "failed";
                 resp_message := "Unexpected error: " +:+ exn_msg e;
                 resp_task_id := None |}) /\
    (forall (i : nat) request,
       requests !! i = Some request ->
       fst (VMService.validate_vm_config request) = false ->
       batch_results report !! i =
         Some {| resp_vmid := 0; resp_name := cr_name request;
                 resp_node := ""; resp_status := "failed";
                 resp_message :=
                   "Invalid configuration: " +:+
                   join ", " (snd (VMService.validate_vm_config request));
                 resp_task_id := None |} /\
       snd (VMsApi.batch_loop api settings (take (S i) requests) ([], 0, 0) s)
       = snd (VMsApi.batch_loop api settings (take i requests) ([], 0, 0) s)) /\
    (forall (i : nat) request,
       requests !! i = Some request ->
       fst (VMService.validate_vm_config request) = true ->
       snd (VMsApi.batch_loop api settings (take (S i) requests) ([], 0, 0) s)
       = snd (VMService.create_vm api settings request
                (snd (VMsApi.batch_loop api settings (take i requests)
                        ([], 0, 0) s)))).
Proof.
  destruct (batch_loop_spec requests [] 0 0 s)
    as (rs & a & b & s1 & Hloop & Hlen & Hnames & Hcount).
  simpl in Hloop.
  eexists _, _. split.
  { unfold VMsApi.batch_create_vms, mbind, M_bind, bind.
    rewrite Hloop. reflexivity. }
  simpl. do 4 (split; [first [assumption | lia]|]).
  split; [|split; [|split; [|split]]].
  - intros i request e s_i s1' Hi -> Hvalid Hcreate Hdom.
    destruct (batch_loop_lookup requests s i request Hi)
      as (rs1 & a1 & b1 & s_i & r & a2 & b2 & s2 & Hloop1 & Hitem & _ & Hres).
    rewrite Hloop1 in Hcreate. simpl in Hcreate.
    destruct (batch_item_spec request rs1 a1 b1 s_i)
      as (r' & a2' & b2' & s2' & Hitem' & _ & _ & Hraise & _).
    rewrite Hitem in Hitem'. injection Hitem' as Hr _ _ _.
    apply app_inj_tail in Hr as [_ <-].
    destruct (Hraise e s1' Hvalid Hcreate) as (_ & _ & Heq).
    rewrite Hdom in Heq. rewrite (Hres _ _ _ _ Hloop), Heq. reflexivity.
  - intros i request response s_i s1' Hi -> Hvalid Hcreate.
    destruct (batch_loop_lookup requests s i request Hi)
      as (rs1 & a1 & b1 & s_i & r & a2 & b2 & s2 & Hloop1 & Hitem & _ & Hres).
    rewrite Hloop1 in Hcreate. simpl in Hcreate.
    destruct (batch_item_spec request rs1 a1 b1 s_i)
      as (r' & a2' & b2' & s2' & Hitem' & _ & _ & _ & Hok & _).
    rewrite Hitem in Hitem'. injection Hitem' as Hr _ _ _.
    apply app_inj_tail in Hr as [_ <-].
    destruct (Hok response s1' Hvalid Hcreate) as (_ & _ & Heq).
    rewrite (Hres _ _ _ _ Hloop), Heq. reflexivity.
  - intros i request e s_i s1' Hi -> Hvalid Hcreate Hdom.
    destruct (batch_loop_lookup requests s i request Hi)
      as (rs1 & a1 & b1 & s_i & r & a2 & b2 & s2 & Hloop1 & Hitem & _ & Hres).
    rewrite Hloop1 in Hcreate. simpl in Hcreate.
    destruct (batch_item_spec request rs1 a1 b1 s_i)
      as (r' & a2' & b2' & s2' & Hitem' & _ & _ & Hraise & _).
    rewrite Hitem in Hitem'. injection Hitem' as Hr _ _ _.
    apply app_inj_tail in Hr as [_ <-].
    destruct (Hraise e s1' Hvalid Hcreate) as (_ & _ & Heq).
    rewrite Hdom in Heq. rewrite (Hres _ _ _ _ Hloop), Heq. reflexivity.
  - intros i request Hi Hvalid.
    destruct (batch_loop_lookup requests s i request Hi)
      as (rs1 & a1 & b1 & s_i & r & a2 & b2 & s2 & Hloop1 & Hitem & Hnext & Hres).
    destruct (batch_item_spec request rs1 a1 b1 s_i)
      as (r' & a2' & b2' & s2' & Hitem' & _ & _ & _ & _ & Hinvalid).
    rewrite Hitem in Hitem'. injection Hitem' as Hr _ _ Hs2.
    apply app_inj_tail in Hr as [_ <-].
    destruct (Hinvalid Hvalid) as (Hs & _ & Heq).
    rewrite (Hres _ _ _ _ Hloop), Heq, Hnext, Hloop1. simpl.
    split; [reflexivity | congruence].
  - intros i request Hi Hvalid.
    destruct (batch_loop_lookup requests s i request Hi)
      as (rs1 & a1 & b1 & s_i & r & a2 & b2 & s2 & Hloop1 & Hitem & Hnext & _).
    destruct (batch_item_spec request rs1 a1 b1 s_i)
      as (r' & a2' & b2' & s2' & Hitem' & _ & _ & Hraise & Hok & _).
    rewrite Hitem in Hitem'. injection Hitem' as _ _ _ Hs2.
    rewrite Hnext, Hloop1. simpl.
    destruct (VMService.create_vm api settings request s_i) as [[e|resp] s3] eqn:Hc.
    + destruct (Hraise e s3 Hvalid eq_refl) as (Hs & _). simpl. congruence.
    + destruct (Hok resp s3 Hvalid eq_refl) as (Hs & _). simpl. congruence.
Qed.
End Batch.

(** C1 on a batch of two requests against the healthy cluster: the first
    asks for the identifier 149, outside the range, and fails; the second is
    created all the same, under the identifier 201, and its response is the
    second result. *)
Lemma batch_create_vms_report_witness :
  exists report s',
    VMsApi.batch_create_vms (scripted healthy_script) test_settings
      [create_request_with_id 149; test_create_request] (init_state tt)
    = (inr report, s') /\
    length (batch_results report) = 2%nat /\
    batch_successful report + batch_failed report = 2 /\
    batch_results report !! 0%nat =
      Some {| resp_vmid := 0; resp_name := "server-01"; resp_node := "";
              resp_status := "failed";
              resp_message :=
                "Failed: VM ID 149 is outside allowed range (150-999)";
              resp_task_id := None |} /\
    batch_results report !! 1%nat =
      Some {| resp_vmid := 201; resp_name := "server-01"; resp_node := "pve";
              resp_status := "started";
              resp_message := "VM 201 created and started successfully";
              resp_task_id := Some "UPID:create" |}.
Proof.
  pose (api := scripted healthy_script).
  pose (requests := [create_request_with_id 149; test_create_request]).
  pose (s_0 := snd (VMsApi.batch_loop api test_settings (take 0 requests)
                      ([], 0, 0) (init_state tt))).
  pose (s_1 := snd (VMsApi.batch_loop api test_settings (take 1 requests)
                      ([], 0, 0) (init_state tt))).
  pose (s1 := snd (VMService.create_vm api test_settings
                     (create_request_with_id 149) s_0)).
  pose (s2 := snd (VMService.create_vm api test_settings test_create_request s_1)).
  destruct (batch_create_vms_report api test_settings requests (init_state tt))
    as (report & s' & Hrun & Hlen & _ & Htotal & Hsum & Hitem & Hok & _).
  exists report, s'. split; [exact Hrun|]. split; [exact Hlen|].
  split; [rewrite Hsum, Htotal; reflexivity|]. split.
  - apply (Hitem 0%nat (create_request_with_id 149)
             (Exn InvalidVMIDError "VM ID 149 is outside allowed range (150-999)")
             s_0 s1); vm_compute; reflexivity.
  - apply (Hok 1%nat test_create_request _ s_1 s2); vm_compute; reflexivity.
Defined.

(** * Further properties of the services *)

(** ** Events of a run, one by one *)
Section RunsEv.
Context {W : Type}.
Implicit Types (s : State W) (P : event -> Prop).

Lemma extends_ev_refl P s : extends_ev P s s.
Proof. exists []. rewrite app_nil_r. split; [reflexivity | constructor]. Qed.

Lemma extends_ev_trans P s1 s2 s3 :
  extends_ev P s1 s2 -> extends_ev P s2 s3 -> extends_ev P s1 s3.
Proof.
  intros (e1 & T1 & F1) (e2 & T2 & F2).
  exists (e1 ++ e2)%list. rewrite T2, T1, app_assoc.
  split; [reflexivity | apply Forall_app; auto].
Qed.

Lemma extends_ev_of_kinds (allowed : kind -> bool) P s s' :
  (forall ev, allowed (kind_of ev) = true -> P ev) ->
  extends allowed s s' -> extends_ev P s s'.
Proof.
  intros HP (evs & T & F & _). exists evs. split; [exact T|].
  eapply Forall_impl; [exact F|]. exact HP.
Qed.

Lemma runs_ev_of_kinds {A} (allowed : kind -> bool) P (m : M (State W) A) :
  (forall ev, allowed (kind_of ev) = true -> P ev) ->
  runs allowed m -> runs_ev P m.
Proof. intros HP Hm s. eapply extends_ev_of_kinds; [exact HP | apply Hm]. Qed.

Lemma runs_ev_ret {A} P (a : A) : runs_ev P (mret a : M (State W) A).
Proof. intros s. apply extends_ev_refl. Qed.

Lemma runs_ev_raise {A} P e : runs_ev P (raise e : M (State W) A).
Proof. intros s. apply extends_ev_refl. Qed.

Lemma runs_ev_bind {A B} P (m : M (State W) A) (k : A -> M (State W) B) :
  runs_ev P m -> (forall a, runs_ev P (k a)) -> runs_ev P (m ≫= k).
Proof.
  intros Hm Hk s. specialize (Hm s).
  unfold mbind, M_bind, bind. destruct (m s) as [[e|a] s1]; simpl in *.
  - exact Hm.
  - eapply extends_ev_trans; [exact Hm | apply Hk].
Qed.

Lemma runs_ev_try {A} P (m : M (State W) A) (h : exn -> M (State W) A) :
  runs_ev P m -> (forall e, runs_ev P (h e)) -> runs_ev P (try_ m h).
Proof.
  intros Hm Hh s. specialize (Hm s).
  unfold try_. destruct (m s) as [[e|a] s1]; simpl in *.
  - eapply extends_ev_trans; [exact Hm | apply Hh].
  - exact Hm.
Qed.

Lemma runs_ev_call {A} P ev (f : ext W A) : P ev -> runs_ev P (call ev f).
Proof.
  intros HP s. unfold call. destruct (f (now s) (world s)) as [r w'].
  exists [ev]. split; [reflexivity | repeat constructor; exact HP].
Qed.

Lemma runs_ev_audit P entry : P (EvAudit entry) -> runs_ev P (audit (W:=W) entry).
Proof. intros HP s. exists [EvAudit entry]. split; [reflexivity | repeat constructor; exact HP]. Qed.
End RunsEv.

(** ** Which exceptions a computation can raise *)
Section RaisesOnly.
Context {S : Type}.

Lemma raises_only_try {A} classes (m : M S A) (h : exn -> M S A) :
  (forall e, raises_only classes (h e)) -> raises_only classes (try_ m h).
Proof.
  intros Hh s e s'. unfold try_.
  destruct (m s) as [[e0|a] s1]; [apply Hh | discriminate].
Qed.

Lemma raises_only_raise {A} classes (e : exn) :
  In (exn_cls e) classes -> raises_only classes (raise e : M S A).
Proof. intros Hin s e' s' [= <- _]. exact Hin. Qed.

Lemma raises_only_ret {A} classes (a : A) : raises_only classes (mret a : M S A).
Proof. intros s e s' H. discriminate H. Qed.

Lemma raises_only_bind {A B} classes (m : M S A) (k : A -> M S B) :
  raises_only classes m -> (forall a, raises_only classes (k a)) ->
  raises_only classes (m ≫= k).
Proof.
  intros Hm Hk s e s'. unfold mbind, M_bind, bind.
  destruct (m s) as [[e0|a] s1] eqn:E.
  - intros [= <- <-]. eapply Hm. exact E.
  - apply Hk.
Qed.

Lemma raises_only_weaken {A} (c1 c2 : list exn_class) (m : M S A) :
  (forall c, In c c1 -> In c c2) -> raises_only c1 m -> raises_only c2 m.
Proof. intros Hc Hm s e s' H. apply Hc. eapply Hm. exact H. Qed.
End RaisesOnly.

(** A handler that re-raises under one of the listed classes. *)
Ltac raises_handler :=
  intros ?e;
  repeat match goal with
         | |- raises_only _ (match exn_cls ?e with _ => _ end) => destruct (exn_cls e)
         | |- raises_only _ (if ?b then _ else _) => destruct b
         end;
  apply raises_only_raise; simpl; tauto.

(** ** The error taxonomy of the control-plane client *)
Section ClientTaxonomy.
Context {W : Type} (api : ProxmoxAPI W).

(** No exception of the client library leaves the control-plane client:
    every method re-raises under the domain classes of its own, whatever
    the remote side raises. *)
Theorem proxmox_service_error_taxonomy :
  raises_only [ProxmoxConnectionError] (ProxmoxService.connect api) /\
  raises_only [ProxmoxConnectionError] (ProxmoxService.get_version api) /\
  raises_only [ProxmoxConnectionError] (ProxmoxService.list_nodes api) /\
  (forall node, raises_only [ProxmoxConnectionError]
                  (ProxmoxService.list_vms api node)) /\
  raises_only [ProxmoxConnectionError] (ProxmoxService.get_next_vmid api) /\
  (forall node upid, raises_only [ProxmoxConnectionError]
                       (ProxmoxService.get_task_status api node upid)) /\
  (forall node vmid, raises_only [VMNotFoundError; ProxmoxConnectionError]
                       (ProxmoxService.get_vm_config api node vmid)) /\
  (forall node vmid, raises_only [VMNotFoundError; ProxmoxConnectionError]
                       (ProxmoxService.get_vm_status api node vmid)) /\
  (forall node vmid, raises_only [VMNotFoundError; ProxmoxConnectionError]
                       (ProxmoxService.start_vm api node vmid)) /\
  (forall node vmid, raises_only [VMNotFoundError; ProxmoxConnectionError]
                       (ProxmoxService.stop_vm api node vmid)) /\
  (forall node vmid purge, raises_only [VMNotFoundError; ProxmoxConnectionError]
                             (ProxmoxService.delete_vm api node vmid purge)) /\
  (forall node vmid kwargs, raises_only [VMNotFoundError; ProxmoxConnectionError]
                              (ProxmoxService.update_vm_config api node vmid kwargs)) /\
  (forall node src new name storage full kwargs,
     raises_only [InvalidVMIDError; VMCloneError]
       (ProxmoxService.clone_vm api node src new name storage full kwargs)) /\
  (forall node vmid kwargs,
     raises_only [InvalidVMIDError; VMCreationError]
       (ProxmoxService.create_vm api node vmid kwargs)).
Proof.
  repeat split; intros; apply raises_only_try; raises_handler.
Qed.
End ClientTaxonomy.

(** ** The error taxonomy of the services and the status codes of the
    endpoints *)
Section ServiceTaxonomy.
Context {W : Type} (api : ProxmoxAPI W) (settings : Settings).
Context (pydantic : Pydantic).
Variable generate_user_data : CloudInitConfig -> string -> string.

Lemma raises_only_audit classes entry :
  raises_only classes (audit (W:=W) entry).
Proof. intros s e s' H. discriminate H. Qed.

Lemma create_vm_raises_only request :
  raises_only [InvalidVMIDError; VMCreationError]
    (VMService.create_vm api settings request).
Proof.
  apply raises_only_try. intros e.
  destruct (exn_cls e) eqn:Hcls;
    (apply raises_only_bind; [apply raises_only_audit | intros _]);
    apply raises_only_raise; simpl; rewrite ?Hcls; tauto.
Qed.

Lemma clone_from_template_raises_only request :
  raises_only [TemplateNotFoundError; InvalidVMIDError; VMCloneError]
    (TemplateService.clone_from_template api settings generate_user_data request).
Proof.
  apply raises_only_try. intros e.
  destruct (exn_cls e) eqn:Hcls;
    (apply raises_only_bind; [apply raises_only_audit | intros _]);
    apply raises_only_raise; simpl; rewrite ?Hcls; tauto.
Qed.

Lemma get_vm_info_raises_only vmid :
  raises_only [VMNotFoundError; ProxmoxConnectionError]
    (VMService.get_vm_info api pydantic vmid).
Proof.
  apply raises_only_try. intros e.
  destruct (exn_cls e) eqn:Hcls;
    apply raises_only_raise; simpl; rewrite ?Hcls; tauto.
Qed.

Lemma get_vm_status_raises_only vmid :
  raises_only [VMNotFoundError; ProxmoxConnectionError]
    (VMService.get_vm_status api pydantic vmid).
Proof.
  apply raises_only_try. intros e.
  destruct (exn_cls e) eqn:Hcls;
    apply raises_only_raise; simpl; rewrite ?Hcls; tauto.
Qed.

(** The orchestrators and the look-ups raise under their own classes only:
    a connection failure never leaves [create_vm] or [clone_from_template]
    as ProxmoxConnectionError, it is re-raised as a creation or clone
    error. *)
Theorem service_error_taxonomy :
  (forall request,
     raises_only [InvalidVMIDError; VMCreationError]
       (VMService.create_vm api settings request)) /\
  (forall request,
     raises_only [TemplateNotFoundError; InvalidVMIDError; VMCloneError]
       (TemplateService.clone_from_template api settings generate_user_data
          request)) /\
  (forall vmid,
     raises_only [VMNotFoundError; ProxmoxConnectionError]
       (VMService.get_vm_info api pydantic vmid)) /\
  (forall vmid,
     raises_only [VMNotFoundError; ProxmoxConnectionError]
       (VMService.get_vm_status api pydantic vmid)).
Proof.
  repeat split; intros.
  - apply create_vm_raises_only.
  - apply clone_from_template_raises_only.
  - apply get_vm_info_raises_only.
  - apply get_vm_status_raises_only.
Qed.

Lemma find_vm_node_listing_fails vmid (s : State W) e s1 :
  ProxmoxService.list_vms api PNone s = (inl e, s1) ->
  ProxmoxService.find_vm_node api vmid s = (inr PNone, s1).
Proof.
  intros H. unfold ProxmoxService.find_vm_node, try_, mbind, M_bind, bind.
  rewrite H. reflexivity.
Qed.

(** GET /{vmid}.  A failure is answered with 404 or 503, never 500; and
    when the control plane cannot be listed at all, the answer is
    404 "VM <vmid> not found", not 503. *)
Theorem get_vm_info_endpoint_status vmid (s : State W) :
  (forall h s', VMsApi.get_vm_info api pydantic vmid s = (inl h, s') ->
                status_code h = 404 \/ status_code h = 503) /\
  (forall e s1,
     ProxmoxService.list_vms api PNone s = (inl e, s1) ->
     VMsApi.get_vm_info api pydantic vmid s =
       (inl {| status_code := 404;
               detail := DetailText ("VM " +:+ pretty vmid +:+ " not found") |},
        s1)).
Proof.
  split.
  - intros h s'. unfold VMsApi.get_vm_info.
    destruct (VMService.get_vm_info api pydantic vmid s) as [[e|r] s1] eqn:Hc; [|discriminate].
    intros [= <- _]. pose proof (get_vm_info_raises_only vmid s e s1 Hc) as Hin.
    simpl in Hin. destruct Hin as [<- | [<- | []]]; simpl; auto.
  - intros e s1 Hlist. unfold VMsApi.get_vm_info, VMService.get_vm_info,
      try_, mbind, M_bind, bind.
    rewrite (find_vm_node_listing_fails vmid s e s1 Hlist). reflexivity.
Qed.

(** POST /clone.  A failure is answered with 404 or 400, never 503 or 500;
    when the control plane cannot be listed at all, the answer is
    404 "Template <id> not found". *)
Theorem clone_template_endpoint_status request (s : State W) :
  (forall h s',
     TemplatesApi.clone_template api settings generate_user_data request s
     = (inl h, s') ->
     status_code h = 404 \/ status_code h = 400) /\
  (forall e s1,
     ProxmoxService.list_vms api PNone s = (inl e, s1) ->
     exists s',
       TemplatesApi.clone_template api settings generate_user_data request s =
         (inl {| status_code := 404;
                 detail := DetailText ("Template " +:+
                                       pretty (cl_source_vmid request) +:+
                                       " not found") |},
          s')).
Proof.
  split.
  - intros h s'. unfold TemplatesApi.clone_template.
    destruct (TemplateService.clone_from_template _ _ _ _ s) as [[e|r] s1] eqn:Hc;
      [|discriminate].
    intros [= <- _].
    pose proof (clone_from_template_raises_only request s e s1 Hc) as Hin.
    simpl in Hin. destruct Hin as [<- | [<- | [<- | []]]]; simpl; auto.
  - intros e s1 Hlist.
    unfold TemplatesApi.clone_template, TemplateService.clone_from_template,
      TemplateService.clone_resolve, try_, mbind, M_bind, bind.
    rewrite (find_vm_node_listing_fails _ s e s1 Hlist). simpl.
    eexists. reflexivity.
Qed.
End ServiceTaxonomy.

Section CreateEndpoint.
Context {W : Type} (api : ProxmoxAPI W) (settings : Settings).
Variable http_str : Z -> http_detail -> string.

(** POST /create.  An invalid configuration is answered with status 500,
    not 400: the HTTPException(400) is raised inside the [try] and caught by
    its last clause; nothing is sent to the control plane and nothing is
    audited.  With a valid configuration every failure is answered with
    status 400; status 503 is never produced. *)
Theorem create_vm_endpoint_status request (s : State W) :
  (fst (VMService.validate_vm_config request) = false ->
   VMsApi.create_vm api settings http_str request s =
     (inl {| status_code := 500;
             detail := DetailText
               ("Failed to create VM: " +:+
                http_str 400 (DetailIssues "Invalid VM configuration"
                                (snd (VMService.validate_vm_config request)))) |},
      s)) /\
  (fst (VMService.validate_vm_config request) = true ->
   forall h s', VMsApi.create_vm api settings http_str request s = (inl h, s') ->
                status_code h = 400) /\
  (forall h s', VMsApi.create_vm api settings http_str request s = (inl h, s') ->
                status_code h <> 503).
Proof.
  unfold VMsApi.create_vm, VMsApi.create_vm_try.
  destruct (fst (VMService.validate_vm_config request)) eqn:Hvalid; simpl.
  - assert (Hcls : forall h s',
              match VMService.create_vm api settings request s with
              | (inl e, s1) => (inl (VMsApi.create_vm_except e), s1)
              | (inr result, s1) => (inr result, s1)
              end = (inl h, s') -> status_code h = 400).
    { intros h s'.
      destruct (VMService.create_vm api settings request s) as [[e|r] s1] eqn:Hc;
        [|discriminate].
      intros [= <- _]. pose proof (create_vm_raises_only api settings request s e s1 Hc) as Hin.
      unfold VMsApi.create_vm_except. simpl in Hin.
      destruct Hin as [<- | [<- | []]]; reflexivity. }
    split; [discriminate|]. split; [intros _; exact Hcls|].
    intros h s' H. rewrite (Hcls h s' H). discriminate.
  - split; [reflexivity|]. split; [discriminate|].
    intros h s' [= <- _]. simpl. discriminate.
Qed.
End CreateEndpoint.

(** A memory reported as the string '2048' is accepted by a library that
    converts digit strings, and rejected by one that converts nothing. *)
Example get_vm_info_numeric_string :
  fst (VMService.get_vm_info (scripted string_memory_script) test_pydantic 200
         (init_state tt))
  = inr {| vi_vmid := 200; vi_name := "vm"; vi_node := "pve";
           vi_status := "running"; vi_cores := None; vi_memory := Some 2048;
           vi_uptime := Some 42 |} /\
  match fst (VMService.get_vm_info (scripted string_memory_script)
               {| lax_int := fun _ => None; lax_str := fun _ => None;
                  to_float := fun _ => None |} 200
               (init_state tt)) with
  | inl e => exn_cls e = ProxmoxConnectionError
  | inr _ => False
  end.
Proof. split; vm_compute; reflexivity. Qed.

(** The GET /{vmid} endpoint against an unreachable control plane. *)
Lemma get_vm_info_endpoint_status_witness :
  fst (VMsApi.get_vm_info (scripted unreachable_script) test_pydantic 100 (init_state tt)) =
    inl {| status_code := 404; detail := DetailText "VM 100 not found" |}.
Proof.
  destruct (get_vm_info_endpoint_status (scripted unreachable_script)
              test_pydantic 100
              (init_state tt)) as [_ H].
  rewrite (H (Exn ProxmoxConnectionError
                "Failed to list VMs: Failed to list nodes: Failed to connect to Proxmox: Connection refused")
             (snd (ProxmoxService.list_vms (scripted unreachable_script) PNone
                     (init_state tt)))); [reflexivity|].
  vm_compute. reflexivity.
Defined.

(** The POST /create endpoint on a request with 0 cores. *)
Lemma create_vm_endpoint_status_witness :
  exists text,
    VMsApi.create_vm (scripted healthy_script) test_settings (fun _ _ => "400")
      {| cr_vmid := None; cr_name := "bad"; cr_node := None; cr_cores := 0;
         cr_sockets := 1; cr_cpu_type := "host"; cr_memory := 8192;
         cr_disk_size := 50; cr_storage := None; cr_network_bridge := None;
         cr_network_model := "virtio"; cr_os_type := "linux";
         cr_bios := "seabios"; cr_machine := "q35"; cr_iso := None;
         cr_virtio_iso := None; cr_start_on_creation := false;
         cr_enable_guest_agent := false; cr_description := None;
         cr_tags := None |} (init_state tt)
    = (inl {| status_code := 500; detail := DetailText text |}, init_state tt).
Proof.
  eexists.
  apply (create_vm_endpoint_status (scripted healthy_script) test_settings
           (fun _ _ => "400")).
  reflexivity.
Defined.

(** The POST /clone endpoint against an unreachable control plane. *)
Lemma clone_template_endpoint_status_witness :
  exists s',
    TemplatesApi.clone_template (scripted unreachable_script) test_settings
      (fun _ _ => "") test_clone_request (init_state tt) =
      (inl {| status_code := 404;
              detail := DetailText "Template 9000 not found" |}, s').
Proof.
  destruct (clone_template_endpoint_status (scripted unreachable_script)
              test_settings (fun _ _ => "") test_clone_request (init_state tt))
    as [_ H].
  apply (H (Exn ProxmoxConnectionError
              "Failed to list VMs: Failed to list nodes: Failed to connect to Proxmox: Connection refused")
           (snd (ProxmoxService.list_vms (scripted unreachable_script) PNone
                   (init_state tt)))).
  vm_compute. reflexivity.
Defined.

(** ** The create orchestrator, phase by phase *)
Section CreateOrchestrator.
Context {W : Type} (api : ProxmoxAPI W) (settings : Settings).

(** What [create_vm_allocate] returns: the node of the request or the
    default one, and an identifier inside the range, the request's own when
    it carries a non-zero one. *)
Lemma create_vm_allocate_returns request (s s0 : State W) node vmid :
  VMService.create_vm_allocate api settings request s = (inr (node, vmid), s0) ->
  node = str_or (cr_node request) (default_node settings) /\
  vmid_min settings <= vmid <= vmid_max settings /\
  (opt_int_truthy (cr_vmid request) = true ->
   cr_vmid request = Some vmid /\ s0 = s).
Proof.
  unfold VMService.create_vm_allocate, mbind, M_bind, bind.
  destruct (opt_int_truthy (cr_vmid request)) eqn:Hid.
  - simpl.
    destruct (Z.ltb_spec (default 0 (cr_vmid request)) (vmid_min settings));
      destruct (Z.gtb_spec (default 0 (cr_vmid request)) (vmid_max settings));
      simpl; try discriminate.
    intros [= <- <- <-]. repeat split; try lia.
    destruct (cr_vmid request); [reflexivity | discriminate].
  - destruct (ProxmoxService.get_next_vmid api s) as [[e|v] s1]; [discriminate|].
    destruct (Z.ltb_spec v (vmid_min settings));
      destruct (Z.gtb_spec v (vmid_max settings));
      simpl; try discriminate.
    intros [= <- <- <-]. repeat split; lia.
Qed.

Lemma runs_create_vm_allocate allowed request :
  allowed KConnect = true -> allowed KRead = true ->
  runs allowed (VMService.create_vm_allocate api settings request).
Proof. intros Hc Hr. unfold VMService.create_vm_allocate. runs_auto. Qed.

Lemma runs_create_vm_submit allowed request node vmid :
  allowed KConnect = true -> allowed KRead = true -> allowed KWrite = true ->
  allowed KSleep = true ->
  runs allowed (VMService.create_vm_submit api settings request node vmid).
Proof. intros Hc Hr Hw Hs. unfold VMService.create_vm_submit. runs_auto. Qed.

Lemma runs_create_vm_start allowed request node vmid :
  allowed KConnect = true -> allowed KRead = true -> allowed KWrite = true ->
  runs allowed (VMService.create_vm_start api settings request node vmid).
Proof. intros Hc Hr Hw. unfold VMService.create_vm_start. runs_auto. Qed.

Lemma create_vm_start_returns request node vmid (s : State W) :
  exists status message s',
    VMService.create_vm_start api settings request node vmid s
    = (inr (status, message), s') /\
    (status = "started" \/ status = "created") /\
    (status = "started" ->
     cr_start_on_creation request = true /\ enable_auto_start settings = true /\
     exists task, ProxmoxService.start_vm api (PStr node) vmid s = (inr task, s')).
Proof.
  unfold VMService.create_vm_start, try_, mbind, M_bind, bind.
  destruct (cr_start_on_creation request); simpl;
    [destruct (enable_auto_start settings); simpl|].
  - destruct (ProxmoxService.start_vm api (PStr node) vmid s) as [[e|t] s1]; simpl.
    + eexists _, _, _. split; [reflexivity|]. split; [auto|]. discriminate.
    + eexists _, _, _. split; [reflexivity|]. split; [auto|]. eauto.
  - eexists _, _, _. split; [reflexivity|]. split; [auto|]. discriminate.
  - eexists _, _, _. split; [reflexivity|]. split; [auto|]. discriminate.
Qed.

(** Every exit of [create_vm] emits exactly one audit record, as its last
    event: with the response when the VM was created, with an error text
    when the creation raised. *)
Theorem create_vm_audited_once request (s : State W) :
  exists evs entry,
    trace (snd (VMService.create_vm api settings request s))
    = (trace s ++ evs ++ [EvAudit entry])%list /\
    Forall (fun ev => kind_of ev <> KAudit) evs /\
    match fst (VMService.create_vm api settings request s) with
    | inr response =>
        entry = AuditVMCreation request (proxmox_user settings) (Some response) None
    | inl e =>
        exists text,
          entry = AuditVMCreation request (proxmox_user settings) None (Some text)
    end.
Proof.
  assert (Hkind : forall evs : list event,
            Forall (fun ev => no_audit (kind_of ev) = true) evs ->
            Forall (fun ev => kind_of ev <> KAudit) evs).
  { intros evs F. eapply Forall_impl; [exact F|].
    intros ev Hev Hk. simpl in Hev. rewrite Hk in Hev. discriminate. }
  pose proof (runs_create_vm_allocate no_audit request eq_refl eq_refl s) as Ha.
  unfold VMService.create_vm, try_, mbind, M_bind, bind.
  destruct (VMService.create_vm_allocate api settings request s)
    as [[e|[node vmid]] s0]; simpl in Ha.
  { destruct Ha as (evs & T & F & _).
    destruct (exn_cls e); simpl; rewrite T, <- app_assoc;
      eexists evs, _; (split; [reflexivity|]); (split; [auto|]); eauto. }
  pose proof (runs_create_vm_submit no_audit request node vmid
                eq_refl eq_refl eq_refl eq_refl s0) as Hs.
  destruct (VMService.create_vm_submit api settings request node vmid s0)
    as [[e|task_id] s1]; simpl in Hs.
  { destruct (extends_trans _ _ _ _ Ha Hs) as (evs & T & F & _).
    destruct (exn_cls e); simpl; rewrite T, <- app_assoc;
      eexists evs, _; (split; [reflexivity|]); (split; [auto|]); eauto. }
  pose proof (runs_create_vm_start no_audit request node vmid
                eq_refl eq_refl eq_refl s1) as Hst.
  destruct (create_vm_start_returns request node vmid s1)
    as (status & message & s2 & Hstart & _).
  rewrite Hstart in Hst |- *. simpl in Hst |- *.
  destruct (extends_trans _ _ _ _ (extends_trans _ _ _ _ Ha Hs) Hst)
    as (evs & T & F & _).
  rewrite T, <- app_assoc. eexists evs, _.
  split; [reflexivity|]. split; [auto|]. reflexivity.
Qed.

(** A response of [create_vm] carries the name of the request, the node
    that was chosen, an identifier inside the configured range (the request's
    own when it had one) and the status "created" or "started"; "started"
    only when the start was requested, enabled and accepted. *)
Theorem create_vm_response_shape request (s s' : State W) response :
  VMService.create_vm api settings request s = (inr response, s') ->
  resp_name response = cr_name request /\
  resp_node response = str_or (cr_node request) (default_node settings) /\
  vmid_min settings <= resp_vmid response <= vmid_max settings /\
  (opt_int_truthy (cr_vmid request) = true ->
   cr_vmid request = Some (resp_vmid response)) /\
  (exists task_id, resp_task_id response = Some task_id) /\
  (resp_status response = "started" \/ resp_status response = "created") /\
  (resp_status response = "started" ->
   cr_start_on_creation request = true /\ enable_auto_start settings = true).
Proof.
  unfold VMService.create_vm, try_, mbind, M_bind, bind.
  destruct (VMService.create_vm_allocate api settings request s)
    as [[e|[node vmid]] s0] eqn:Ha; simpl.
  { destruct (exn_cls e); simpl; discriminate. }
  destruct (create_vm_allocate_returns _ _ _ _ _ Ha) as (Hnode & Hrange & Hown).
  destruct (VMService.create_vm_submit api settings request node vmid s0)
    as [[e|task_id] s1]; simpl.
  { destruct (exn_cls e); simpl; discriminate. }
  destruct (create_vm_start_returns request node vmid s1)
    as (status & message & s2 & -> & Hst & Hstarted).
  simpl. intros [= <- _]. simpl.
  split; [reflexivity|]. split; [exact Hnode|]. split; [lia|].
  split; [intros H; apply (Hown H)|]. split; [eauto|]. split; [exact Hst|].
  intros H. destruct (Hstarted H) as (A & B & _). auto.
Qed.
End CreateOrchestrator.

(** A creation on the healthy cluster and the shape of its response. *)
Lemma create_vm_response_shape_witness :
  exists response s',
    VMService.create_vm (scripted healthy_script) test_settings
      test_create_request (init_state tt) = (inr response, s') /\
    resp_name response = "server-01" /\ resp_node response = "pve" /\
    150 <= resp_vmid response <= 999 /\
    (resp_status response = "started" \/ resp_status response = "created").
Proof.
  pose (r := VMService.create_vm (scripted healthy_script) test_settings
               test_create_request (init_state tt)).
  assert (Hr : r = (inr {| resp_vmid := 201; resp_name := "server-01";
                           resp_node := "pve"; resp_status := "started";
                           resp_message := "VM 201 created and started successfully";
                           resp_task_id := Some "UPID:create" |}, snd r))
    by (vm_compute; reflexivity).
  destruct (create_vm_response_shape _ _ _ _ _ _ Hr)
    as (Hn & Hnode & Hrange & _ & _ & Hst & _).
  eexists _, _. split; [exact Hr|]. simpl in *. auto.
Defined.

(** One structural step of a proof about the events of a computation. *)
Ltac runs_ev_step :=
  lazymatch goal with
  | |- runs_ev _ (mret _) => apply runs_ev_ret
  | |- runs_ev _ (raise _) => apply runs_ev_raise
  | |- runs_ev _ (mbind _ _) => apply runs_ev_bind; [|intros ?]
  | |- runs_ev _ (try_ _ _) => apply runs_ev_try; [|intros ?]
  | |- runs_ev _ (audit _) => apply runs_ev_audit; exact I
  | |- runs_ev _ (if ?b then _ else _) => destruct b
  | |- runs_ev _ (match ?x with _ => _ end) => destruct x
  | |- runs_ev _ (let _ := _ in _) => cbv zeta
  end.

(** ** The clone orchestrator, phase by phase *)
Section CloneOrchestrator.
Context {W : Type} (api : ProxmoxAPI W) (settings : Settings).
Variable generate_user_data : CloudInitConfig -> string -> string.

Lemma clone_resolve_returns request (s s0 : State W) source_node config :
  TemplateService.clone_resolve api request s = (inr (source_node, config), s0) ->
  truthy source_node = true /\
  truthy (dict_get_or config "template" (PInt 0)) = true.
Proof.
  unfold TemplateService.clone_resolve, mbind, M_bind, bind.
  destruct (ProxmoxService.find_vm_node api (cl_source_vmid request) s)
    as [[e|node] s1]; [discriminate|].
  destruct (truthy node) eqn:Hn; simpl; [|discriminate].
  destruct (ProxmoxService.get_vm_config api node (cl_source_vmid request) s1)
    as [[e|cfg] s2]; [discriminate|].
  destruct (truthy (dict_get_or cfg "template" (PInt 0))) eqn:Ht; simpl;
    [|discriminate].
  intros [= <- <- _]. auto.
Qed.

Lemma clone_allocate_returns request (s s0 : State W) target_node new_vmid :
  TemplateService.clone_allocate api settings request s
  = (inr (target_node, new_vmid), s0) ->
  target_node = str_or (cl_node request) (default_node settings) /\
  vmid_min settings <= new_vmid <= vmid_max settings /\
  (opt_int_truthy (cl_new_vmid request) = true ->
   cl_new_vmid request = Some new_vmid).
Proof.
  unfold TemplateService.clone_allocate, mbind, M_bind, bind.
  destruct (opt_int_truthy (cl_new_vmid request)) eqn:Hid.
  - simpl.
    destruct (Z.ltb_spec (default 0 (cl_new_vmid request)) (vmid_min settings));
      destruct (Z.gtb_spec (default 0 (cl_new_vmid request)) (vmid_max settings));
      simpl; try discriminate.
    intros [= <- <- <-]. repeat split; try lia.
    destruct (cl_new_vmid request); [reflexivity | discriminate].
  - destruct (ProxmoxService.get_next_vmid api s) as [[e|v] s1]; [discriminate|].
    destruct (Z.ltb_spec v (vmid_min settings));
      destruct (Z.gtb_spec v (vmid_max settings));
      simpl; try discriminate.
    intros [= <- <- <-]. repeat split; lia.
Qed.






Lemma clone_start_returns request node vmid (s : State W) :
  exists status message s',
    TemplateService.clone_start api settings request node vmid s
    = (inr (status, message), s') /\
    (status = "started" \/ status = "created") /\
    (status = "started" ->
     cl_start_after_clone request = true /\ enable_auto_start settings = true).
Proof.
  unfold TemplateService.clone_start, try_, mbind, M_bind, bind.
  destruct (cl_start_after_clone request); simpl;
    [destruct (enable_auto_start settings); simpl|].
  - destruct (ProxmoxService.start_vm api (PStr node) vmid s) as [[e|t] s1]; simpl.
    + eexists _, _, _. split; [reflexivity|]. split; [auto|]. discriminate.
    + eexists _, _, _. split; [reflexivity|]. split; [auto|]. auto.
  - eexists _, _, _. split; [reflexivity|]. split; [auto|]. discriminate.
  - eexists _, _, _. split; [reflexivity|]. split; [auto|]. discriminate.
Qed.


(** A response of [clone_from_template] carries the name of the request,
    the target node, an identifier inside the configured range (the
    request's own when it had one) and the status "created" or "started";
    and the source was found and flagged as a template. *)
Theorem clone_response_shape request (s s' : State W) response :
  TemplateService.clone_from_template api settings generate_user_data request s
  = (inr response, s') ->
  resp_name response = cl_name request /\
  resp_node response = str_or (cl_node request) (default_node settings) /\
  vmid_min settings <= resp_vmid response <= vmid_max settings /\
  (opt_int_truthy (cl_new_vmid request) = true ->
   cl_new_vmid request = Some (resp_vmid response)) /\
  (resp_status response = "started" \/ resp_status response = "created") /\
  (resp_status response = "started" ->
   cl_start_after_clone request = true /\ enable_auto_start settings = true) /\
  (exists source_node config s0,
     TemplateService.clone_resolve api request s = (inr (source_node, config), s0) /\
     truthy source_node = true /\
     truthy (dict_get_or config "template" (PInt 0)) = true).
Proof.
  unfold TemplateService.clone_from_template, try_, mbind, M_bind, bind.
  destruct (TemplateService.clone_resolve api request s)
    as [[e|[source_node config]] s0] eqn:Hr; simpl.
  { destruct (exn_cls e); simpl; discriminate. }
  destruct (clone_resolve_returns _ _ _ _ _ Hr) as (Hsrc & Htpl).
  destruct (TemplateService.clone_allocate api settings request s0)
    as [[e|[target_node new_vmid]] s1] eqn:Ha; simpl.
  { destruct (exn_cls e); simpl; discriminate. }
  destruct (clone_allocate_returns _ _ _ _ _ Ha) as (Hnode & Hrange & Hown).
  destruct (TemplateService.clone_submit api settings request source_node
              new_vmid s1) as [[e|task_id] s2]; simpl.
  { destruct (exn_cls e); simpl; discriminate. }
  destruct (TemplateService.clone_customize api generate_user_data request
              target_node new_vmid s2) as [[e|[]] s3]; simpl.
  { destruct (exn_cls e); simpl; discriminate. }
  destruct (clone_start_returns request target_node new_vmid s3)
    as (status & message & s4 & -> & Hst & Hstarted).
  simpl. intros [= <- _]. simpl.
  split; [reflexivity|]. split; [exact Hnode|]. split; [lia|].
  split; [exact Hown|]. split; [exact Hst|]. split; [exact Hstarted|].
  eauto 10.
Qed.
End CloneOrchestrator.

(** A clone on the healthy cluster and the shape of its response. *)
Lemma clone_response_shape_witness :
  exists response s',
    TemplateService.clone_from_template (scripted healthy_script) test_settings
      (fun _ _ => "") test_clone_request (init_state tt) = (inr response, s') /\
    resp_name response = "srv-01" /\ resp_node response = "pve" /\
    150 <= resp_vmid response <= 999.
Proof.
  pose (r := TemplateService.clone_from_template (scripted healthy_script)
               test_settings (fun _ _ => "") test_clone_request (init_state tt)).
  assert (Hr : r = (inr {| resp_vmid := 201; resp_name := "srv-01";
                           resp_node := "pve"; resp_status := "started";
                           resp_message := "VM 201 cloned and started successfully";
                           resp_task_id := Some "UPID:clone" |}, snd r))
    by (vm_compute; reflexivity).
  destruct (clone_response_shape _ _ _ _ _ _ _ Hr) as (Hn & Hnode & Hrange & _).
  eexists _, _. split; [exact Hr|]. simpl in *. auto.
Defined.

(** ** What the orchestrators change on the control plane *)
Section Changes.
Context {W : Type} (api : ProxmoxAPI W).
Implicit Types (s : State W) (l : list event).


Lemma changed_trans s1 s2 s3 l1 l2 :
  changed s1 s2 l1 -> changed s2 s3 l2 -> changed s1 s3 (l1 ++ l2).
Proof.
  intros (e1 & T1 & <-) (e2 & T2 & <-).
  exists (e1 ++ e2)%list. rewrite T2, T1, app_assoc.
  split; [reflexivity|]. unfold changes. apply List.filter_app.
Qed.

Lemma changed_of_extends (allowed : kind -> bool) s s' :
  allowed KWrite = false -> allowed KDestroy = false ->
  extends allowed s s' -> changed s s' [].
Proof.
  intros Hw Hd (evs & T & F & _). exists evs. split; [exact T|]. clear T.
  induction F as [|ev evs Hev _ IH]; [reflexivity|].
  unfold changes in *. simpl. unfold is_change at 1. simpl in Hev. revert Hev.
  destruct (kind_of ev); intros Hev; try exact IH; congruence.
Qed.

Lemma changed_quiet s s1 s' l ev :
  changed s s1 l -> trace s' = (trace s1 ++ [ev])%list -> is_change ev = false ->
  changed s s' l.
Proof.
  intros H T Hev. rewrite <- (app_nil_r l).
  eapply changed_trans; [exact H|]. exists [ev]. split; [exact T|].
  unfold changes. simpl. rewrite Hev. reflexivity.
Qed.

Lemma changed_inj s s' l1 l2 : changed s s' l1 -> changed s s' l2 -> l1 = l2.
Proof.
  intros (e1 & T1 & <-) (e2 & T2 & <-). rewrite T1 in T2.
  apply app_inv_head in T2. congruence.
Qed.

(** A method of the client that connects and then performs one change:
    the change is performed at most once, and always when the method
    returns. *)
Lemma changed_guarded {A} ev (f : ext W A) (h : exn -> M (State W) A) s :
  is_change ev = true ->
  (forall e s0, exists e', h e s0 = (inl e', s0)) ->
  changed s (snd (try_ (ProxmoxService.proxmox api;; call ev f) h s)) [ev] \/
  (changed s (snd (try_ (ProxmoxService.proxmox api;; call ev f) h s)) [] /\
   exists e, fst (try_ (ProxmoxService.proxmox api;; call ev f) h s) = inl e).
Proof.
  intros Hev Hh.
  pose proof (runs_proxmox api lookups_only eq_refl eq_refl s) as Hp.
  apply (changed_of_extends lookups_only) in Hp; [|reflexivity..].
  unfold try_, mbind, M_bind, bind.
  destruct (ProxmoxService.proxmox api s) as [[e|[]] s1]; simpl in *.
  - right. destruct (Hh e s1) as [e' ->]. simpl. eauto.
  - assert (Hc : changed s (snd (call ev f s1)) [ev]).
    { change [ev] with ([] ++ [ev])%list. eapply changed_trans; [exact Hp|].
      unfold call. destruct (f (now s1) (world s1)) as [r w']. simpl.
      exists [ev]. split; [reflexivity|]. unfold changes. simpl.
      rewrite Hev. reflexivity. }
    destruct (call ev f s1) as [[e|a] s2]; simpl in *.
    + left. destruct (Hh e s2) as [e' ->]. exact Hc.
    + left. exact Hc.
Qed.

Ltac handler_raises :=
  let e := fresh "e" in
  let s0 := fresh "s0" in
  intros e s0; unfold raise;
  repeat match goal with
         | |- context [match exn_cls ?e with _ => _ end] => destruct (exn_cls e)
         | |- context [if ?b then _ else _] => destruct b
         end; eexists; reflexivity.

Lemma changed_create_vm node vmid kwargs s :
  changed s (snd (ProxmoxService.create_vm api node vmid kwargs s))
    [EvQemuPost node (kwargs ∪ <["vmid" := PInt vmid]> ∅)] \/
  (changed s (snd (ProxmoxService.create_vm api node vmid kwargs s)) [] /\
   exists e, fst (ProxmoxService.create_vm api node vmid kwargs s) = inl e).
Proof. apply changed_guarded; [reflexivity | handler_raises]. Qed.

Lemma changed_start_vm node vmid s :
  changed s (snd (ProxmoxService.start_vm api node vmid s))
    [EvStartPost node vmid] \/
  (changed s (snd (ProxmoxService.start_vm api node vmid s)) [] /\
   exists e, fst (ProxmoxService.start_vm api node vmid s) = inl e).
Proof. apply changed_guarded; [reflexivity | handler_raises]. Qed.



Lemma changed_wait_for_task node upid timeout s :
  changed s (snd (ProxmoxService.wait_for_task api node upid timeout s)) [].
Proof.
  apply (changed_of_extends polls_only); [reflexivity..|].
  apply runs_wait_for_task; reflexivity.
Qed.
End Changes.

Section CreateWrites.
Context {W : Type} (api : ProxmoxAPI W) (settings : Settings).

(** Whatever the remote side answers, the changes that [create_vm] makes
    to the control plane are, in this order, nothing at all (and it then
    raises), or the creation of one VM, or that creation followed by one
    start of the same VM.  Both are addressed to the chosen node and carry
    one identifier inside the configured range, the request's own when it
    has one; the start happens only when requested and enabled.  The
    identifier of a returned response is the one that was created, and a
    response "started" means that the start was posted.  Nothing is cloned,
    re-configured, uploaded, stopped or deleted. *)
Theorem create_vm_writes request (s : State W) :
  let run := VMService.create_vm api settings request s in
  let node := PStr (str_or (cr_node request) (default_node settings)) in
  (changed s (snd run) [] /\ exists e, fst run = inl e) \/
  exists vmid,
    vmid_min settings <= vmid <= vmid_max settings /\
    (opt_int_truthy (cr_vmid request) = true -> cr_vmid request = Some vmid) /\
    (changed s (snd run)
       [EvQemuPost node (VMService.vm_config settings request
                           ∪ <["vmid" := PInt vmid]> ∅)] \/
     changed s (snd run)
       [EvQemuPost node (VMService.vm_config settings request
                           ∪ <["vmid" := PInt vmid]> ∅);
        EvStartPost node vmid] /\
     cr_start_on_creation request = true /\ enable_auto_start settings = true) /\
    (forall response, fst run = inr response ->
       resp_vmid response = vmid /\
       (resp_status response = "started" ->
        changed s (snd run)
          [EvQemuPost node (VMService.vm_config settings request
                              ∪ <["vmid" := PInt vmid]> ∅);
           EvStartPost node vmid])).
Proof.
  cbv zeta.
  pose proof (runs_create_vm_allocate api settings lookups_only request
                eq_refl eq_refl s) as Ha.
  apply (changed_of_extends lookups_only) in Ha; [|reflexivity..].
  unfold VMService.create_vm, VMService.create_vm_submit,
    VMService.create_vm_start, try_, mbind, M_bind, bind.
  destruct (VMService.create_vm_allocate api settings request s)
    as [[e|[node vmid]] s0] eqn:Halloc; simpl in Ha.
  { left. destruct (exn_cls e); simpl;
      (split; [eapply changed_quiet; [exact Ha | reflexivity | reflexivity]
              | eexists; reflexivity]). }
  destruct (create_vm_allocate_returns api settings _ _ _ _ _ Halloc)
    as (-> & Hrange & Hown).
  set (node := PStr (str_or (cr_node request) (default_node settings))).
  set (post := EvQemuPost node (VMService.vm_config settings request
                                  ∪ <["vmid" := PInt vmid]> ∅)).
  pose proof (changed_create_vm api node vmid
                (VMService.vm_config settings request) s0) as Hpost.
  fold post in Hpost.
  destruct (ProxmoxService.create_vm api node vmid
              (VMService.vm_config settings request) s0)
    as [[e|task_id] s1]; simpl in Hpost.
  { (* the creation raised: after the post, or before it *)
    destruct Hpost as [Hp | [Hp _]];
      pose proof (changed_trans _ _ _ _ _ Ha Hp) as H; simpl in H.
    - right. exists vmid. split; [exact Hrange|].
      split; [intros Ht; apply (Hown Ht)|].
      destruct (exn_cls e); simpl;
        (split; [left; eapply changed_quiet; [exact H | reflexivity | reflexivity]
                | intros response Hr; discriminate Hr]).
    - left. destruct (exn_cls e); simpl;
        (split; [eapply changed_quiet; [exact H | reflexivity | reflexivity]
                | eexists; reflexivity]). }
  destruct Hpost as [Hp | [_ [e He]]]; [|discriminate He].
  pose proof (changed_wait_for_task api node task_id 120 s1) as Hw.
  pose proof (changed_trans _ _ _ _ _ (changed_trans _ _ _ _ _ Ha Hp) Hw) as H.
  simpl in H. clear Ha Hp Hw.
  right. exists vmid. split; [exact Hrange|].
  split; [intros Ht; apply (Hown Ht)|].
  destruct (ProxmoxService.wait_for_task api node task_id 120 s1)
    as [[e|ok] s2]; simpl in *.
  { destruct (exn_cls e); simpl;
      (split; [left; eapply changed_quiet; [exact H | reflexivity | reflexivity]
              | intros response Hr; discriminate Hr]). }
  destruct ok; simpl.
  2:{ split; [left; eapply changed_quiet; [exact H | reflexivity | reflexivity]
             | intros response Hr; discriminate Hr]. }
  destruct (cr_start_on_creation request) eqn:Hreq;
    [destruct (enable_auto_start settings) eqn:Hen|]; simpl.
  - pose proof (changed_start_vm api node vmid s2) as Hs.
    destruct (ProxmoxService.start_vm api node vmid s2) as [[e|task] s3];
      simpl in *.
    + destruct Hs as [Hs | [Hs _]];
        pose proof (changed_trans _ _ _ _ _ H Hs) as H'; simpl in H'.
      * split; [right; split; [|auto];
                eapply changed_quiet; [exact H' | reflexivity | reflexivity]|].
        intros response [= <-]. simpl. split; [reflexivity | discriminate].
      * split; [left; eapply changed_quiet; [exact H' | reflexivity | reflexivity]|].
        intros response [= <-]. simpl. split; [reflexivity | discriminate].
    + destruct Hs as [Hs | [_ [e He]]]; [|discriminate He].
      pose proof (changed_trans _ _ _ _ _ H Hs) as H'; simpl in H'.
      assert (Hfin : forall s', trace s' = (trace s3 ++ [EvAudit
                 (AuditVMCreation request (proxmox_user settings)
                    (Some {| resp_vmid := vmid; resp_name := cr_name request;
                             resp_node := str_or (cr_node request)
                                            (default_node settings);
                             resp_status := "started";
                             resp_message :=
                               "VM " +:+ pretty vmid +:+
                               " created and started successfully";
                             resp_task_id := Some task_id |}) None)])%list ->
               changed s s' [post; EvStartPost node vmid]).
      { intros s' Hs'. eapply changed_quiet; [exact H' | exact Hs' | reflexivity]. }
      split; [right; split; [apply Hfin; reflexivity | auto]|].
      intros response [= <-]. simpl. split; [reflexivity|].
      intros _. apply Hfin. reflexivity.
  - split; [left; eapply changed_quiet; [exact H | reflexivity | reflexivity]|].
    intros response [= <-]. simpl. split; [reflexivity | discriminate].
  - split; [left; eapply changed_quiet; [exact H | reflexivity | reflexivity]|].
    intros response [= <-]. simpl. split; [reflexivity | discriminate].
Qed.
End CreateWrites.

Section CloneWrites.
Context {W : Type} (api : ProxmoxAPI W) (settings : Settings).
Variable generate_user_data : CloudInitConfig -> string -> string.





End CloneWrites.

(** A creation on the healthy cluster: the VM 201 is created on "pve" and
    then started. *)
Lemma create_vm_writes_witness :
  changed (init_state tt)
    (snd (VMService.create_vm (scripted healthy_script) test_settings
            test_create_request (init_state tt)))
    [EvQemuPost (PStr "pve")
       (VMService.vm_config test_settings test_create_request
          ∪ <["vmid" := PInt 201]> ∅);
     EvStartPost (PStr "pve") 201].
Proof.
  pose (run := VMService.create_vm (scripted healthy_script) test_settings
                 test_create_request (init_state tt)).
  assert (Hr : fst run =
                 inr {| resp_vmid := 201; resp_name := "server-01";
                        resp_node := "pve"; resp_status := "started";
                        resp_message := "VM 201 created and started successfully";
                        resp_task_id := Some "UPID:create" |})
    by (vm_compute; reflexivity).
  destruct (create_vm_writes (scripted healthy_script) test_settings
              test_create_request (init_state tt))
    as [[_ [e He]] | (vmid & _ & _ & _ & Hresp)].
  - fold run in He. rewrite Hr in He. discriminate He.
  - destruct (Hresp _ Hr) as [Hid Hst]. simpl in Hid. subst vmid.
    apply Hst. reflexivity.
Defined.

(** A clone on the healthy cluster: the template 9000 is cloned as the VM
    201, which is then given its 4 cores and started. *)
Example clone_from_template_changes_healthy :
  exists params,
    changed (init_state tt)
      (snd (TemplateService.clone_from_template (scripted healthy_script)
              test_settings (fun _ _ => "") test_clone_request (init_state tt)))
      [EvClonePost (PStr "pve") 9000 params;
       EvConfigPut (PStr "pve") 201 {["cores" := PInt 4]};
       EvStartPost (PStr "pve") 201].
Proof.
  eexists. eexists. split; vm_compute; reflexivity.
Qed.



(** ** The task waiter, whatever the control plane does *)
Section TaskWaiterBound.
Context {W : Type} (api : ProxmoxAPI W) (node : pyval) (upid : string).

Lemma wait_for_task_loop_bounded (start_time timeout : Z) :
  forall (fuel : nat) (s : State W),
  exists b s',
    ProxmoxService.wait_for_task_loop api fuel node upid start_time timeout s
    = (inr b, s') /\
    now s <= now s' /\
    (now s' = now s \/ now s' - start_time < timeout + 2) /\
    (b = true ->
     exists sp, poll_outcome (fst (ProxmoxService.get_task_status api node upid sp))
                = Some true).
Proof.
  induction fuel as [|fuel IH]; intros s;
    simpl; unfold mbind, M_bind, bind, time_time; simpl;
    destruct (Z.ltb_spec (now s - start_time) timeout) as [Hlt|Hge];
    try (exists false, s; repeat split; try lia; auto; discriminate).
  destruct (wait_for_task_poll_spec api node upid s) as (s1 & -> & Hnow1).
  destruct (poll_outcome _) as [b|] eqn:Hp.
  - exists b, s1. repeat split; try lia; auto.
    intros ->. exists s. exact Hp.
  - destruct (IH s1) as (b & s' & -> & Hle & Hb & Hok).
    exists b, s'. repeat split; try lia; auto.
Qed.

(** [wait_for_task] never raises and never waits much longer than asked:
    it returns at most two seconds after the timeout, at once when the
    timeout is not positive, and it only polls and sleeps.  It reports
    success only when some poll answered a stopped task with exit status
    "OK". *)
Theorem wait_for_task_bounded (timeout : Z) (s : State W) :
  exists b s',
    ProxmoxService.wait_for_task api node upid timeout s = (inr b, s') /\
    now s <= now s' /\
    (0 < timeout -> now s' - now s < timeout + 2) /\
    (timeout <= 0 -> b = false /\ s' = s) /\
    extends polls_only s s' /\
    (b = true ->
     exists sp, poll_outcome (fst (ProxmoxService.get_task_status api node upid sp))
                = Some true).
Proof.
  pose proof (runs_wait_for_task api polls_only eq_refl eq_refl node upid timeout
                eq_refl s) as Hrun.
  revert Hrun.
  unfold ProxmoxService.wait_for_task, mbind, M_bind, bind, time_time.
  destruct (wait_for_task_loop_bounded (now s) timeout (Z.to_nat timeout) s)
    as (b & s' & Hloop & Hle & Hb & Hok).
  rewrite Hloop. simpl. intros Hrun.
  exists b, s'. split; [reflexivity|]. split; [exact Hle|].
  split; [lia|]. split; [|split; [exact Hrun | exact Hok]].
  intros Hneg. revert Hloop.
  destruct (Z.to_nat timeout); simpl; unfold mbind, M_bind, bind, time_time;
    simpl; destruct (Z.ltb_spec (now s - now s) timeout); try lia;
    intros [= <- <-]; auto.
Qed.
End TaskWaiterBound.

(** ** The guest address *)

Lemma first_ipv4_of_spec (infos : list ip_info) :
  match ValidationService.first_ipv4_of infos with
  | inr (Some a) =>
      a <> "" /\ startswith a "127." = false /\
      exists info, In info infos /\ routable_ipv4 info = true /\
                   ip_address info = Some (PStr a)
  | inr None =>
      forall info, In info infos ->
                   routable_ipv4 info = false /\ malformed info = false
  | inl e => exists info, In info infos /\ malformed info = true
  end.
Proof.
  induction infos as [|info rest IH]; simpl.
  - intros info [].
  - assert (Hskip : routable_ipv4 info = false -> malformed info = false ->
              match ValidationService.first_ipv4_of rest with
              | inr (Some a) =>
                  a <> "" /\ startswith a "127." = false /\
                  exists i, (info = i \/ In i rest) /\ routable_ipv4 i = true /\
                            ip_address i = Some (PStr a)
              | inr None =>
                  forall i, info = i \/ In i rest ->
                            routable_ipv4 i = false /\ malformed i = false
              | inl e => exists i, (info = i \/ In i rest) /\ malformed i = true
              end).
    { intros Hr Hm.
      destruct (ValidationService.first_ipv4_of rest) as [e|[a|]].
      - destruct IH as (i & Hin & Hi). exists i. auto.
      - destruct IH as (Hne & Hlo & i & Hin & Hi). repeat split; auto.
        exists i. tauto.
      - intros i [<- | Hin]; [auto | apply IH; exact Hin]. }
    assert (Hraise : malformed info = true ->
              exists i, (info = i \/ In i rest) /\ malformed i = true).
    { intros Hm. exists info. auto. }
    clear IH. destruct info as [[[|b'|z'|a]|] [[|b|z|t]|]]; simpl;
      rewrite ?andb_false_r;
      try (apply Hraise; reflexivity);
      try (apply Hskip; unfold routable_ipv4, malformed; simpl;
           rewrite ?andb_false_r; reflexivity);
      destruct (String.eqb (lower t) "ipv4") eqn:Hv4; simpl;
      rewrite ?andb_false_r, ?andb_true_r;
      try (apply Hskip; unfold routable_ipv4, malformed; simpl;
           rewrite ?Hv4, ?andb_false_r; reflexivity).
    + destruct b'; simpl;
        [apply Hraise | apply Hskip]; unfold routable_ipv4, malformed; simpl;
        rewrite ?Hv4; reflexivity.
    + destruct (z' =? 0) eqn:Hz; simpl;
        [apply Hskip | apply Hraise]; unfold routable_ipv4, malformed; simpl;
        rewrite ?Hv4, ?Hz; reflexivity.
    + destruct (String.eqb_spec a "") as [->|Hne]; simpl;
        [apply Hskip; unfold routable_ipv4, malformed; simpl;
         rewrite ?Hv4; reflexivity|].
      destruct (startswith a "127.") eqn:Hlo; simpl;
        [apply Hskip; unfold routable_ipv4, malformed; simpl;
         rewrite ?Hv4, ?Hlo, ?andb_false_r; reflexivity|].
      split; [exact Hne|]. split; [exact Hlo|].
      eexists. split; [left; reflexivity|]. split; [|reflexivity].
      unfold routable_ipv4. simpl. rewrite Hv4, Hlo.
      destruct (String.eqb_spec a ""); [contradiction | reflexivity].
Qed.

(** The scan for the guest address goes through the interfaces and their
    addresses in order.  It returns only an address that some interface
    reports as a non-empty string of type "ipv4" (in any letter case) not
    starting with "127.".  It completes without an address only when every
    entry is well formed and none is such an address.  It raises when it
    meets a null list of addresses or a malformed entry (a type that is
    present and not a string, or a non-string truthy address of type
    "ipv4"); [_get_vm_ip_address] then answers None, whatever the other
    entries are. *)
Theorem first_ipv4_spec (interfaces : list iface) :
  match ValidationService.first_ipv4 interfaces with
  | inr (Some a) =>
      a <> "" /\ startswith a "127." = false /\
      exists iface infos info,
        In iface interfaces /\ ip_addresses iface = Some (Some infos) /\
        In info infos /\ routable_ipv4 info = true /\
        ip_address info = Some (PStr a)
  | inr None =>
      forall iface, In iface interfaces ->
        ip_addresses iface <> Some None /\
        forall infos info,
          ip_addresses iface = Some (Some infos) -> In info infos ->
          routable_ipv4 info = false /\ malformed info = false
  | inl e =>
      exists iface, In iface interfaces /\
        (ip_addresses iface = Some None \/
         exists infos info,
           ip_addresses iface = Some (Some infos) /\ In info infos /\
           malformed info = true)
  end.
Proof.
  induction interfaces as [|iface rest IH]; simpl.
  - intros iface [].
  - assert (Hskip :
      (forall infos info, ip_addresses iface = Some (Some infos) ->
                          In info infos ->
                          routable_ipv4 info = false /\ malformed info = false) ->
      ip_addresses iface <> Some None ->
      match ValidationService.first_ipv4 rest with
      | inr (Some a) =>
          a <> "" /\ startswith a "127." = false /\
          exists i infos info,
            (iface = i \/ In i rest) /\ ip_addresses i = Some (Some infos) /\
            In info infos /\ routable_ipv4 info = true /\
            ip_address info = Some (PStr a)
      | inr None =>
          forall i, iface = i \/ In i rest ->
            ip_addresses i <> Some None /\
            forall infos info,
              ip_addresses i = Some (Some infos) -> In info infos ->
              routable_ipv4 info = false /\ malformed info = false
      | inl e =>
          exists i, (iface = i \/ In i rest) /\
            (ip_addresses i = Some None \/
             exists infos info,
               ip_addresses i = Some (Some infos) /\ In info infos /\
               malformed info = true)
      end).
    { intros Hhere Hnull.
      destruct (ValidationService.first_ipv4 rest) as [e|[a|]].
      - destruct IH as (i & Hin & Hi). exists i. auto.
      - destruct IH as (Hne & Hlo & i & infos & info & Hin & Hi).
        split; [exact Hne|]. split; [exact Hlo|]. exists i, infos, info. tauto.
      - intros i [<- | Hin]; [auto | apply IH; exact Hin]. }
    destruct (ip_addresses iface) as [[infos|]|] eqn:Hinfos.
    + pose proof (first_ipv4_of_spec infos) as Hof.
      destruct (ValidationService.first_ipv4_of infos) as [e|[a|]].
      * destruct Hof as (info & Hin & Hm). exists iface.
        split; [auto|]. right. exists infos, info. auto.
      * destruct Hof as (Hne & Hlo & info & Hin & Hr & Hip).
        split; [exact Hne|]. split; [exact Hlo|].
        exists iface, infos, info. auto.
      * apply Hskip; [|discriminate].
        intros infos' info [= <-]. apply Hof.
    + exists iface. auto.
    + apply Hskip; [|discriminate]. intros infos info H. discriminate H.
Qed.

(** A null type makes the scan raise, although the address is routable,
    and [_get_vm_ip_address] then answers None. *)
Example first_ipv4_null_type :
  ValidationService.first_ipv4
    [ {| ip_addresses :=
           Some (Some [ {| ip_address := Some (PStr "10.0.0.5");
                           ip_address_type := Some PNone |} ]) |} ]
  = inl (Exn OtherError "'NoneType' object has no attribute 'lower'") /\
  fst (ValidationService._get_vm_ip_address (scripted null_type_script) 200
         (init_state tt)) = inr None.
Proof. split; vm_compute; reflexivity. Qed.

(** ** The port probe *)
Section PortProbe.
Context {W : Type} (api : ProxmoxAPI W) (settings : Settings).

Lemma port_failure_lookup error message :
  PortChecker.port_failure error message !! "passed" = Some (PBool false) /\
  PortChecker.port_failure error message !! "message" = Some (PStr message).
Proof.
  unfold PortChecker.port_failure. split.
  - repeat (rewrite lookup_insert_ne by discriminate). apply lookup_insert_eq.
  - apply lookup_insert_eq.
Qed.

(** What [check_port_open] answers: one connection attempt, and a dict
    whose 'passed' entry tells whether the connection was opened. *)
Lemma check_port_open_returns host port timeout (s : State W) :
  exists result message,
    PortChecker.check_port_open api host port timeout s
    = (inr result,
       {| world := snd (net_open_connection api host port timeout (now s) (world s));
          now := now s; connected := connected s;
          trace := (trace s ++ [EvOpenConnection host port timeout])%list |}) /\
    result !! "passed" =
      Some (PBool match fst (net_open_connection api host port timeout (now s)
                                (world s)) with
                  | inl _ => false
                  | inr _ => true
                  end) /\
    result !! "message" = Some (PStr message).
Proof.
  unfold PortChecker.check_port_open, try_, mbind, M_bind, bind, call, time_time.
  simpl.
  destruct (net_open_connection api host port timeout (now s) (world s))
    as [[e|[]] w']; simpl.
  - destruct (exn_cls e); simpl;
      eexists _, _; (split; [reflexivity|]); apply port_failure_lookup.
  - eexists _, _. split; [reflexivity|]. split.
    + repeat (rewrite lookup_insert_ne by discriminate). apply lookup_insert_eq.
    + apply lookup_insert_eq.
Qed.

Lemma _check_port_returns ip port port_name (s : State W) :
  exists check s',
    ValidationService._check_port api settings ip port port_name s
    = (inr check, s') /\
    trace s' = (trace s ++ [EvOpenConnection ip port
                              (validation_retry_interval settings)])%list /\
    now s' = now s /\
    vc_required check = true.
Proof.
  destruct (check_port_open_returns ip port (validation_retry_interval settings) s)
    as (result & message & Hrun & Hpassed & Hmsg).
  unfold ValidationService._check_port, try_, mbind, M_bind, bind, getitem,
    dict_get_or.
  rewrite Hrun, Hpassed, Hmsg. simpl.
  eexists _, _. split; [reflexivity|]. simpl. auto.
Qed.

(** [_check_port] never raises; it makes exactly one connection attempt,
    to the given address and port, with the configured retry interval as
    its connect timeout, and takes no time on the clock.  The check is
    required, carries a message, and has passed exactly when the connection
    was opened. *)
Theorem check_port_spec ip port port_name (s : State W) :
  exists check s',
    ValidationService._check_port api settings ip port port_name s
    = (inr check, s') /\
    trace s' = (trace s ++ [EvOpenConnection ip port
                              (validation_retry_interval settings)])%list /\
    now s' = now s /\
    vc_required check = true /\
    is_Some (vc_message check) /\
    (vc_passed check = true <->
     exists w', net_open_connection api ip port
                  (validation_retry_interval settings) (now s) (world s)
                = (inr tt, w')).
Proof.
  destruct (check_port_open_returns ip port (validation_retry_interval settings) s)
    as (result & message & Hrun & Hpassed & Hmsg).
  unfold ValidationService._check_port, try_, mbind, M_bind, bind, getitem,
    dict_get_or.
  rewrite Hrun, Hpassed, Hmsg. simpl.
  eexists _, _. split; [reflexivity|]. simpl.
  repeat split; eauto.
  - destruct (net_open_connection _ _ _ _ _ _) as [[e|[]] w']; simpl;
      [discriminate | eauto].
  - intros [w' ->]. reflexivity.
Qed.
End PortProbe.

(** ** A validation run, step by step *)
Section ValidationRun.
Context {W : Type} (api : ProxmoxAPI W) (settings : Settings).

Lemma first_ipv4_some interfaces ip :
  ValidationService.first_ipv4 interfaces = inr (Some ip) ->
  ip <> "" /\ startswith ip "127." = false.
Proof.
  assert (Hof : forall infos,
            ValidationService.first_ipv4_of infos = inr (Some ip) ->
            ip <> "" /\ startswith ip "127." = false).
  { intros infos H. pose proof (first_ipv4_of_spec infos) as Hs.
    rewrite H in Hs. tauto. }
  induction interfaces as [|iface rest IH]; simpl; [discriminate|].
  destruct (ip_addresses iface) as [[infos|]|]; [|discriminate|exact IH].
  destruct (ValidationService.first_ipv4_of infos) as [e|[a|]] eqn:Ha;
    [discriminate| |exact IH].
  intros [= <-]. exact (Hof infos Ha).
Qed.

Lemma _check_proxmox_status_returns vmid (s : State W) :
  exists check s',
    ValidationService._check_proxmox_status api vmid s = (inr check, s') /\
    vc_required check = true /\ extends lookups_only s s'.
Proof.
  assert (Hrun : runs lookups_only (ValidationService._check_proxmox_status api vmid)).
  { unfold ValidationService._check_proxmox_status. runs_auto. }
  specialize (Hrun s). revert Hrun.
  unfold ValidationService._check_proxmox_status, try_, mbind, M_bind, bind.
  destruct (ProxmoxService.find_vm_node api vmid s) as [[e|node] s1]; simpl.
  { destruct (exn_cls e); simpl; eauto 6. }
  destruct (truthy node); simpl; [|eauto 6].
  destruct (ProxmoxService.get_vm_status api node vmid s1) as [[e|status] s2]; simpl.
  { destruct (exn_cls e); simpl; eauto 6. }
  destruct (py_eq_str _ _); simpl; eauto 6.
Qed.

Lemma _get_vm_ip_address_returns vmid (s : State W) :
  exists ip s',
    ValidationService._get_vm_ip_address api vmid s = (inr ip, s') /\
    extends lookups_only s s' /\
    (forall a, ip = Some a -> a <> "" /\ startswith a "127." = false).
Proof.
  pose proof (runs_get_vm_ip_address api lookups_only vmid eq_refl eq_refl s) as Hrun.
  revert Hrun.
  unfold ValidationService._get_vm_ip_address, try_, mbind, M_bind, bind.
  destruct (ProxmoxService.find_vm_node api vmid s) as [[e|node] s1]; simpl.
  { intros Hrun. eexists _, _. split; [reflexivity|]. split; [exact Hrun|].
    discriminate. }
  destruct (truthy node); simpl.
  2:{ intros Hrun. eexists _, _. split; [reflexivity|]. split; [exact Hrun|].
      discriminate. }
  destruct (ProxmoxService.get_vm_network_interfaces api node vmid s1)
    as [[e|interfaces] s2]; simpl.
  { intros Hrun. eexists _, _. split; [reflexivity|]. split; [exact Hrun|].
    discriminate. }
  destruct (opt_list_truthy interfaces); simpl;
    [|intros Hrun; eexists _, _; (split; [reflexivity|]);
      (split; [exact Hrun | discriminate])].
  destruct (ValidationService.first_ipv4 (default [] interfaces))
    as [e|ip] eqn:Hscan; simpl;
    intros Hrun; eexists _, _; (split; [reflexivity|]); (split; [exact Hrun|]);
    [discriminate|].
  intros a ->. eapply first_ipv4_some. exact Hscan.
Qed.

Lemma _wait_for_ip_round_returns vmid retry (s : State W) :
  exists r s',
    ValidationService._wait_for_ip_round api vmid retry s = (inr r, s') /\
    extends polls_only s s' /\
    (r = None -> now s' = now s + retry) /\
    (forall a, r = Some a ->
               now s' = now s /\ a <> "" /\ startswith a "127." = false).
Proof.
  destruct (_get_vm_ip_address_returns vmid s) as (ip & s1 & Hget & Hext & Hip).
  pose proof (extends_no_sleep_now s s1
                (extends_weaken lookups_only no_sleep s s1
                   ltac:(intros []; simpl; congruence) Hext)) as Hnow.
  assert (Hext' : extends polls_only s s1).
  { eapply extends_weaken; [|exact Hext]. intros []; simpl; congruence. }
  unfold ValidationService._wait_for_ip_round, try_, mbind, M_bind, bind.
  rewrite Hget. simpl.
  destruct (opt_str_truthy ip) eqn:Ht; simpl.
  - destruct ip as [a|]; [|discriminate].
    eexists _, _. split; [reflexivity|]. split; [exact Hext'|].
    split; [discriminate|]. intros a' [= <-].
    split; [exact Hnow | apply Hip; reflexivity].
  - eexists _, _. split; [reflexivity|]. split.
    + eapply extends_trans; [exact Hext'|].
      exists [EvSleep retry]. simpl. repeat split; [repeat constructor | lia].
    + split; [intros _; simpl; lia | discriminate].
Qed.

Lemma _wait_for_ip_loop_returns vmid start_time timeout retry :
  1 <= retry ->
  forall (fuel : nat) (s : State W),
    timeout - (now s - start_time) <= Z.of_nat fuel ->
    exists r s',
      ValidationService._wait_for_ip_loop api fuel vmid start_time timeout retry s
      = (inr r, s') /\
      extends polls_only s s' /\
      now s <= now s' /\
      (now s' = now s \/ now s' - start_time < timeout + retry) /\
      (r = None -> timeout <= now s' - start_time) /\
      (forall a, r = Some a -> a <> "" /\ startswith a "127." = false).
Proof.
  intros Hretry.
  induction fuel as [|fuel IH]; intros s Hfuel;
    simpl; unfold mbind, M_bind, bind, time_time; simpl;
    destruct (Z.ltb_spec (now s - start_time) timeout) as [Hlt|Hge];
    try lia;
    try (exists None, s; split; [reflexivity|]; split; [apply extends_refl|];
         split; [lia|]; split; [auto|]; split; [intros _; lia | discriminate]).
  destruct (_wait_for_ip_round_returns vmid retry s)
    as (r & s1 & -> & Hext & Hnone & Hsome).
  destruct r as [a|].
  - destruct (Hsome a eq_refl) as (Hnow & Ha).
    exists (Some a), s1. split; [reflexivity|]. split; [exact Hext|].
    split; [lia|]. split; [auto|]. split; [discriminate|].
    intros a' [= <-]. exact Ha.
  - specialize (Hnone eq_refl).
    destruct (IH s1 ltac:(lia)) as (r & s' & -> & Hext' & Hle & Hb & Hn & Hs).
    exists r, s'. split; [reflexivity|].
    split; [eapply extends_trans; eassumption|].
    split; [lia|]. split; [right; lia|]. split; assumption.
Qed.

(** The address wait of a validation: it never raises, only polls and
    sleeps, returns within 130 seconds, returns nothing only once the 120
    seconds have passed, and never returns an empty or loop-back address. *)
Lemma _wait_for_ip_returns vmid (s : State W) :
  exists r s',
    ValidationService._wait_for_ip api vmid 120 10 s = (inr r, s') /\
    extends polls_only s s' /\
    now s <= now s' < now s + 130 /\
    (r = None -> 120 <= now s' - now s) /\
    (forall a, r = Some a -> a <> "" /\ startswith a "127." = false).
Proof.
  unfold ValidationService._wait_for_ip, mbind, M_bind, bind, time_time.
  destruct (_wait_for_ip_loop_returns vmid (now s) 120 10 ltac:(lia)
              (Z.to_nat 120) s ltac:(lia))
    as (r & s' & -> & Hext & Hle & Hb & Hn & Hs).
  exists r, s'. split; [reflexivity|]. split; [exact Hext|].
  split; [lia|]. split; assumption.
Qed.

(** The three steps of [validate_vm] and the result built from them. *)
Lemma validate_vm_run vmid os_type timeout (s : State W) :
  exists check s1 ip s2,
    ValidationService._check_proxmox_status api vmid s = (inr check, s1) /\
    vc_required check = true /\
    ValidationService._wait_for_ip api vmid 120 10 s1 = (inr ip, s2) /\
    match ip with
    | None =>
        ValidationService.validate_vm api settings vmid os_type timeout s =
          (inr {| vr_vmid := vmid; vr_status := "degraded";
                  vr_ip_address := None;
                  vr_checks := [("proxmox_status", check)];
                  vr_message := Some "VM is running but no IP address assigned";
                  vr_timestamp := now s2 |}, s2)
    | Some a =>
        exists check2 s3,
          ValidationService._check_port api settings a
            (if String.eqb os_type "linux" then validation_ssh_port settings
             else validation_rdp_port settings)
            (if String.eqb os_type "linux" then "SSH" else "RDP") s2
          = (inr check2, s3) /\
          ValidationService.validate_vm api settings vmid os_type timeout s =
            (inr {| vr_vmid := vmid;
                    vr_status := if vc_passed check && vc_passed check2
                                 then "healthy" else "degraded";
                    vr_ip_address := Some a;
                    vr_checks := [("proxmox_status", check);
                                  (port_check_name os_type, check2)];
                    vr_message :=
                      Some (if vc_passed check && vc_passed check2
                            then "All validation checks passed"
                            else "Some validation checks failed");
                    vr_timestamp := now s3 |}, s3)
    end.
Proof.
  destruct (_check_proxmox_status_returns vmid s) as (check & s1 & Hc & Hreq & _).
  destruct (_wait_for_ip_returns vmid s1) as (ip & s2 & Hw & _ & _ & _ & Hip).
  exists check, s1, ip, s2. split; [exact Hc|]. split; [exact Hreq|].
  split; [exact Hw|].
  unfold ValidationService.validate_vm, ValidationService.validate_vm_with,
    try_with_local, ValidationService.validate_vm_body, lift, set_local,
    get_local, mbind, M_bind, bind, time_time. simpl.
  rewrite Hc. simpl. rewrite Hw. simpl.
  destruct ip as [a|]; [|reflexivity].
  destruct (Hip a eq_refl) as [Hne _].
  unfold opt_str_truthy.
  destruct (String.eqb_spec a "") as [Heq|_]; [contradiction|]. simpl.
  destruct (_check_port_returns api settings a
              (if String.eqb os_type "linux" then validation_ssh_port settings
               else validation_rdp_port settings)
              (if String.eqb os_type "linux" then "SSH" else "RDP") s2)
    as (check2 & s3 & Hp & _ & _ & Hreq2).
  exists check2, s3. split; [exact Hp|]. rewrite Hp. simpl.
  unfold port_check_name.
  destruct (String.eqb os_type "linux"); simpl; rewrite Hreq, Hreq2; simpl;
    rewrite andb_true_r; reflexivity.
Qed.
End ValidationRun.

(** ** What a validation returns and does *)
Section ValidationResults.
Context {W : Type} (api : ProxmoxAPI W) (settings : Settings).


(** A validation only observes: it connects, queries, sleeps and probes,
    and never writes to the control plane nor emits an audit record; on the
    clock it takes less than 130 seconds. *)
Theorem validate_vm_observes_only vmid os_type timeout (s : State W) :
  exists r s',
    ValidationService.validate_vm api settings vmid os_type timeout s
    = (inr r, s') /\
    extends observes_only s s' /\
    now s <= now s' < now s + 130.
Proof.
  destruct (validate_vm_run api settings vmid os_type timeout s)
    as (check & s1 & ip & s2 & Hc & _ & Hw & Hres).
  destruct (_check_proxmox_status_returns api vmid s)
    as (check' & s1' & Hc' & _ & Hext1).
  rewrite Hc in Hc'. injection Hc' as <- <-.
  destruct (_wait_for_ip_returns api vmid s1)
    as (ip' & s2' & Hw' & Hext2 & Hbound & _).
  rewrite Hw in Hw'. injection Hw' as <- <-.
  assert (H1 : extends observes_only s s1).
  { eapply extends_weaken; [|exact Hext1]. intros []; simpl; congruence. }
  assert (H2 : extends observes_only s1 s2).
  { eapply extends_weaken; [|exact Hext2]. intros []; simpl; congruence. }
  assert (Hn1 : now s1 = now s).
  { apply extends_no_sleep_now. eapply extends_weaken; [|exact Hext1].
    intros []; simpl; congruence. }
  destruct ip as [a|].
  - destruct Hres as (check2 & s3 & Hp & Hv).
    destruct (_check_port_returns api settings a
                (if String.eqb os_type "linux" then validation_ssh_port settings
                 else validation_rdp_port settings)
                (if String.eqb os_type "linux" then "SSH" else "RDP") s2)
      as (check2' & s3' & Hp' & Htr & Hn3 & _).
    rewrite Hp in Hp'. injection Hp' as <- <-.
    eexists _, s3. split; [exact Hv|]. split; [|lia].
    eapply extends_trans; [exact H1|]. eapply extends_trans; [exact H2|].
    eexists. split; [exact Htr|]. split; [repeat constructor | simpl; lia].
  - eexists _, s2. split; [exact Hres|]. split; [|lia].
    eapply extends_trans; eassumption.
Qed.
End ValidationResults.

Section ValidationProbe.
Context {W : Type} (api : ProxmoxAPI W) (settings : Settings).

(** A validation that ends without an address has waited the whole 120
    seconds, has only polled and slept (no port was probed), and is
    "degraded" with the liveness check as its only check. *)
Theorem validate_vm_no_address vmid os_type timeout (s s' : State W) r :
  ValidationService.validate_vm api settings vmid os_type timeout s = (inr r, s') ->
  vr_ip_address r = None ->
  vr_status r = "degraded" /\
  map fst (vr_checks r) = ["proxmox_status"] /\
  extends polls_only s s' /\
  120 <= now s' - now s < 130.
Proof.
  intros Hv Hnone.
  destruct (validate_vm_run api settings vmid os_type timeout s)
    as (check & s1 & ip & s2 & Hc & _ & Hw & Hres).
  destruct (_check_proxmox_status_returns api vmid s)
    as (check' & s1' & Hc' & _ & Hext1).
  rewrite Hc in Hc'. injection Hc' as <- <-.
  destruct (_wait_for_ip_returns api vmid s1)
    as (ip' & s2' & Hw' & Hext2 & Hbound & Hfull & _).
  rewrite Hw in Hw'. injection Hw' as <- <-.
  assert (Hn1 : now s1 = now s).
  { apply extends_no_sleep_now. eapply extends_weaken; [|exact Hext1].
    intros []; simpl; congruence. }
  destruct ip as [a|].
  - destruct Hres as (check2 & s3 & _ & Hv'). rewrite Hv in Hv'.
    injection Hv' as -> _. discriminate Hnone.
  - rewrite Hv in Hres. injection Hres as -> ->. simpl.
    split; [reflexivity|]. split; [reflexivity|]. split.
    + eapply extends_trans; [|exact Hext2].
      eapply extends_weaken; [|exact Hext1]. intros []; simpl; congruence.
    + specialize (Hfull eq_refl). lia.
Qed.

(** A validation that found an address ends with its only port probe: a
    connection attempt to that address, on the SSH port exactly when
    os_type is "linux" and on the RDP port for any other value, with the
    configured retry interval as connect timeout; everything before is
    polling and sleeping. *)
Theorem validate_vm_probe vmid os_type timeout (s s' : State W) r a :
  ValidationService.validate_vm api settings vmid os_type timeout s = (inr r, s') ->
  vr_ip_address r = Some a ->
  exists s2,
    extends polls_only s s2 /\
    trace s' =
      (trace s2 ++
       [EvOpenConnection a
          (if String.eqb os_type "linux" then validation_ssh_port settings
           else validation_rdp_port settings)
          (validation_retry_interval settings)])%list.
Proof.
  intros Hv Hsome.
  destruct (validate_vm_run api settings vmid os_type timeout s)
    as (check & s1 & ip & s2 & Hc & _ & Hw & Hres).
  destruct (_check_proxmox_status_returns api vmid s)
    as (check' & s1' & Hc' & _ & Hext1).
  rewrite Hc in Hc'. injection Hc' as <- <-.
  destruct (_wait_for_ip_returns api vmid s1)
    as (ip' & s2' & Hw' & Hext2 & _).
  rewrite Hw in Hw'. injection Hw' as <- <-.
  destruct ip as [a'|].
  - destruct Hres as (check2 & s3 & Hp & Hv'). rewrite Hv in Hv'.
    injection Hv' as -> ->. simpl in Hsome. injection Hsome as ->.
    destruct (_check_port_returns api settings a
                (if String.eqb os_type "linux" then validation_ssh_port settings
                 else validation_rdp_port settings)
                (if String.eqb os_type "linux" then "SSH" else "RDP") s2)
      as (check2' & s3' & Hp' & Htr & _).
    rewrite Hp in Hp'. injection Hp' as <- <-.
    exists s2. split; [|exact Htr].
    eapply extends_trans; [|exact Hext2].
    eapply extends_weaken; [|exact Hext1]. intros []; simpl; congruence.
  - rewrite Hv in Hres. injection Hres as -> _. discriminate Hsome.
Qed.

(** [quick_health_check] never raises, and answers [true] exactly when the
    VM's node was found and the status fetched from it is "running". *)
Theorem quick_health_check_spec vmid (s : State W) :
  exists b s',
    ValidationService.quick_health_check api vmid s = (inr b, s') /\
    (b = true <->
     exists node s1 status,
       ProxmoxService.find_vm_node api vmid s = (inr node, s1) /\
       truthy node = true /\
       ProxmoxService.get_vm_status api node vmid s1 = (inr status, s') /\
       dict_get_or status "status" (PStr "unknown") = PStr "running").
Proof.
  unfold ValidationService.quick_health_check,
    ValidationService._check_proxmox_status, try_, mbind, M_bind, bind.
  destruct (ProxmoxService.find_vm_node api vmid s) as [[e|node] s1] eqn:Hf; simpl.
  { destruct (exn_cls e); simpl; eexists _, _; (split; [reflexivity|]);
      (split; [discriminate | intros (? & ? & ? & H & _); discriminate H]). }
  destruct (truthy node) eqn:Hn; simpl.
  2:{ eexists _, _. split; [reflexivity|].
      split; [discriminate|]. intros (n & s1' & st & [= <- <-] & Ht & _).
      congruence. }
  destruct (ProxmoxService.get_vm_status api node vmid s1) as [[e|status] s2] eqn:Hs;
    simpl.
  { destruct (exn_cls e); simpl; eexists _, _; (split; [reflexivity|]);
      (split; [discriminate|]);
      intros (n & s1' & st & [= <- <-] & _ & H & _); rewrite Hs in H;
      discriminate H. }
  unfold dict_get_or.
  destruct (default (PStr "unknown") (status !! "status")) as [|b|z|v] eqn:Hst;
    simpl;
    try (eexists _, _; split; [reflexivity|]; split; [discriminate|];
         intros (n & s1' & st & [= <- <-] & _ & H & Hr); rewrite Hs in H;
         injection H; intros; subst; congruence).
  destruct (String.eqb_spec v "running") as [->|Hne]; simpl.
  - eexists _, _. split; [reflexivity|]. split; [|reflexivity].
    intros _. exists node, s1, status. auto.
  - eexists _, _. split; [reflexivity|]. split; [discriminate|].
    intros (n & s1' & st & [= <- <-] & _ & H & Hr). rewrite Hs in H.
    injection H; intros; subst. congruence.
Qed.
End ValidationProbe.

(** A validation on a cluster that does not hold the VM: no address. *)
Lemma validate_vm_no_address_witness :
  exists r s',
    ValidationService.validate_vm (scripted empty_script) test_settings 100
      "linux" None (init_state tt) = (inr r, s') /\
    vr_status r = "degraded" /\ 120 <= now s' - 0 < 130.
Proof.
  pose (run := ValidationService.validate_vm (scripted empty_script)
                 test_settings 100 "linux" None (init_state tt)).
  assert (Hrun : run =
    (inr {| vr_vmid := 100; vr_status := "degraded"; vr_ip_address := None;
            vr_checks := [("proxmox_status",
                           {| vc_passed := false;
                              vc_message := Some "VM 100 not found";
                              vc_details := None; vc_required := true |})];
            vr_message := Some "VM is running but no IP address assigned";
            vr_timestamp := 120 |}, snd run)) by (vm_compute; reflexivity).
  destruct (validate_vm_no_address (scripted empty_script) test_settings 100
              "linux" None (init_state tt) (snd run) _ Hrun eq_refl)
    as (Hst & _ & _ & Hnow).
  eexists _, _. split; [exact Hrun|]. split; [exact Hst | exact Hnow].
Defined.

(** A validation of a Windows guest on the healthy cluster: the RDP probe. *)
Lemma validate_vm_probe_witness :
  exists s2 s' : State unit,
    snd (ValidationService.validate_vm (scripted healthy_script) test_settings
           200 "windows" None (init_state tt)) = s' /\
    trace s' = (trace s2 ++ [EvOpenConnection "10.0.0.5" 3389 15])%list.
Proof.
  pose (run := ValidationService.validate_vm (scripted healthy_script)
                 test_settings 200 "windows" None (init_state tt)).
  assert (Hrun : exists r, run = (inr r, snd run) /\
                           vr_ip_address r = Some "10.0.0.5").
  { eexists. split; vm_compute; reflexivity. }
  destruct Hrun as (r & Hrun & Hip).
  destruct (validate_vm_probe (scripted healthy_script) test_settings 200
              "windows" None (init_state tt) (snd run) r "10.0.0.5" Hrun Hip)
    as (s2 & _ & Htr).
  exists s2, (snd run). split; [reflexivity | exact Htr].
Defined.

(** ** The counters and the audit record of a batch *)
Section BatchCounters.
Context {W : Type} (api : ProxmoxAPI W) (settings : Settings).

Lemma filter_app_one {A} (f : A -> bool) (l : list A) (x : A) :
  length (List.filter f (l ++ [x])) =
  (length (List.filter f l) + (if f x then 1 else 0))%nat.
Proof.
  rewrite List.filter_app, length_app. simpl. destruct (f x); reflexivity.
Qed.

(** One iteration keeps the counters equal to the numbers of failed and of
    other results, and a synthesized failure carries no identifier. *)
Lemma batch_item_counts request results successful failed (s : State W) :
  failed = Z.of_nat (length (List.filter is_failed results)) ->
  successful = Z.of_nat (length (List.filter (fun r => negb (is_failed r)) results)) ->
  Forall (fun r => is_failed r = true -> resp_vmid r = 0 /\ resp_task_id r = None)
         results ->
  exists results' successful' failed' s',
    VMsApi.batch_item api settings request (results, successful, failed) s
    = (inr (results', successful', failed'), s') /\
    failed' = Z.of_nat (length (List.filter is_failed results')) /\
    successful' =
      Z.of_nat (length (List.filter (fun r => negb (is_failed r)) results')) /\
    Forall (fun r => is_failed r = true -> resp_vmid r = 0 /\ resp_task_id r = None)
           results'.
Proof.
  intros Hf Hs Hall.
  assert (Herr : forall message,
            failed + 1 = Z.of_nat (length (List.filter is_failed
                           (results ++ [VMsApi.error_result request message]))) /\
            successful = Z.of_nat (length (List.filter (fun r => negb (is_failed r))
                           (results ++ [VMsApi.error_result request message]))) /\
            Forall (fun r => is_failed r = true ->
                             resp_vmid r = 0 /\ resp_task_id r = None)
                   (results ++ [VMsApi.error_result request message])).
  { intros message. rewrite !filter_app_one. simpl. split; [lia|].
    split; [lia|]. apply Forall_app. split; [exact Hall|].
    repeat constructor. }
  unfold VMsApi.batch_item, try_, mbind, M_bind, bind.
  destruct (fst (VMService.validate_vm_config request)); simpl.
  - destruct (VMService.create_vm api settings request s) as [[e|resp] s1] eqn:Hc.
    + destruct (exn_cls e); simpl; eexists _, _, _, _;
        (split; [reflexivity|]); apply Herr.
    + simpl. destruct (create_vm_name api settings _ _ _ _ Hc) as [_ Hst].
      assert (Hnf : is_failed resp = false).
      { unfold is_failed. apply String.eqb_neq. exact Hst. }
      eexists _, _, _, _. split; [reflexivity|].
      rewrite !filter_app_one, Hnf. simpl. split; [lia|]. split; [lia|].
      apply Forall_app. split; [exact Hall|].
      constructor; [|constructor]. rewrite Hnf. discriminate.
  - eexists _, _, _, _. split; [reflexivity|]. apply Herr.
Qed.

Lemma batch_loop_counts requests :
  forall results successful failed (s : State W),
    failed = Z.of_nat (length (List.filter is_failed results)) ->
    successful = Z.of_nat (length (List.filter (fun r => negb (is_failed r)) results)) ->
    Forall (fun r => is_failed r = true -> resp_vmid r = 0 /\ resp_task_id r = None)
           results ->
    exists results' successful' failed' s',
      VMsApi.batch_loop api settings requests (results, successful, failed) s
      = (inr (results', successful', failed'), s') /\
      failed' = Z.of_nat (length (List.filter is_failed results')) /\
      successful' =
        Z.of_nat (length (List.filter (fun r => negb (is_failed r)) results')) /\
      Forall (fun r => is_failed r = true -> resp_vmid r = 0 /\ resp_task_id r = None)
             results'.
Proof.
  induction requests as [|request rest IH]; intros results successful failed s
    Hf Hs Hall.
  - exists results, successful, failed, s. auto.
  - destruct (batch_item_counts request results successful failed s Hf Hs Hall)
      as (r1 & a1 & b1 & s1 & Hitem & Hf1 & Hs1 & Hall1).
    destruct (IH r1 a1 b1 s1 Hf1 Hs1 Hall1)
      as (r2 & a2 & b2 & s2 & Hloop & H2).
    exists r2, a2, b2, s2. split; [|exact H2].
    rewrite batch_loop_cons, Hitem. exact Hloop.
Qed.

(** In the report of a batch, [failed] is the number of results with
    status "failed" and [successful] the number of the others; the failed
    results carry the identifier 0 and no task. *)
Theorem batch_report_counts requests (s : State W) :
  exists report s',
    VMsApi.batch_create_vms api settings requests s = (inr report, s') /\
    batch_failed report =
      Z.of_nat (length (List.filter is_failed (batch_results report))) /\
    batch_successful report =
      Z.of_nat (length (List.filter (fun r => negb (is_failed r))
                          (batch_results report))) /\
    Forall (fun r => is_failed r = true -> resp_vmid r = 0 /\ resp_task_id r = None)
           (batch_results report).
Proof.
  destruct (batch_loop_counts requests [] 0 0 s eq_refl eq_refl ltac:(constructor))
    as (results & a & b & s1 & Hloop & Hf & Hs & Hall).
  unfold VMsApi.batch_create_vms, mbind, M_bind, bind.
  rewrite Hloop. simpl. eexists _, _. split; [reflexivity|]. simpl. auto.
Qed.

Lemma runs_ev_create_vm_not_batch request :
  runs_ev not_batch_audit (VMService.create_vm api settings request).
Proof.
  assert (Hk : forall ev, no_audit (kind_of ev) = true -> not_batch_audit ev).
  { intros ev. destruct ev; simpl; intros; try discriminate; exact I. }
  unfold VMService.create_vm.
  apply runs_ev_try.
  2:{ intros e. destruct (exn_cls e); repeat runs_ev_step. }
  apply runs_ev_bind.
  { apply (runs_ev_of_kinds no_audit); [exact Hk|].
    apply runs_create_vm_allocate; reflexivity. }
  intros [node vmid]. apply runs_ev_bind.
  { apply (runs_ev_of_kinds no_audit); [exact Hk|].
    apply runs_create_vm_submit; reflexivity. }
  intros task_id. apply runs_ev_bind.
  { apply (runs_ev_of_kinds no_audit); [exact Hk|].
    apply runs_create_vm_start; reflexivity. }
  intros [status message]. repeat runs_ev_step.
Qed.

Lemma runs_ev_batch_loop requests :
  forall acc, runs_ev not_batch_audit (VMsApi.batch_loop api settings requests acc).
Proof.
  induction requests as [|request rest IH]; intros [[results successful] failed];
    simpl.
  - apply runs_ev_ret.
  - apply runs_ev_bind; [|intros acc'; apply IH].
    apply runs_ev_try.
    + cbv zeta. destruct (negb _); [apply runs_ev_ret|].
      apply runs_ev_bind; [apply runs_ev_create_vm_not_batch|].
      intros result. apply runs_ev_ret.
    + intros e. destruct (exn_cls e); apply runs_ev_ret.
Qed.

(** A batch emits exactly one aggregate audit record, as its last event,
    and the record carries the totals and the results of the report that is
    returned. *)
Theorem batch_audited_once requests (s : State W) :
  exists report s' evs,
    VMsApi.batch_create_vms api settings requests s = (inr report, s') /\
    trace s' =
      (trace s ++ evs ++
       [EvAudit (AuditBatch "batch_create" (proxmox_user settings)
                   (batch_total report) (batch_successful report)
                   (batch_failed report) requests (batch_results report))])%list /\
    Forall not_batch_audit evs.
Proof.
  pose proof (runs_ev_batch_loop requests ([], 0, 0) s) as Hrun.
  destruct (batch_loop_spec api settings requests [] 0 0 s)
    as (rs & a & b & s1 & Hloop & _).
  rewrite Hloop in Hrun. simpl in Hrun. destruct Hrun as (evs & Htr & Hall).
  unfold VMsApi.batch_create_vms, mbind, M_bind, bind, audit.
  rewrite Hloop. simpl. eexists _, _, evs. split; [reflexivity|]. simpl.
  split; [|exact Hall]. rewrite Htr, <- app_assoc. reflexivity.
Qed.
End BatchCounters.

(** ** The batch of clones *)
Section BatchClone.
Context {W : Type} (api : ProxmoxAPI W) (settings : Settings).
Variable generate_user_data : CloudInitConfig -> string -> string.

Lemma clone_from_template_name request (s s' : State W) response :
  TemplateService.clone_from_template api settings generate_user_data request s
  = (inr response, s') ->
  resp_name response = cl_name request /\ is_failed response = false.
Proof.
  unfold TemplateService.clone_from_template, try_, mbind, M_bind, bind.
  destruct (TemplateService.clone_resolve api request s)
    as [[e|[source_node config]] s0]; simpl.
  { destruct (exn_cls e); simpl; discriminate. }
  destruct (TemplateService.clone_allocate api settings request s0)
    as [[e|[target_node new_vmid]] s1]; simpl.
  { destruct (exn_cls e); simpl; discriminate. }
  destruct (TemplateService.clone_submit api settings request source_node
              new_vmid s1) as [[e|task_id] s2]; simpl.
  { destruct (exn_cls e); simpl; discriminate. }
  destruct (TemplateService.clone_customize api generate_user_data request
              target_node new_vmid s2) as [[e|[]] s3]; simpl.
  { destruct (exn_cls e); simpl; discriminate. }
  destruct (clone_start_returns api settings request target_node new_vmid s3)
    as (status & message & s4 & -> & [-> | ->] & _);
    simpl; intros [= <- _]; split; reflexivity.
Qed.

Lemma batch_clone_item_spec request results successful failed (s : State W) :
  failed = Z.of_nat (length (List.filter is_failed results)) ->
  exists r successful' failed' s',
    TemplatesApi.batch_item api settings generate_user_data request
      (results, successful, failed) s
    = (inr ((results ++ [r])%list, successful', failed'), s') /\
    resp_name r = cl_name request /\
    successful' + failed' = successful + failed + 1 /\
    failed' = Z.of_nat (length (List.filter is_failed (results ++ [r]))) /\
    (is_failed r = true -> resp_vmid r = 0 /\ resp_node r = "").
Proof.
  intros Hf.
  unfold TemplatesApi.batch_item, try_, mbind, M_bind, bind.
  destruct (TemplateService.clone_from_template api settings generate_user_data
              request s) as [[e|resp] s1] eqn:Hc.
  - destruct (exn_cls e); simpl; eexists _, _, _, _;
      (split; [reflexivity|]); rewrite filter_app_one; simpl;
      (split; [reflexivity|]); (split; [lia|]); (split; [lia|]); auto.
  - simpl. destruct (clone_from_template_name _ _ _ _ Hc) as [Hn Hnf].
    eexists _, _, _, _. split; [reflexivity|]. rewrite filter_app_one, Hnf.
    simpl. split; [exact Hn|]. split; [lia|]. split; [lia|]. discriminate.
Qed.

Lemma batch_clone_loop_spec requests :
  forall results successful failed (s : State W),
    failed = Z.of_nat (length (List.filter is_failed results)) ->
    exists rs successful' failed' s',
      TemplatesApi.batch_loop api settings generate_user_data requests
        (results, successful, failed) s
      = (inr ((results ++ rs)%list, successful', failed'), s') /\
      map resp_name rs = map cl_name requests /\
      successful' + failed' = successful + failed + Z.of_nat (length requests) /\
      failed' = Z.of_nat (length (List.filter is_failed (results ++ rs))) /\
      Forall (fun r => is_failed r = true -> resp_vmid r = 0 /\ resp_node r = "") rs.
Proof.
  induction requests as [|request rest IH]; intros results successful failed s Hf.
  - exists [], successful, failed, s. simpl. rewrite app_nil_r.
    repeat split; try lia; auto.
  - destruct (batch_clone_item_spec request results successful failed s Hf)
      as (r & a1 & b1 & s1 & Hitem & Hname & Hcount & Hf1 & Hzero).
    destruct (IH (results ++ [r])%list a1 b1 s1 Hf1)
      as (rs & a2 & b2 & s2 & Hloop & Hnames & Hcount2 & Hf2 & Hall).
    exists (r :: rs), a2, b2, s2.
    change (TemplatesApi.batch_loop api settings generate_user_data
              (request :: rest) (results, successful, failed) s)
      with (match TemplatesApi.batch_item api settings generate_user_data request
                    (results, successful, failed) s with
            | (inr acc', s1) =>
                TemplatesApi.batch_loop api settings generate_user_data rest acc' s1
            | (inl e, s1) => (inl e, s1)
            end).
    rewrite Hitem, Hloop. rewrite <- app_assoc in *. simpl.
    rewrite Hname, Hnames. repeat split; try lia; auto.
Qed.

(** For every list of N clone requests the batch of clones builds its
    report without raising: N results, the i-th named after the i-th
    request, successful + failed = total = N, [failed] being the number of
    results with status "failed"; a failed result carries the identifier 0
    and an empty node. *)
Theorem batch_clone_report (requests : list CloneRequest) (s : State W) :
  exists report s',
    TemplatesApi.batch_clone_response api settings generate_user_data requests s
    = (inr report, s') /\
    map resp_name (batch_results report) = map cl_name requests /\
    length (batch_results report) = length requests /\
    batch_total report = Z.of_nat (length requests) /\
    batch_successful report + batch_failed report = batch_total report /\
    batch_failed report =
      Z.of_nat (length (List.filter is_failed (batch_results report))) /\
    Forall (fun r => is_failed r = true -> resp_vmid r = 0 /\ resp_node r = "")
           (batch_results report).
Proof.
  destruct (batch_clone_loop_spec requests [] 0 0 s eq_refl)
    as (rs & a & b & s1 & Hloop & Hnames & Hcount & Hf & Hall).
  simpl in Hloop, Hf.
  unfold TemplatesApi.batch_clone_response, mbind, M_bind, bind.
  rewrite Hloop. simpl. eexists _, _. split; [reflexivity|]. simpl.
  split; [exact Hnames|]. split.
  { rewrite <- (length_map resp_name), Hnames, length_map. reflexivity. }
  repeat split; try lia; auto.
Qed.
End BatchClone.

(** ** The connection of the control-plane client *)
Section Connection.
Context {W : Type} (api : ProxmoxAPI W).

(** The [proxmox] property heals the connection.  When it returns, the
    service holds a connection; when it raises, it raises
    ProxmoxConnectionError and leaves the service as it was.  A live
    connection costs one version query and no re-connection; a connection
    whose test fails is re-opened and tested again. *)
Theorem proxmox_connection (s : State W) :
  (forall s', ProxmoxService.proxmox api s = (inr tt, s') -> connected s' = true) /\
  (forall e s', ProxmoxService.proxmox api s = (inl e, s') ->
                exn_cls e = ProxmoxConnectionError /\ connected s' = connected s) /\
  (connected s = true ->
   forall d w',
     api_version_get api (now s) (world s) = (inr d, w') ->
     ProxmoxService.proxmox api s =
       (inr tt, {| world := w'; now := now s; connected := true;
                   trace := (trace s ++ [EvVersionGet])%list |})) /\
  (connected s = true ->
   forall e w1 w2 d w3,
     api_version_get api (now s) (world s) = (inl e, w1) ->
     api_connect api (now s) w1 = (inr tt, w2) ->
     api_version_get api (now s) w2 = (inr d, w3) ->
     ProxmoxService.proxmox api s =
       (inr tt, {| world := w3; now := now s; connected := true;
                   trace := (trace s ++ [EvVersionGet; EvConnect; EvVersionGet])%list |})).
Proof.
  unfold ProxmoxService.proxmox, ProxmoxService.connect, try_, mbind, M_bind,
    bind, call, get_connected, set_connected, raise, mret, M_ret, ret. simpl.
  split; [|split; [|split]].
  - intros s'. destruct (connected s) eqn:Hc; simpl;
      repeat (match goal with
              | |- context [api_version_get api ?t ?w] =>
                  destruct (api_version_get api t w) as [[?|?] ?]
              | |- context [api_connect api ?t ?w] =>
                  destruct (api_connect api t w) as [[?|?] ?]
              | |- context [match exn_cls ?e with _ => _ end] =>
                  destruct (exn_cls e)
              end; simpl);
      intros H; try discriminate H; injection H as <-; simpl;
      rewrite ?Hc; reflexivity.
  - intros e s'. destruct (connected s) eqn:Hc; simpl;
      repeat (match goal with
              | |- context [api_version_get api ?t ?w] =>
                  destruct (api_version_get api t w) as [[?|?] ?]
              | |- context [api_connect api ?t ?w] =>
                  destruct (api_connect api t w) as [[?|?] ?]
              | |- context [match exn_cls ?e with _ => _ end] =>
                  destruct (exn_cls e)
              end; simpl);
      intros H; try discriminate H; injection H as <- <-; simpl;
      rewrite ?Hc; auto.
  - intros Hc d w' Hv. rewrite Hc. simpl. rewrite Hv. simpl.
    rewrite Hc. reflexivity.
  - intros Hc e w1 w2 d w3 Hv1 Hco Hv2. rewrite Hc. simpl.
    rewrite Hv1. simpl. rewrite Hco. simpl. rewrite Hv2. simpl.
    rewrite <- !app_assoc. reflexivity.
Qed.
End Connection.

(** The [proxmox] property on a connection that is alive. *)
Lemma proxmox_connection_witness :
  ProxmoxService.proxmox (scripted healthy_script)
    {| world := tt; now := 7; connected := true; trace := [] |}
  = (inr tt, {| world := tt; now := 7; connected := true;
                trace := [EvVersionGet] |}).
Proof.
  destruct (proxmox_connection (scripted healthy_script)
              {| world := tt; now := 7; connected := true; trace := [] |})
    as (_ & _ & Hlive & _).
  apply (Hlive eq_refl {["version" := PStr "8.1"]} tt). reflexivity.
Defined.
